(** * django-autotagger: the rule evaluation engine

    A shallow embedding of [autotag/rule_engine.py], [autotag/utils.py]
    and the tables of [autotag/models.py], with the properties of the
    specification stated and proved over it.

    Conventions.
    - Python values are the inductive [pyval]; a [dict] is an association
      list in insertion order (JSON objects have string keys).  A text is
      a sequence of characters of code below 256.
    - A computation that may raise has type [res A]; [try/except Exception]
      is a [match] on [Raise].
    - What the program takes from libraries (float coercion, [re.search],
      the CEL evaluator and its conversion of values, the JSON codec,
      Python's [compile]) is the interface [Runtime]; the development is
      generic in it.
    - The clock is read several times during a call of the engine; the
      readings of a call are a [clock].
    - The tables are those of the SQLite backend: the length of a text
      column is not enforced, an integer column holds 64 bits. *)

From Stdlib Require Import ZArith List String Ascii Bool Lia QArith.
From Stdlib Require Import Permutation Sorted DecimalString.
Import ListNotations.
Local Open Scope string_scope.
Local Open Scope Z_scope.

Set Implicit Arguments.

(* ================================================================== *)
(** ** Exceptions and results *)

Inductive exn_kind :=
| AttributeError | TypeError | ValueError | KeyError | IndexError
| OverflowError | ReError | CelError | JSONDecodeError
| IntegrityError | MultipleObjectsReturned.

Record exn := mkExn { exn_type : exn_kind; exn_msg : string }.

Inductive res (A : Type) :=
| Ok (a : A)
| Raise (e : exn).
Arguments Ok {A} a.
Arguments Raise {A} e.

Definition bind {A B} (m : res A) (k : A -> res B) : res B :=
  match m with
  | Ok a => k a
  | Raise e => Raise e
  end.

Notation "x <- m ;; k" := (bind m (fun x => k))
  (at level 61, m at next level, right associativity).

Definition raise {A} (k : exn_kind) (msg : string) : res A :=
  Raise (mkExn k msg).

Definition is_ok {A} (m : res A) : bool :=
  match m with Ok _ => true | Raise _ => false end.

Fixpoint mapM {A B} (f : A -> res B) (l : list A) : res (list B) :=
  match l with
  | [] => Ok []
  | a :: l' => b <- f a ;; bs <- mapM f l' ;; Ok (b :: bs)
  end.

(* ================================================================== *)
(** ** Python values *)

(** [PObj r] stands for a Python object that is not a JSON value (a
    [Decimal], a [datetime]); [r] is its [str()]. *)
Local Unset Elimination Schemes.
Inductive pyval :=
| PNone
| PBool (b : bool)
| PInt (z : Z)
| PStr (s : string)
| PList (l : list pyval)
| PDict (kvs : list (string * pyval))
| PObj (r : string).
Local Set Elimination Schemes.

Definition pydict := list (string * pyval).

(** [d.get(k)] at the level of the association list. *)
Fixpoint assoc (k : string) (kvs : pydict) : option pyval :=
  match kvs with
  | [] => None
  | (k', v) :: r => if String.eqb k k' then Some v else assoc k r
  end.

Definition has_key (k : string) (kvs : pydict) : bool :=
  match assoc k kvs with Some _ => true | None => false end.

(** [needle in hay] on strings. *)
Definition str_contains (needle hay : string) : bool :=
  match String.index 0 needle hay with
  | Some _ => true
  | None => false
  end.

Definition string_of_Z (z : Z) : string :=
  NilZero.string_of_int (Z.to_int z).

(** Truthiness ([if v:], [not v]); an object that is not a JSON value is
    taken as true. *)
Definition py_truthy (v : pyval) : bool :=
  match v with
  | PNone => false
  | PBool b => b
  | PInt z => negb (z =? 0)
  | PStr s => negb (String.eqb s "")
  | PList l => match l with [] => false | _ => true end
  | PDict kvs => match kvs with [] => false | _ => true end
  | PObj _ => true
  end.

Definition type_name (v : pyval) : string :=
  match v with
  | PNone => "NoneType"
  | PBool _ => "bool"
  | PInt _ => "int"
  | PStr _ => "str"
  | PList _ => "list"
  | PDict _ => "dict"
  | PObj _ => "object"
  end.

Definition no_attribute {A} (v : pyval) (attr : string) : res A :=
  raise AttributeError
    ("'" ++ type_name v ++ "' object has no attribute '" ++ attr ++ "'").

(** The values [json.dumps] accepts. *)
Fixpoint is_json (v : pyval) : bool :=
  match v with
  | PObj _ => false
  | PList l => forallb is_json l
  | PDict kvs =>
      (fix all (kvs : pydict) : bool :=
         match kvs with
         | [] => true
         | (_, x) :: r => is_json x && all r
         end) kvs
  | _ => true
  end.

(** What a [JSONField] column that is not nullable holds. *)
Definition stored_json (v : pyval) : bool :=
  match v with
  | PNone => false
  | _ => is_json v
  end.

(** [v.get(k)] and [v.get(k, default)]: only a dict has [get]. *)
Definition py_get (v : pyval) (k : string) (default : pyval) : res pyval :=
  match v with
  | PDict kvs => Ok (match assoc k kvs with Some x => x | None => default end)
  | _ => no_attribute v "get"
  end.

(* ================================================================== *)
(** ** The library interface *)

(** The CEL evaluation context built by [CelRuleProcessor.process]: the
    converted values of the transaction dict, of the metadata and of
    [now]. *)
Record cel_context (F : Type) := mkCtx {
  ctx_product_code : pyval;
  ctx_produce_rate : F;
  ctx_ledger_type : pyval;
  ctx_source : pyval;
  ctx_jurisdiction : pyval;
  ctx_created_at : string;
  ctx_metadata : pyval;
  ctx_now : string
}.

Class Runtime := {
  (** Python floats, [float(v)] for [v] other than [None], and [<]. *)
  pyfloat : Type;
  float_of : pyval -> res pyfloat;
  float_ltb : pyfloat -> pyfloat -> bool;
  (** [str(v)] of lists and dicts. *)
  container_str : pyval -> string;
  (** [a == b] when one side is a [PObj]. *)
  obj_eq : pyval -> pyval -> bool;
  (** [bool(re.search(pattern, text))]. *)
  re_search : string -> string -> res bool;
  (** [celpy.json_to_cel]: the CEL value of a JSON value, or the
      exception for a value that has none (an integer outside 64 bits, an
      object that is not a JSON value). *)
  json_to_cel : pyval -> res pyval;
  (** [env.compile], [env.program], [program.evaluate] and the unwrapping
      of the CEL result, in one step. *)
  cel_evaluate : string -> cel_context pyfloat -> res pyval;
  (** [json.dumps] and [json.loads]. *)
  json_text : Type;
  json_dumps : pyval -> res json_text;
  json_loads : json_text -> res pyval;
  (** Whether [compile(src, '<string>', 'exec')] accepts [src]. *)
  python_compiles : string -> bool
}.

(* ================================================================== *)
(** ** Python operators on values *)

Section Builtins.
Context {rt : Runtime}.

(** [a == b].  [bool] is a subtype of [int] ([True == 1]); dicts compare
    without regard to order. *)
Fixpoint py_eq (a b : pyval) {struct a} : bool :=
  match a with
  | PNone => match b with PNone => true | _ => false end
  | PBool x =>
      match b with
      | PBool y => Bool.eqb x y
      | PInt z => (if x then 1 else 0) =? z
      | PObj _ => obj_eq a b
      | _ => false
      end
  | PInt x =>
      match b with
      | PInt y => x =? y
      | PBool y => x =? (if y then 1 else 0)
      | PObj _ => obj_eq a b
      | _ => false
      end
  | PStr x =>
      match b with
      | PStr y => String.eqb x y
      | PObj _ => obj_eq a b
      | _ => false
      end
  | PList xs =>
      match b with
      | PList ys =>
          (fix all2 (xs : list pyval) (ys : list pyval) : bool :=
             match xs, ys with
             | [], [] => true
             | x :: xs', y :: ys' => py_eq x y && all2 xs' ys'
             | _, _ => false
             end) xs ys
      | PObj _ => obj_eq a b
      | _ => false
      end
  | PDict xs =>
      match b with
      | PDict ys =>
          (Nat.eqb (List.length xs) (List.length ys)) &&
          (fix every (xs : pydict) : bool :=
             match xs with
             | [] => true
             | (k, x) :: xs' =>
                 (fix find (ys : pydict) : bool :=
                    match ys with
                    | [] => false
                    | (k', y) :: ys' =>
                        if String.eqb k k' then py_eq x y else find ys'
                    end) ys && every xs'
             end) xs
      | PObj _ => obj_eq a b
      | _ => false
      end
  | PObj _ => match b with PNone => false | _ => obj_eq a b end
  end.

(** [str(v)]. *)
Definition py_str (v : pyval) : string :=
  match v with
  | PNone => "None"
  | PBool true => "True"
  | PBool false => "False"
  | PInt z => string_of_Z z
  | PStr s => s
  | PList _ | PDict _ => container_str v
  | PObj r => r
  end.

(** [float(v)]: [float(None)] is a [TypeError]. *)
Definition py_float (v : pyval) : res pyfloat :=
  match v with
  | PNone =>
      raise TypeError
        "float() argument must be a string or a real number, not 'NoneType'"
  | _ => float_of v
  end.

Definition unhashable {A} (v : pyval) : res A :=
  raise TypeError ("unhashable type: '" ++ type_name v ++ "'").

(** [x in c]. *)
Definition py_in (x c : pyval) : res bool :=
  match c with
  | PDict kvs =>
      match x with
      | PStr k => Ok (has_key k kvs)
      | PList _ | PDict _ => unhashable x
      | _ => Ok false
      end
  | PList l => Ok (existsb (py_eq x) l)
  | PStr s =>
      match x with
      | PStr n => Ok (str_contains n s)
      | _ =>
          raise TypeError
            ("'in <string>' requires string as left operand, not " ++
             type_name x)
      end
  | _ =>
      raise TypeError
        ("argument of type '" ++ type_name c ++ "' is not iterable")
  end.

(** The position an index denotes in a sequence of length [n]: negative
    indices count from the end, [True] and [False] are 1 and 0. *)
Definition index_of (k : pyval) (n : nat) : option (option nat) :=
  let at_ (i : Z) :=
    let j := if i <? 0 then i + Z.of_nat n else i in
    if (0 <=? j) && (j <? Z.of_nat n) then Some (Z.to_nat j) else None in
  match k with
  | PInt i => Some (at_ i)
  | PBool b => Some (at_ (if b then 1 else 0))
  | _ => None
  end.

(** [c[k]]. *)
Definition py_getitem (c k : pyval) : res pyval :=
  match c with
  | PDict kvs =>
      match k with
      | PStr s =>
          match assoc s kvs with
          | Some v => Ok v
          | None => raise KeyError ("'" ++ s ++ "'")
          end
      | PList _ | PDict _ => unhashable k
      | _ => raise KeyError (py_str k)
      end
  | PList l =>
      match index_of k (List.length l) with
      | Some (Some j) => Ok (nth j l PNone)
      | Some None => raise IndexError "list index out of range"
      | None =>
          raise TypeError
            ("list indices must be integers or slices, not " ++ type_name k)
      end
  | PStr s =>
      match index_of k (String.length s) with
      | Some (Some j) => Ok (PStr (String.substring j 1 s))
      | Some None => raise IndexError "string index out of range"
      | None =>
          raise TypeError
            ("string indices must be integers, not '" ++ type_name k ++ "'")
      end
  | _ =>
      raise TypeError
        ("'" ++ type_name c ++ "' object is not subscriptable")
  end.

Fixpoint chars (s : string) : list pyval :=
  match s with
  | EmptyString => []
  | String a s' => PStr (String a EmptyString) :: chars s'
  end.

(** The elements a [for] loop over [v] visits. *)
Definition py_iter (v : pyval) : res (list pyval) :=
  match v with
  | PList l => Ok l
  | PDict kvs => Ok (map (fun kv => PStr (fst kv)) kvs)
  | PStr s => Ok (chars s)
  | _ =>
      raise TypeError ("'" ++ type_name v ++ "' object is not iterable")
  end.

End Builtins.

(* ================================================================== *)
(** ** Transactions ([transactions/models.py]) *)

(** A [Transaction] instance as the engine sees it.  [created_at_iso] is
    the text the CEL context receives for [created_at]; [external_data]
    is the metadata of the related [ExternalData] row when there is one
    ([hasattr(transaction, 'external_data')]); [other_attributes] are the
    attributes of the instance that are not columns (methods, managers,
    relations), as objects. *)
Record Transaction := mkTransaction {
  txn_id : Z;
  product_code : pyval;
  produce_rate : pyval;
  ledger_type : pyval;
  source : pyval;
  jurisdiction : pyval;
  created_at : pyval;
  created_at_iso : string;
  updated_at : pyval;
  external_data : option pyval;
  other_attributes : pydict
}.

(** [getattr(transaction, name, None)]. *)
Definition txn_getattr (t : Transaction) (name : string) : pyval :=
  if String.eqb name "id" then PInt (txn_id t)
  else if String.eqb name "pk" then PInt (txn_id t)
  else if String.eqb name "product_code" then product_code t
  else if String.eqb name "produce_rate" then produce_rate t
  else if String.eqb name "ledger_type" then ledger_type t
  else if String.eqb name "source" then source t
  else if String.eqb name "jurisdiction" then jurisdiction t
  else if String.eqb name "created_at" then created_at t
  else if String.eqb name "updated_at" then updated_at t
  else match assoc name (other_attributes t) with
       | Some v => v
       | None => PNone
       end.

Definition txn_attributes : list string :=
  ["id"; "pk"; "product_code"; "produce_rate"; "ledger_type"; "source";
   "jurisdiction"; "created_at"; "updated_at"].

(* ================================================================== *)
(** ** ConditionalRuleProcessor *)

Module Conditional.
Section WithRuntime.
Context {rt : Runtime}.

(** [_get_field_value]. *)
Definition get_field_value (t : Transaction) (metadata field_path : pyval)
  : res pyval :=
  match field_path with
  | PStr p =>
      if String.prefix "metadata." p
      then py_get metadata (String.substring 9 (String.length p - 9) p) PNone
      else Ok (txn_getattr t p)
  | _ => no_attribute field_path "startswith"
  end.

(** [except (ValueError, TypeError)]. *)
Definition value_or_type_error (e : exn) : bool :=
  match exn_type e with
  | ValueError | TypeError => true
  | _ => false
  end.

(** [_compare_values]. *)
Definition compare_values (actual operator expected : pyval) : res bool :=
  if py_eq operator (PStr "equals") then Ok (py_eq actual expected)
  else if py_eq operator (PStr "not_equals") then
    Ok (negb (py_eq actual expected))
  else if py_eq operator (PStr "greater_than") then
    match (a <- py_float actual ;; e <- py_float expected ;;
           Ok (float_ltb e a)) with
    | Ok b => Ok b
    | Raise e =>
        if value_or_type_error e
        then Ok (String.ltb (py_str expected) (py_str actual))
        else Raise e
    end
  else if py_eq operator (PStr "less_than") then
    match (a <- py_float actual ;; e <- py_float expected ;;
           Ok (float_ltb a e)) with
    | Ok b => Ok b
    | Raise e =>
        if value_or_type_error e
        then Ok (String.ltb (py_str actual) (py_str expected))
        else Raise e
    end
  else if py_eq operator (PStr "contains") then
    Ok (str_contains (py_str expected) (py_str actual))
  else if py_eq operator (PStr "regex") then
    re_search (py_str expected) (py_str actual)
  else Ok false.

(** The single-condition branch of [_evaluate_condition]. *)
Definition evaluate_leaf (t : Transaction) (metadata : pyval)
    (condition : pydict) : res bool :=
  let field := match assoc "field" condition with
               | Some v => v | None => PNone end in
  let operator := match assoc "operator" condition with
                  | Some v => v | None => PNone end in
  let expected_value := match assoc "value" condition with
                        | Some v => v | None => PNone end in
  actual_value <- get_field_value t metadata field ;;
  compare_values actual_value operator expected_value.

(** [_evaluate_condition] on a value that is not a dict: the membership
    test may pass, and [condition.get] then fails. *)
Definition evaluate_non_dict (condition : pyval) : res bool :=
  _ <- py_in (PStr "conditions") condition ;;
  no_attribute condition "get".

(** The branch on the nested operator. *)
Definition combine (operator : pyval) (results : list bool) : bool :=
  if py_eq operator (PStr "and") then forallb (fun b => b) results
  else if py_eq operator (PStr "or") then existsb (fun b => b) results
  else false.

(** [_evaluate_condition].  The list comprehension evaluates every
    sub-condition, in order, before [all]/[any] is applied.  When
    [condition['conditions']] is a string or a dict, the loop runs over
    characters or keys, which are strings. *)
Fixpoint evaluate_condition (t : Transaction) (metadata : pyval)
    (condition : pyval) {struct condition} : res bool :=
  match condition with
  | PDict kvs =>
      match
        (fix nested (l : pydict) : option (res (list bool)) :=
           match l with
           | [] => None
           | (k, v) :: r =>
               if String.eqb "conditions" k then
                 Some
                   match v with
                   | PList subs =>
                       (fix each (subs : list pyval) : res (list bool) :=
                          match subs with
                          | [] => Ok []
                          | s :: subs' =>
                              b <- evaluate_condition t metadata s ;;
                              bs <- each subs' ;;
                              Ok (b :: bs)
                          end) subs
                   | _ => subs <- py_iter v ;; mapM evaluate_non_dict subs
                   end
               else nested r
           end) kvs
      with
      | Some results =>
          let operator := match assoc "operator" kvs with
                          | Some v => v | None => PStr "and" end in
          rs <- results ;;
          Ok (combine operator rs)
      | None => evaluate_leaf t metadata kvs
      end
  | _ => evaluate_non_dict condition
  end.

(** The results of the sub-conditions of [condition['conditions']]. *)
Definition evaluate_each (t : Transaction) (metadata : pyval) (v : pyval)
  : res (list bool) :=
  match v with
  | PList subs => mapM (evaluate_condition t metadata) subs
  | _ => subs <- py_iter v ;; mapM evaluate_non_dict subs
  end.

(** [ConditionalRuleProcessor.process]. *)
Fixpoint first_true (t : Transaction) (metadata : pyval)
    (conditions : list pyval) : res pyval :=
  match conditions with
  | [] => Ok PNone
  | c :: rest =>
      b <- evaluate_condition t metadata c ;;
      if b then py_get c "tag" PNone
      else first_true t metadata rest
  end.

Definition process (t : Transaction) (metadata rule_config : pyval)
  : res pyval :=
  conditions <- py_get rule_config "conditions" (PList []) ;;
  cs <- py_iter conditions ;;
  first_true t metadata cs.

End WithRuntime.
End Conditional.

(* ================================================================== *)
(** ** SimpleRuleProcessor *)

Module Simple.
Section WithRuntime.
Context {rt : Runtime}.

Definition transaction_fields : list string :=
  ["product_code"; "source"; "jurisdiction"; "ledger_type"].

Definition is_transaction_field (field_name : string) : bool :=
  existsb (String.eqb field_name) transaction_fields.

(** The test of the first loop on one item:
    [transaction_value and transaction_value in field_mappings]. *)
Definition transaction_hit (t : Transaction) (field_name : string)
    (field_mappings : pyval) : res bool :=
  let transaction_value := txn_getattr t field_name in
  if py_truthy transaction_value
  then py_in transaction_value field_mappings
  else Ok false.

(** The first loop; [Some v] is [return v], [None] is falling out of the
    loop. *)
Fixpoint transaction_pass (t : Transaction) (items : pydict)
  : res (option pyval) :=
  match items with
  | [] => Ok None
  | (field_name, field_mappings) :: rest =>
      if is_transaction_field field_name then
        hit <- transaction_hit t field_name field_mappings ;;
        if hit then
          v <- py_getitem field_mappings (txn_getattr t field_name) ;;
          Ok (Some v)
        else transaction_pass t rest
      else transaction_pass t rest
  end.

(** The test of the second loop on one item that is not skipped. *)
Definition metadata_hit (metadata : pyval) (field_name : string)
    (field_mappings : pyval) : res (option pyval) :=
  present <- py_in (PStr field_name) metadata ;;
  if present then
    value <- py_getitem metadata (PStr field_name) ;;
    hit <- py_in (PStr (py_str value)) field_mappings ;;
    if hit then
      v <- py_getitem field_mappings (PStr (py_str value)) ;;
      Ok (Some v)
    else Ok None
  else Ok None.

(** The second loop. *)
Fixpoint metadata_pass (metadata : pyval) (items : pydict)
  : res (option pyval) :=
  match items with
  | [] => Ok None
  | (field_name, field_mappings) :: rest =>
      if is_transaction_field field_name then metadata_pass metadata rest
      else
        r <- metadata_hit metadata field_name field_mappings ;;
        match r with
        | Some v => Ok (Some v)
        | None => metadata_pass metadata rest
        end
  end.

(** Both loops over [mappings.items()]. *)
Definition process_items (t : Transaction) (metadata : pyval)
    (items : pydict) : res pyval :=
  r1 <- transaction_pass t items ;;
  match r1 with
  | Some v => Ok v
  | None =>
      r2 <- metadata_pass metadata items ;;
      match r2 with
      | Some v => Ok v
      | None => Ok PNone
      end
  end.

(** [SimpleRuleProcessor.process]. *)
Definition process (t : Transaction) (metadata rule_config : pyval)
  : res pyval :=
  mappings <- py_get rule_config "mappings" (PDict []) ;;
  match mappings with
  | PDict items => process_items t metadata items
  | _ => no_attribute mappings "items"
  end.

(** A configuration with the given [mappings]. *)
Definition config_of (items : pydict) : pyval :=
  PDict [("mappings", PDict items)].

End WithRuntime.

(** The two partitions of [mappings.items()]. *)
Definition transaction_item (item : string * pyval) : bool :=
  is_transaction_field (fst item).

Definition metadata_item (item : string * pyval) : bool :=
  negb (is_transaction_field (fst item)).

End Simple.

(* ================================================================== *)
(** ** CelRuleProcessor *)

Inductive log_level := WARNING | ERROR.

(** A record sent to the [autotag.security] logger. *)
Record log_event := mkLog {
  log_lvl : log_level;
  log_message : string;
  event_type : string
}.

Module Cel.
Section WithRuntime.
Context {rt : Runtime}.

(** The characters [str.strip()] removes, those for which [str.isspace()]
    holds: the controls 9 to 13 and 28 to 31, the space, and in the upper
    half the next-line control 133 and the no-break space 160. *)
Definition is_space (a : ascii) : bool :=
  let n := nat_of_ascii a in
  ((9 <=? n) && (n <=? 13) || (28 <=? n) && (n <=? 32)
   || (n =? 133) || (n =? 160))%nat.

Fixpoint blank (s : string) : bool :=
  match s with
  | EmptyString => true
  | String a s' => is_space a && blank s'
  end.

(** [v[:n]]. *)
Definition py_prefix (v : pyval) (n : nat) : res pyval :=
  match v with
  | PStr s => Ok (PStr (String.substring 0 n s))
  | PList l => Ok (PList (firstn n l))
  | PDict _ => raise TypeError "unhashable type: 'slice'"
  | _ =>
      raise TypeError
        ("'" ++ type_name v ++ "' object is not subscriptable")
  end.

(** The [context] dictionary of [process].  The dict of the transaction
    is built first, which calls [float(transaction.produce_rate)];
    [json_to_cel] then converts its values in the order of the keys (a
    float and a text always convert), and after it the metadata and
    [now].  Each step can raise. *)
Definition build_context (now : string) (t : Transaction) (metadata : pyval)
  : res (cel_context pyfloat) :=
  rate <- py_float (produce_rate t) ;;
  code <- json_to_cel (product_code t) ;;
  ledger <- json_to_cel (ledger_type t) ;;
  src <- json_to_cel (source t) ;;
  jur <- json_to_cel (jurisdiction t) ;;
  md <- json_to_cel metadata ;;
  Ok {| ctx_product_code := code;
        ctx_produce_rate := rate;
        ctx_ledger_type := ledger;
        ctx_source := src;
        ctx_jurisdiction := jur;
        ctx_created_at := created_at_iso t;
        ctx_metadata := md;
        ctx_now := now |}.

(** Compiling and evaluating [expression]; only text can be compiled. *)
Definition run_expression (expression : pyval) (ctx : cel_context pyfloat)
  : res pyval :=
  match expression with
  | PStr src => cel_evaluate src ctx
  | _ =>
      raise TypeError
        ("expected str, got " ++ type_name expression)
  end.

Definition expression_error : log_event :=
  mkLog WARNING "CEL expression evaluation failed" "cel_expression_error".

Definition condition_error : log_event :=
  mkLog WARNING "CEL condition evaluation failed" "cel_condition_error".

Definition legacy_script : log_event :=
  mkLog WARNING
    "Python script detected in legacy rule - CEL expressions required"
    "legacy_python_script".

Definition evaluation_error : log_event :=
  mkLog ERROR "CEL expression evaluation error" "cel_evaluation_error".

(** A computation that logs and may raise: the result and the events
    emitted up to the return or the raise. *)
Definition logged (A : Type) : Type := (res A * list log_event)%type.

(** [_evaluate_single_expression]. *)
Definition evaluate_single_expression (rule_config : pyval)
    (ctx : cel_context pyfloat) : logged pyval :=
  match py_get rule_config "expression" (PStr "") with
  | Raise e => (Raise e, [])
  | Ok expression =>
      match py_get rule_config "default_tag" PNone with
      | Raise e => (Raise e, [])
      | Ok default_tag =>
          if negb (py_truthy expression) then (Ok default_tag, [])
          else
            match run_expression expression ctx with
            | Ok (PStr s) =>
                if negb (blank s) then (Ok (PStr s), [])
                else (Ok default_tag, [])
            | Ok _ => (Ok default_tag, [])
            | Raise _ => (Ok default_tag, [expression_error])
            end
      end
  end.

(** The loop of [_evaluate_conditions]; [None] is falling out of it. *)
Fixpoint conditions_loop (ctx : cel_context pyfloat)
    (conditions : list pyval) : logged (option pyval) :=
  match conditions with
  | [] => (Ok None, [])
  | condition :: rest =>
      match py_get condition "expression" (PStr "") with
      | Raise e => (Raise e, [])
      | Ok expression =>
          match py_get condition "tag" PNone with
          | Raise e => (Raise e, [])
          | Ok tag =>
              if negb (py_truthy expression) || negb (py_truthy tag)
              then conditions_loop ctx rest
              else
                match run_expression expression ctx with
                | Ok result_value =>
                    if py_truthy result_value then (Ok (Some tag), [])
                    else conditions_loop ctx rest
                | Raise _ =>
                    let (r, evs) := conditions_loop ctx rest in
                    (r, condition_error :: evs)
                end
          end
      end
  end.

(** [_evaluate_conditions]. *)
Definition evaluate_conditions (rule_config : pyval)
    (ctx : cel_context pyfloat) : logged pyval :=
  match py_get rule_config "conditions" (PList []) with
  | Raise e => (Raise e, [])
  | Ok conditions =>
      match py_get rule_config "default_tag" PNone with
      | Raise e => (Raise e, [])
      | Ok default_tag =>
          match py_iter conditions with
          | Raise e => (Raise e, [])
          | Ok cs =>
              match conditions_loop ctx cs with
              | (Ok (Some tag), evs) => (Ok tag, evs)
              | (Ok None, evs) => (Ok default_tag, evs)
              | (Raise e, evs) => (Raise e, evs)
              end
          end
      end
  end.

(** [script_content and not ('def ' in script_content or
    'return' in script_content)]. *)
Definition looks_like_cel (script_content : pyval) : res bool :=
  if py_truthy script_content then
    d <- py_in (PStr "def ") script_content ;;
    if d then Ok false
    else r <- py_in (PStr "return") script_content ;; Ok (negb r)
  else Ok false.

(** The legacy branch of [process], entered when ['script'] is a key. *)
Definition legacy_branch (rule_config : pyval) (ctx : cel_context pyfloat)
  : logged pyval :=
  match py_get rule_config "script" (PStr "") with
  | Raise e => (Raise e, [])
  | Ok script_content =>
      match looks_like_cel script_content with
      | Raise e => (Raise e, [])
      | Ok true =>
          evaluate_single_expression
            (PDict [("expression", script_content)]) ctx
      | Ok false =>
          match py_prefix script_content 100 with
          | Raise e => (Raise e, [])
          | Ok _ => (Ok PNone, [legacy_script])
          end
      end
  end.

(** The body of the [try] of [process]. *)
Definition process_body (now : string) (t : Transaction)
    (metadata rule_config : pyval) : logged pyval :=
  match build_context now t metadata with
  | Raise e => (Raise e, [])
  | Ok ctx =>
      match py_in (PStr "expression") rule_config with
      | Raise e => (Raise e, [])
      | Ok true => evaluate_single_expression rule_config ctx
      | Ok false =>
          match py_in (PStr "conditions") rule_config with
          | Raise e => (Raise e, [])
          | Ok true => evaluate_conditions rule_config ctx
          | Ok false =>
              match py_in (PStr "script") rule_config with
              | Raise e => (Raise e, [])
              | Ok true => legacy_branch rule_config ctx
              | Ok false => (Ok PNone, [])
              end
          end
      end
  end.

(** [CelRuleProcessor.process]: the returned value and the events sent
    to the security logger.  [now] is [timezone.now().isoformat()]. *)
Definition process (now : string) (t : Transaction)
    (metadata rule_config : pyval) : pyval * list log_event :=
  match process_body now t metadata rule_config with
  | (Ok v, evs) => (v, evs)
  | (Raise _, evs) => (PNone, (evs ++ [evaluation_error])%list)
  end.

End WithRuntime.
End Cel.

(* ================================================================== *)
(** ** The tables ([autotag/models.py]) *)

Record Company := mkCompany {
  company_id : Z;
  company_name : string;
  company_code : string;
  company_is_active : bool
}.

Record TaggingRule := mkRule {
  rule_company : Z;
  rule_name : string;
  rule_type : string;
  priority : Z;
  rule_config : pyval;
  conditions : pyval;
  is_active : bool
}.

Record TransactionTag := mkTag {
  tt_transaction : Z;
  tt_company : Z;
  tag_code : pyval;
  confidence_score : Q;
  is_manual_override : bool;
  processing_notes : string;
  tt_updated_at : string
}.

(** The rows of the three tables, in insertion order. *)
Record Database := mkDb {
  companies : list Company;
  tagging_rules : list TaggingRule;
  transaction_tags : list TransactionTag
}.

(** The readings of the clock during one call of [tag_transaction]:
    [timezone.now()] is called by the CEL processor each time it is
    invoked ([reading r] is what it gets when invoked for the rule [r]),
    and once more when the tag is saved ([at_save]: [updated_at] has
    [auto_now]). *)
Record clock := mkClock {
  reading : TaggingRule -> string;
  at_save : string
}.

(** A clock that gives the same reading each time. *)
Definition steady (instant : string) : clock :=
  mkClock (fun _ => instant) instant.

(** [unique_together = ['transaction', 'company']]. *)
Definition tag_for (txn company : Z) (row : TransactionTag) : bool :=
  (tt_transaction row =? txn) && (tt_company row =? company).

Definition tags_of (txn company : Z) (rows : list TransactionTag)
  : list TransactionTag :=
  filter (tag_for txn company) rows.

Definition tags_unique (rows : list TransactionTag) : Prop :=
  forall txn company, (List.length (tags_of txn company rows) <= 1)%nat.

(** [unique_together = ['company', 'name']]. *)
Definition rule_for (company : Z) (name : string) (r : TaggingRule) : bool :=
  (rule_company r =? company) && String.eqb (rule_name r) name.

Definition rules_unique (rules : list TaggingRule) : Prop :=
  forall company,
    NoDup (map rule_name
             (filter (fun r => rule_company r =? company) rules)).

(* ================================================================== *)
(** ** AutoTagEngine *)

Module Engine.
Section WithRuntime.
Context {rt : Runtime}.

Inductive processor := SimpleP | ConditionalP | CelP | MLP.

(** The [PROCESSORS] table. *)
Definition PROCESSORS (rule_type : string) : option processor :=
  if String.eqb rule_type "simple" then Some SimpleP
  else if String.eqb rule_type "conditional" then Some ConditionalP
  else if String.eqb rule_type "script" then Some CelP
  else if String.eqb rule_type "cel" then Some CelP
  else if String.eqb rule_type "ml" then Some MLP
  else None.

(** [processor.process(transaction, metadata, rule.rule_config)]; [now]
    is what the CEL processor reads from the clock. *)
Definition run_processor (p : processor) (now : string) (t : Transaction)
    (metadata rule_config : pyval) : res pyval :=
  match p with
  | SimpleP => Simple.process t metadata rule_config
  | ConditionalP => Conditional.process t metadata rule_config
  | CelP => Ok (fst (Cel.process now t metadata rule_config))
  | MLP => Ok PNone
  end.

(** [_check_rule_conditions]. *)
Definition check_rule_conditions (t : Transaction) (metadata conds : pyval)
  : res bool :=
  if negb (py_truthy conds) then Ok true
  else Conditional.evaluate_condition t metadata conds.

(** [filter(is_active=True).order_by('priority')]: ascending priority,
    rows of equal priority in insertion order. *)
Fixpoint insert_by_priority (r : TaggingRule) (l : list TaggingRule)
  : list TaggingRule :=
  match l with
  | [] => [r]
  | x :: l' =>
      if priority r <=? priority x then r :: l
      else x :: insert_by_priority r l'
  end.

Definition order_by_priority (l : list TaggingRule) : list TaggingRule :=
  fold_right insert_by_priority [] l.

Definition active_rule_of (company : Company) (r : TaggingRule) : bool :=
  (rule_company r =? company_id company) && is_active r.

Definition active_rules (db : Database) (company : Company)
  : list TaggingRule :=
  order_by_priority (filter (active_rule_of company) (tagging_rules db)).

(** What the loop did with the rule at a position of the evaluation
    order: checked its guard, invoked its processor. *)
Inductive event :=
| GuardChecked (pos : nat) (r : TaggingRule)
| ProcessorInvoked (pos : nat) (r : TaggingRule).

Definition event_pos (ev : event) : nat :=
  match ev with
  | GuardChecked pos _ => pos
  | ProcessorInvoked pos _ => pos
  end.

(** The local variables of the loop, and the record of what it did. *)
Record loop_state := mkState {
  best_tag : pyval;
  best_confidence : Q;
  notes : list string;
  trace : list event
}.

Definition initial_state : loop_state :=
  mkState PNone 0 [] [].

Definition Qgtb (x y : Q) : bool := negb (Qle_bool x y).

Definition matched_note (r : TaggingRule) (tag : pyval) : string :=
  "Rule '" ++ rule_name r ++ "' matched: " ++ py_str tag.

Definition failed_note (r : TaggingRule) (e : exn) : string :=
  "Rule '" ++ rule_name r ++ "' failed: " ++ exn_msg e.

Definition with_events (st : loop_state) (ev : list event) : loop_state :=
  mkState (best_tag st) (best_confidence st) (notes st)
          (trace st ++ ev)%list.

(** The state after [processor.process] returned the non-empty
    [tag_code]. *)
Definition record_match (st : loop_state) (r : TaggingRule)
    (tag_code : pyval) : loop_state :=
  let confidence := 1%Q in
  let better := Qgtb confidence (best_confidence st) in
  mkState (if better then tag_code else best_tag st)
          (if better then confidence else best_confidence st)
          (notes st ++ [matched_note r tag_code])%list
          (trace st).

Definition record_failure (st : loop_state) (r : TaggingRule) (e : exn)
  : loop_state :=
  mkState (best_tag st) (best_confidence st)
          (notes st ++ [failed_note r e])%list (trace st).

(** The [for rule in rules] loop; [pos] is the position of the head of
    [rules] in the evaluation order.  The guard is checked outside the
    [try], the processor is invoked inside it. *)
Fixpoint rules_loop (now : clock) (t : Transaction) (metadata : pyval)
    (pos : nat) (rules : list TaggingRule) (st : loop_state)
  : res loop_state :=
  match rules with
  | [] => Ok st
  | rule :: rest =>
      match PROCESSORS (rule_type rule) with
      | None => rules_loop now t metadata (S pos) rest st
      | Some p =>
          let st := with_events st [GuardChecked pos rule] in
          met <- check_rule_conditions t metadata (conditions rule) ;;
          if negb met then rules_loop now t metadata (S pos) rest st
          else
            let st := with_events st [ProcessorInvoked pos rule] in
            match run_processor p (reading now rule) t metadata
                    (rule_config rule) with
            | Ok tag_code =>
                if py_truthy tag_code then
                  let confidence := 1%Q in
                  let st := record_match st rule tag_code in
                  if (priority rule <? 50) && Qgtb confidence (9 # 10)
                  then Ok st
                  else rules_loop now t metadata (S pos) rest st
                else rules_loop now t metadata (S pos) rest st
            | Raise e =>
                rules_loop now t metadata (S pos) rest
                           (record_failure st rule e)
            end
      end
  end.

(** What the [CharField] [tag_code] stores for a value: the text itself,
    and for a value that is not a text its [str()]
    ([CharField.get_prep_value]). *)
Definition as_stored (tag : pyval) : pyval :=
  match tag with
  | PNone => PNone
  | PStr s => PStr s
  | _ => PStr (py_str tag)
  end.

(** The row after the update: the columns that [defaults] names are
    written, [updated_at] is set at the save ([now]), and
    [is_manual_override] is not touched. *)
Definition apply_defaults (tag : pyval) (confidence : Q) (notes_text : string)
    (now : string) (row : TransactionTag) : TransactionTag :=
  mkTag (tt_transaction row) (tt_company row) (as_stored tag) confidence
        (is_manual_override row) notes_text now.

(** The table after the update of the rows of the pair. *)
Definition write_defaults (txn company : Z) (tag : pyval) (confidence : Q)
    (notes_text : string) (now : string) (row : TransactionTag)
  : TransactionTag :=
  if tag_for txn company row
  then apply_defaults tag confidence notes_text now row
  else row.

(** [TransactionTag.objects.update_or_create(transaction=, company=,
    defaults=)]: the row of the pair is updated, or a row is created
    with the model's default for [is_manual_override]; [now] is the
    reading of the clock at the save. *)
Definition update_or_create (rows : list TransactionTag) (txn company : Z)
    (tag : pyval) (confidence : Q) (notes_text : string) (now : string)
  : res (list TransactionTag) :=
  match tags_of txn company rows with
  | [] =>
      Ok (rows ++ [mkTag txn company (as_stored tag) confidence false
                         notes_text now])%list
  | [_] =>
      Ok (map (write_defaults txn company tag confidence notes_text now) rows)
  | _ =>
      raise MultipleObjectsReturned
        "get() returned more than one TransactionTag"
  end.

Definition metadata_of (t : Transaction) : pyval :=
  match external_data t with
  | Some m => m
  | None => PDict []
  end.

(** ['\n'.join(processing_notes)]. *)
Definition joined (notes : list string) : string :=
  String.concat (String (ascii_of_nat 10) "") notes.

(** The end of [tag_transaction], after the loop.  The value returned is
    [best_tag] as the processor gave it; the row holds it as the column
    stores it. *)
Definition persist (db : Database) (now : clock) (t : Transaction)
    (company : Company) (st : loop_state) : res (pyval * Database) :=
  if py_truthy (best_tag st) then
    rows <- update_or_create (transaction_tags db) (txn_id t)
              (company_id company) (best_tag st) (best_confidence st)
              (joined (notes st)) (at_save now) ;;
    Ok (best_tag st, mkDb (companies db) (tagging_rules db) rows)
  else Ok (PNone, db).

(** [AutoTagEngine.tag_transaction]: the returned tag ([PNone] for
    [None]) and the database after the call.  [now] holds the readings
    of [timezone.now()] during the call. *)
Definition tag_transaction (db : Database) (now : clock) (t : Transaction)
    (company : Company) : res (pyval * Database) :=
  st <- rules_loop now t (metadata_of t) 0 (active_rules db company)
          initial_state ;;
  persist db now t company st.

(** The guard checks and processor invocations of a call. *)
Definition consulted (db : Database) (now : clock) (t : Transaction)
    (company : Company) : res (list event) :=
  st <- rules_loop now t (metadata_of t) 0 (active_rules db company)
          initial_state ;;
  Ok (trace st).

(** *** What the specification says the engine computes *)

(** The tag of a rule that has a processor, whose guard passes and whose
    processor returns a non-empty tag. *)
Definition rule_tag (now : clock) (t : Transaction) (metadata : pyval)
    (r : TaggingRule) : option pyval :=
  match PROCESSORS (rule_type r) with
  | None => None
  | Some p =>
      match check_rule_conditions t metadata (conditions r) with
      | Ok true =>
          match run_processor p (reading now r) t metadata (rule_config r) with
          | Ok tag_code => if py_truthy tag_code then Some tag_code else None
          | Raise _ => None
          end
      | _ => None
      end
  end.

(** The tag of the first rule of the list that yields one. *)
Fixpoint first_match (now : clock) (t : Transaction) (metadata : pyval)
    (rules : list TaggingRule) : pyval :=
  match rules with
  | [] => PNone
  | r :: rest =>
      match rule_tag now t metadata r with
      | Some tag_code => tag_code
      | None => first_match now t metadata rest
      end
  end.

Definition by_priority (a b : TaggingRule) : Prop :=
  priority a <= priority b.

(** The two shapes of the loop variables: nothing chosen yet, or a
    non-empty tag chosen with the stock confidence. *)
Definition undecided (st : loop_state) : Prop :=
  best_tag st = PNone /\ best_confidence st = 0%Q.

Definition decided (st : loop_state) : Prop :=
  py_truthy (best_tag st) = true /\ best_confidence st = 1%Q.

(** The guard of the rule, when the loop checks it, does not raise. *)
Definition guard_returns (t : Transaction) (metadata : pyval)
    (r : TaggingRule) : bool :=
  match PROCESSORS (rule_type r) with
  | None => true
  | Some _ => is_ok (check_rule_conditions t metadata (conditions r))
  end.

End WithRuntime.
End Engine.

(* ================================================================== *)
(** ** [autotag/utils.py]: validation, export, import *)

Module Utils.

(** [Model.objects.get(...)]. *)
Inductive lookup (A : Type) :=
| Found (a : A)
| DoesNotExist
| Multiple.
Arguments Found {A} a.
Arguments DoesNotExist {A}.
Arguments Multiple {A}.

Definition objects_get {A} (p : A -> bool) (rows : list A) : lookup A :=
  match filter p rows with
  | [] => DoesNotExist
  | [a] => Found a
  | _ => Multiple
  end.

Section WithRuntime.
Context {rt : Runtime}.

(** [validate_rule_config]: [True], or a [ValueError]. *)
Definition validate_rule_config (rule_type rule_config : pyval) : res bool :=
  if py_eq rule_type (PStr "simple") then
    has <- py_in (PStr "mappings") rule_config ;;
    if negb has then
      raise ValueError "Simple rules must have 'mappings' field"
    else
      m <- py_getitem rule_config (PStr "mappings") ;;
      match m with
      | PDict _ => Ok true
      | _ => raise ValueError "'mappings' must be a dictionary"
      end
  else if py_eq rule_type (PStr "conditional") then
    has <- py_in (PStr "conditions") rule_config ;;
    if negb has then
      raise ValueError "Conditional rules must have 'conditions' field"
    else
      c <- py_getitem rule_config (PStr "conditions") ;;
      match c with
      | PList _ => Ok true
      | _ => raise ValueError "'conditions' must be a list"
      end
  else if py_eq rule_type (PStr "script") then
    has <- py_in (PStr "script") rule_config ;;
    if negb has then raise ValueError "Script rules must have 'script' field"
    else
      s <- py_getitem rule_config (PStr "script") ;;
      match s with
      | PStr src =>
          if python_compiles src then Ok true
          else raise ValueError "Invalid Python syntax in script"
      | _ => raise ValueError "'script' must be a string"
      end
  else if py_eq rule_type (PStr "ml") then
    has <- py_in (PStr "model_type") rule_config ;;
    if negb has then raise ValueError "ML rules must have 'model_type' field"
    else Ok true
  else Ok true.

Definition has_code (code : string) (c : Company) : bool :=
  String.eqb (company_code c) code.

(** [TaggingRule.Meta.ordering = ['company', 'priority', 'name']], within
    one company. *)
Definition rule_leb (a b : TaggingRule) : bool :=
  (priority a <? priority b) ||
  ((priority a =? priority b) && String.leb (rule_name a) (rule_name b)).

Fixpoint insert_rule (r : TaggingRule) (l : list TaggingRule)
  : list TaggingRule :=
  match l with
  | [] => [r]
  | x :: l' => if rule_leb r x then r :: l else x :: insert_rule r l'
  end.

Definition default_ordering (l : list TaggingRule) : list TaggingRule :=
  fold_right insert_rule [] l.

Definition company_rules (db : Database) (company : Company)
  : list TaggingRule :=
  filter (fun r => rule_company r =? company_id company) (tagging_rules db).

Definition rules_of (db : Database) (company : Company) : list TaggingRule :=
  default_ordering (company_rules db company).

(** One element of [rules_data]. *)
Definition rule_data_of (r : TaggingRule) : pyval :=
  PDict [("name", PStr (rule_name r));
         ("rule_type", PStr (rule_type r));
         ("priority", PInt (priority r));
         ("rule_config", rule_config r);
         ("conditions", conditions r);
         ("is_active", PBool (is_active r))].

Definition envelope_of (code : string) (company : Company)
    (rules : list TaggingRule) : pyval :=
  PDict [("company_code", PStr code);
         ("company_name", PStr (company_name company));
         ("rules", PList (map rule_data_of rules))].

(** [export_rules_to_json]. *)
Definition export_rules_to_json (db : Database) (code : string)
  : res json_text :=
  match objects_get (has_code code) (companies db) with
  | DoesNotExist => json_dumps (PDict [("error", PStr "Company not found")])
  | Multiple =>
      raise MultipleObjectsReturned "get() returned more than one Company"
  | Found company => json_dumps (envelope_of code company (rules_of db company))
  end.

(** What the columns accept on save. *)
Definition as_char (v : pyval) : res string :=
  match v with
  | PStr s => Ok s
  | PNone => raise IntegrityError "NOT NULL constraint failed"
  | _ => Ok (py_str v)
  end.

(** [int(s)] of a text: whitespace around it is dropped, one sign is
    allowed, and the digits may be separated by single underscores. *)
Definition digit_of (a : ascii) : option Z :=
  let n := nat_of_ascii a in
  if ((48 <=? n) && (n <=? 57))%nat then Some (Z.of_nat (n - 48)) else None.

Fixpoint digits (l : list ascii) (acc : Z) (after_digit : bool) : option Z :=
  match l with
  | [] => if after_digit then Some acc else None
  | a :: l' =>
      match digit_of a with
      | Some d => digits l' (10 * acc + d) true
      | None =>
          if Ascii.eqb a "_" && after_digit then digits l' acc false
          else None
      end
  end.

Fixpoint drop_space (l : list ascii) : list ascii :=
  match l with
  | a :: l' => if Cel.is_space a then drop_space l' else l
  | [] => []
  end.

Definition int_of_text (s : string) : option Z :=
  let l := rev (drop_space (rev (drop_space (list_ascii_of_string s)))) in
  match l with
  | a :: l' =>
      if Ascii.eqb a "+" then digits l' 0 false
      else if Ascii.eqb a "-" then option_map Z.opp (digits l' 0 false)
      else digits l 0 false
  | [] => None
  end.

(** [IntegerField.get_prep_value]: [int(value)]. *)
Definition as_integer (v : pyval) : res Z :=
  match v with
  | PInt z => Ok z
  | PBool b => Ok (if b then 1 else 0)
  | PStr s =>
      match int_of_text s with
      | Some z => Ok z
      | None => raise ValueError "Field 'priority' expected a number"
      end
  | PNone => raise IntegrityError "NOT NULL constraint failed"
  | _ => raise TypeError "Field 'priority' expected a number"
  end.

Definition as_boolean (v : pyval) : res bool :=
  match v with
  | PBool b => Ok b
  | PInt 1 => Ok true
  | PInt 0 => Ok false
  | PStr s =>
      if existsb (String.eqb s) ["t"; "True"; "1"] then Ok true
      else if existsb (String.eqb s) ["f"; "False"; "0"] then Ok false
      else raise ValueError "value must be either True or False"
  | _ => raise ValueError "value must be either True or False"
  end.

Definition as_json (v : pyval) : res pyval :=
  match v with
  | PNone => raise IntegrityError "NOT NULL constraint failed"
  | PObj _ => raise TypeError "Object is not JSON serializable"
  | _ => Ok v
  end.

(** [TaggingRule.objects.update_or_create(company=, name=, defaults=)]. *)
Definition update_or_create_rule (rules : list TaggingRule) (company : Z)
    (name : string) (new : TaggingRule) : res (list TaggingRule) :=
  match objects_get (rule_for company name) rules with
  | DoesNotExist => Ok (rules ++ [new])%list
  | Found _ =>
      Ok (map (fun r => if rule_for company name r then new else r) rules)
  | Multiple =>
      raise MultipleObjectsReturned
        "get() returned more than one TaggingRule"
  end.

(** The body of the [try] in the loop of [import_rules_from_json]. *)
Definition import_rule (rules : list TaggingRule) (company : Company)
    (rule_data : pyval) : res (list TaggingRule) :=
  ty <- py_getitem rule_data (PStr "rule_type") ;;
  cfg <- py_getitem rule_data (PStr "rule_config") ;;
  _ <- validate_rule_config ty cfg ;;
  name_v <- py_getitem rule_data (PStr "name") ;;
  ty <- py_getitem rule_data (PStr "rule_type") ;;
  prio_v <- py_get rule_data "priority" (PInt 100) ;;
  cfg <- py_getitem rule_data (PStr "rule_config") ;;
  conds_v <- py_get rule_data "conditions" (PDict []) ;;
  active_v <- py_get rule_data "is_active" (PBool true) ;;
  name <- as_char name_v ;;
  rtype <- as_char ty ;;
  prio <- as_integer prio_v ;;
  cfg' <- as_json cfg ;;
  conds <- as_json conds_v ;;
  active <- as_boolean active_v ;;
  update_or_create_rule rules (company_id company) name
    (mkRule (company_id company) name rtype prio cfg' conds active).

Record import_results := mkResults {
  imported : Z;
  errors : list string
}.

(** The loop over [rules]; the [except] clause reads
    [rule_data.get('name', 'Unknown')], which may itself raise. *)
Fixpoint import_loop (company : Company) (rule_datas : list pyval)
    (rules : list TaggingRule) (results : import_results)
  : res (import_results * list TaggingRule) :=
  match rule_datas with
  | [] => Ok (results, rules)
  | rule_data :: rest =>
      match import_rule rules company rule_data with
      | Ok rules' =>
          import_loop company rest rules'
            (mkResults (imported results + 1) (errors results))
      | Raise e =>
          name <- py_get rule_data "name" (PStr "Unknown") ;;
          let msg := "Error importing rule '" ++ py_str name ++ "': " ++
                     exn_msg e in
          import_loop company rest rules
            (mkResults (imported results) (errors results ++ [msg])%list)
      end
  end.

Definition results_dict (r : import_results) : pyval :=
  PDict [("imported", PInt (imported r));
         ("errors", PList (map PStr (errors r)))].

Definition error_dict (msg : string) : pyval :=
  PDict [("error", PStr msg)].

(** [import_rules_from_json]: the returned dict and the database after
    the call. *)
Definition import_rules_from_json (db : Database) (json_data : json_text)
  : res (pyval * Database) :=
  match json_loads json_data with
  | Raise e =>
      match exn_type e with
      | JSONDecodeError => Ok (error_dict ("Invalid JSON: " ++ exn_msg e), db)
      | _ => Raise e
      end
  | Ok data =>
      code <- py_get data "company_code" PNone ;;
      if negb (py_truthy code) then
        Ok (error_dict "Missing company_code in JSON", db)
      else
        match objects_get (has_code (py_str code)) (companies db) with
        | DoesNotExist =>
            Ok (error_dict
                  ("Company with code '" ++ py_str code ++ "' not found"), db)
        | Multiple =>
            raise MultipleObjectsReturned
              "get() returned more than one Company"
        | Found company =>
            rules_v <- py_get data "rules" (PList []) ;;
            rule_datas <- py_iter rules_v ;;
            out <- import_loop company rule_datas (tagging_rules db)
                     (mkResults 0 []) ;;
            Ok (results_dict (fst out),
                mkDb (companies db) (snd out) (transaction_tags db))
        end
  end.

(** A rule that [import_rules_from_json] accepts: its configuration
    validates and its two JSON columns hold JSON values. *)
Definition importable (r : TaggingRule) : Prop :=
  validate_rule_config (PStr (rule_type r)) (rule_config r) = Ok true /\
  stored_json (rule_config r) = true /\
  stored_json (conditions r) = true.

(** [json.loads] reads back what [json.dumps] wrote. *)
Definition codec_round_trips : Prop :=
  forall v, is_json v = true ->
    exists text, json_dumps v = Ok text /\ json_loads text = Ok v.

End WithRuntime.

(** The columns by which two rules are compared. *)
Definition rule_columns (r : TaggingRule)
  : string * string * Z * pyval * pyval * bool :=
  (rule_name r, rule_type r, priority r, rule_config r, conditions r,
   is_active r).

(** The rule with the same columns in another company. *)
Definition moved_to (company : Z) (r : TaggingRule) : TaggingRule :=
  mkRule company (rule_name r) (rule_type r) (priority r) (rule_config r)
         (conditions r) (is_active r).

End Utils.

(* ================================================================== *)
(** ** A concrete runtime

    An instance of the library interface on which definitions can be
    run: numbers are the integers, a regular expression is a literal
    text, and the CEL evaluator knows the expressions the examples use
    (a name of the context, a string literal in single quotes).  A JSON
    value whose integers fit 64 bits is its own CEL value.  The JSON
    codec is the identity on values, and [pass] is the only Python
    program. *)

Module Concrete.

Definition float_of_value (v : pyval) : res Z :=
  match v with
  | PInt z => Ok z
  | PBool b => Ok (if b then 1 else 0)
  | PStr s =>
      match Utils.int_of_text s with
      | Some z => Ok z
      | None => raise ValueError "could not convert string to float"
      end
  | _ =>
      raise TypeError "float() argument must be a string or a real number"
  end.

Definition objects_equal (a b : pyval) : bool :=
  match a, b with
  | PObj x, PObj y => String.eqb x y
  | _, _ => false
  end.

Definition text_of_container (v : pyval) : string :=
  match v with
  | PList [] => "[]"
  | PDict [] => "{}"
  | PList _ => "[...]"
  | _ => "{...}"
  end.

(** The text between single quotes, when [s] is ['...'] with no quote
    inside. *)
Definition string_literal (s : string) : option string :=
  match s with
  | String "'"%char body =>
      let n := String.length body in
      match String.get (n - 1) body with
      | Some "'"%char =>
          let inner := String.substring 0 (n - 1) body in
          if str_contains "'" inner then None else Some inner
      | _ => None
      end
  | _ => None
  end.

Definition evaluate (src : string) (ctx : cel_context Z) : res pyval :=
  if String.eqb src "now" then Ok (PStr (ctx_now ctx))
  else if String.eqb src "metadata" then Ok (ctx_metadata ctx)
  else
    match string_literal src with
    | Some s => Ok (PStr s)
    | None => raise CelError ("cannot evaluate " ++ src)
    end.

Definition dumps (v : pyval) : res pyval :=
  if is_json v then Ok v
  else raise TypeError "Object is not JSON serializable".

(** The values [json_to_cel] converts. *)
Fixpoint has_cel_value (v : pyval) : bool :=
  match v with
  | PObj _ => false
  | PInt z => (- 2 ^ 63 <=? z) && (z <? 2 ^ 63)
  | PList l => forallb has_cel_value l
  | PDict kvs =>
      (fix all (kvs : pydict) : bool :=
         match kvs with
         | [] => true
         | (_, x) :: r => has_cel_value x && all r
         end) kvs
  | _ => true
  end.

Definition to_cel (v : pyval) : res pyval :=
  if has_cel_value v then Ok v
  else raise ValueError "unexpected type or overflow in JSON structure".

#[export] Instance runtime : Runtime := {|
  pyfloat := Z;
  float_of := float_of_value;
  float_ltb := Z.ltb;
  container_str := text_of_container;
  obj_eq := objects_equal;
  re_search := fun pattern text => Ok (str_contains pattern text);
  json_to_cel := to_cel;
  cel_evaluate := evaluate;
  json_text := pyval;
  json_dumps := dumps;
  json_loads := fun text => Ok text;
  python_compiles := fun src => String.eqb src "pass"
|}.

End Concrete.

(* ================================================================== *)
(* ================================================================== *)
(** ** Sample data *)

Module Sample.

Definition acme : Company := mkCompany 1 "Acme" "ACME" true.

(** A transaction with [product_code = code] and no metadata row. *)
Definition txn (code : string) : Transaction :=
  mkTransaction 7 (PStr code) (PInt 100) (PStr "debit") (PStr "online")
    (PStr "us") (PObj "2024-01-01 00:00:00+00:00")
    "2024-01-01T00:00:00+00:00" (PObj "2024-01-01 00:00:00+00:00") None
    [("save", PObj "<bound method Model.save>")].

Definition with_metadata (t : Transaction) (md : pyval) : Transaction :=
  mkTransaction (txn_id t) (product_code t) (produce_rate t) (ledger_type t)
    (source t) (jurisdiction t) (created_at t) (created_at_iso t)
    (updated_at t) (Some md) (other_attributes t).

(** A [simple] rule mapping [product_code = code] to [tag]. *)
Definition product_rule (name : string) (prio : Z) (code tagv : string)
  : TaggingRule :=
  mkRule 1 name "simple" prio
    (Simple.config_of [("product_code", PDict [(code, PStr tagv)])])
    (PDict []) true.

(** Two rules on the same product code, stored in the order of their
    creation, the lower priority first. *)
Definition high_rule : TaggingRule := product_rule "R1" 10 "PROD_001" "HIGH".
Definition low_rule : TaggingRule := product_rule "R2" 100 "PROD_001" "LOW".

Definition arbitration_db : Database :=
  mkDb [acme] [low_rule; high_rule] [].

(** Two matching rules of priority below 50. *)
Definition rule_a : TaggingRule := product_rule "R1" 25 "PROD_001" "A".
Definition rule_b : TaggingRule := product_rule "R2" 40 "PROD_001" "B".

Definition early_exit_db : Database := mkDb [acme] [rule_a; rule_b] [].

(** A rule whose guard has no [field], as the rules created in
    [tests/test_services.py] and [tests/test_utils.py]. *)
Definition odd_guard_rule : TaggingRule :=
  mkRule 1 "New Test Rule" "simple" 50
    (Simple.config_of [("product_code", PDict [("TEST_PROD", PStr "TEST_TAG")])])
    (PDict [("test", PStr "condition")]) true.

Definition odd_guard_db : Database := mkDb [acme] [odd_guard_rule] [].

(** A rule whose configuration is not a dict, as in
    [tests/test_edge_cases.py]. *)
Definition odd_config_rule : TaggingRule :=
  mkRule 1 "Malformed Rule 3" "simple" 100 (PStr "not_even_a_dict")
    (PDict []) true.

Definition odd_config_db : Database :=
  mkDb [acme] [odd_config_rule; low_rule] [].

(** A tag set by hand on the pair (transaction 7, company 1). *)
Definition manual_row : TransactionTag :=
  mkTag 7 1 (PStr "MANUAL") 1 true "set by hand" "2023-12-31T00:00:00+00:00".

Definition override_db : Database := mkDb [acme] [high_rule] [manual_row].

(** The readings of a call in which the CEL processor reads the clock
    at midnight and the tag is saved a second later. *)
Definition morning : clock :=
  mkClock (fun _ => "2024-01-02T00:00:00+00:00") "2024-01-02T00:00:01+00:00".

(** The readings of a call made a day later. *)
Definition next_morning : clock :=
  mkClock (fun _ => "2024-01-03T00:00:00+00:00") "2024-01-03T00:00:01+00:00".

(** A [simple] rule whose tag is a number and not a text. *)
Definition numeric_rule : TaggingRule :=
  mkRule 1 "N1" "simple" 10
    (Simple.config_of [("product_code", PDict [("PROD_001", PInt 123)])])
    (PDict []) true.

Definition numeric_db : Database := mkDb [acme] [numeric_rule] [].

(** A CEL rule whose tag is the reading of the clock. *)
Definition clock_rule : TaggingRule :=
  mkRule 1 "Clock" "cel" 100 (PDict [("expression", PStr "now")])
    (PDict []) true.

Definition clock_db : Database := mkDb [acme] [clock_rule] [].

(** A rule saved with the default of [rule_config], an empty dict. *)
Definition draft_rule : TaggingRule :=
  mkRule 1 "Draft" "simple" 100 (PDict []) (PDict []) true.

Definition draft_db : Database := mkDb [acme] [draft_rule] [].

(** The same company in another database, with no rule yet. *)
Definition fresh_db : Database := mkDb [mkCompany 5 "Acme" "ACME" true] [] [].

End Sample.

(* ================================================================== *)
(** ** Sentences of the specification, as they are written

    Each is a proposition about given inputs, written from the words of
    the specification so that it can be compared with the code. *)

Module AsStated.
Section WithRuntime.
Context {rt : Runtime}.

(** A leaf condition. *)
Definition leaf (field operator : string) (value : pyval) : pyval :=
  PDict [("field", PStr field); ("operator", PStr operator);
         ("value", value)].

(** [field] names nothing: a [metadata.<name>] path whose name is not a
    key of the metadata, or a name that is not an attribute of the
    transaction. *)
Definition missing_field (t : Transaction) (md : pydict) (field : string)
  : Prop :=
  (exists name, field = "metadata." ++ name /\ assoc name md = None) \/
  (String.prefix "metadata." field = false /\
   ~ In field txn_attributes /\ assoc field (other_attributes t) = None).

(** "Missing fields yield a value of "absent" which compares unequal to
    any non-absent value, produces false for relational operators, and
    stringifies to the empty string for contains/regex." *)
Definition missing_field_sentence (t : Transaction) (md : pydict)
    (field : string) (expected : pyval) : Prop :=
  missing_field t md field ->
  (expected <> PNone ->
   Conditional.evaluate_condition t (PDict md) (leaf field "equals" expected)
   = Ok false) /\
  Conditional.evaluate_condition t (PDict md)
    (leaf field "greater_than" expected) = Ok false /\
  Conditional.evaluate_condition t (PDict md)
    (leaf field "less_than" expected) = Ok false /\
  Conditional.evaluate_condition t (PDict md)
    (leaf field "contains" expected)
  = Ok (str_contains (py_str expected) "") /\
  Conditional.evaluate_condition t (PDict md) (leaf field "regex" expected)
  = re_search (py_str expected) "".

(** "is_manual_override=true tags must not be overwritten by the
    engine." *)
Definition manual_override_sentence (db : Database) (now : clock)
    (t : Transaction) (c : Company) : Prop :=
  forall row r db',
    In row (transaction_tags db) ->
    tag_for (txn_id t) (company_id c) row = true ->
    is_manual_override row = true ->
    Engine.tag_transaction db now t c = Ok (r, db') ->
    forall row',
      In row' (tags_of (txn_id t) (company_id c) (transaction_tags db')) ->
      tag_code row' = tag_code row /\
      confidence_score row' = confidence_score row /\
      processing_notes row' = processing_notes row.

(** "If script is present and contains def or return anywhere in the
    source, the processor refuses to evaluate, returns none, and logs a
    security event legacy_python_script.  Otherwise script is treated as
    an expression." *)
Definition legacy_script_sentence (now : string) (t : Transaction)
    (md : pyval) (cfg : pydict) (script : string) : Prop :=
  assoc "script" cfg = Some (PStr script) ->
  if str_contains "def " script || str_contains "return" script
  then fst (Cel.process now t md (PDict cfg)) = PNone /\
       In Cel.legacy_script (snd (Cel.process now t md (PDict cfg)))
  else Cel.process now t md (PDict cfg) =
       Cel.process now t md (PDict [("expression", PStr script)]).

(** "Calling tag(t, c) twice with unchanged rules and metadata yields the
    same tag_code and does not duplicate tag rows."  [now1] and [now2]
    are the readings of the clock in the two calls. *)
Definition idempotence_sentence (db : Database) (now1 now2 : clock)
    (t : Transaction) (c : Company) : Prop :=
  forall r1 db1 r2 db2,
    Engine.tag_transaction db now1 t c = Ok (r1, db1) ->
    Engine.tag_transaction db1 now2 t c = Ok (r2, db2) ->
    r1 = r2 /\
    (List.length
       (tags_of (txn_id t) (company_id c) (transaction_tags db2)) <= 1)%nat.

(** "import(export(c)) into a fresh company produces the same set of
    rules (by name, rule_type, priority, rule_config, conditions,
    is_active)."  The company has the same code in [src] and in [dst]. *)
Definition round_trip_sentence (src dst : Database) (code : string) : Prop :=
  forall c_src c_dst text out dst',
    Utils.objects_get (Utils.has_code code) (companies src)
    = Utils.Found c_src ->
    Utils.objects_get (Utils.has_code code) (companies dst)
    = Utils.Found c_dst ->
    Utils.company_rules dst c_dst = [] ->
    Utils.export_rules_to_json src code = Ok text ->
    Utils.import_rules_from_json dst text = Ok (out, dst') ->
    Permutation (map Utils.rule_columns (Utils.company_rules src c_src))
                (map Utils.rule_columns (Utils.company_rules dst' c_dst)).

(** "All transaction-field mappings are examined before any metadata
    mapping, regardless of insertion order.  Within that partition, the
    first match (by declared iteration of mapped fields) wins.
    Case-sensitive; no trimming."

    A mapping on a transaction field matches when the value of the
    field is a key of the mapping, as it stands; the empty text does not
    count as a value. *)
Definition transaction_match (t : Transaction) (item : string * pyval)
  : option pyval :=
  match snd item, txn_getattr t (fst item) with
  | PDict kvs, PStr s => if String.eqb s "" then None else assoc s kvs
  | _, _ => None
  end.

(** A mapping on a metadata field matches when the metadata has the
    field and the text of its value is a key of the mapping. *)
Definition metadata_match (md : pydict) (item : string * pyval)
  : option pyval :=
  match snd item, assoc (fst item) md with
  | PDict kvs, Some value => assoc (py_str value) kvs
  | _, _ => None
  end.

(** The first match in declared order. *)
Fixpoint first_of {A B} (f : A -> option B) (l : list A) : option B :=
  match l with
  | [] => None
  | a :: l' =>
      match f a with
      | Some b => Some b
      | None => first_of f l'
      end
  end.

(** The tag of the first match among the mappings on transaction fields,
    else of the first match among the mappings on metadata fields, else
    [None]. *)
Definition simple_result (t : Transaction) (md : pydict) (items : pydict)
  : pyval :=
  match first_of (transaction_match t)
          (filter Simple.transaction_item items) with
  | Some tag => tag
  | None =>
      match first_of (metadata_match md)
              (filter Simple.metadata_item items) with
      | Some tag => tag
      | None => PNone
      end
  end.

(** A value that can be looked up in a dict: not a list, not a dict. *)
Definition hashable (v : pyval) : bool :=
  match v with
  | PList _ | PDict _ => false
  | _ => true
  end.

End WithRuntime.
End AsStated.

(* ================================================================== *)
(** ** What the end of [tag_transaction] reads of the loop *)

Module Outcome.

Definition res_map {A B} (f : A -> B) (m : res A) : res B :=
  match m with
  | Ok a => Ok (f a)
  | Raise e => Raise e
  end.

Section WithRuntime.
Context {rt : Runtime}.

(** [best_tag], [best_confidence] and [processing_notes]. *)
Definition of_state (st : Engine.loop_state) : pyval * Q * list string :=
  (Engine.best_tag st, Engine.best_confidence st, Engine.notes st).

(** The rule leaves the loop variables as they are: it has no processor,
    or its guard is false, or its processor returns an empty tag. *)
Definition silent (now : clock) (t : Transaction) (metadata : pyval)
    (r : TaggingRule) : bool :=
  match Engine.PROCESSORS (rule_type r) with
  | None => true
  | Some p =>
      match Engine.check_rule_conditions t metadata (conditions r) with
      | Ok false => true
      | Ok true =>
          match Engine.run_processor p (reading now r) t metadata
                  (rule_config r) with
          | Ok tag_code => negb (py_truthy tag_code)
          | Raise _ => false
          end
      | Raise _ => false
      end
  end.

(** The database with another rule table. *)
Definition with_rules (db : Database) (rules : list TaggingRule) : Database :=
  mkDb (companies db) rules (transaction_tags db).

(** The row with another [updated_at], and the tag table in which the
    rows of the pair have it. *)
Definition saved_at (now : string) (row : TransactionTag) : TransactionTag :=
  mkTag (tt_transaction row) (tt_company row) (tag_code row)
        (confidence_score row) (is_manual_override row)
        (processing_notes row) now.

Definition touched (txn company : Z) (now : string)
    (rows : list TransactionTag) : list TransactionTag :=
  map (fun row => if tag_for txn company row then saved_at now row else row)
      rows.

End WithRuntime.
End Outcome.

(* ================================================================== *)
(** ** More sample data *)

Module Cases.

(** A rule of priority 5 on another product code. *)
Definition other_product_rule : TaggingRule :=
  Sample.product_rule "R0" 5 "PROD_999" "OTHER".

Definition other_product_db : Database :=
  mkDb [Sample.acme] [Sample.high_rule; other_product_rule] [].

(** A rule of a type that has no processor, with a guard that has no
    [field]. *)
Definition unknown_type_rule : TaggingRule :=
  mkRule 1 "Future" "invalid_type" 5 (PDict [])
    (PDict [("test", PStr "condition")]) true.

Definition unknown_type_db : Database :=
  mkDb [Sample.acme] [Sample.high_rule; unknown_type_rule] [].

End Cases.

Module Cases2.

(** A rule that is switched off, of priority 1, on the product code of
    rule [R1]. *)
Definition inactive_rule : TaggingRule :=
  mkRule 1 "Off" "simple" 1
    (Simple.config_of [("product_code", PDict [("PROD_001", PStr "OFF")])])
    (PDict []) false.

Definition inactive_db : Database :=
  mkDb [Sample.acme] [inactive_rule; Sample.high_rule] [].

(** A tag of another transaction, 8, for the same company. *)
Definition other_row : TransactionTag :=
  mkTag 8 1 (PStr "KEPT") 1 false "Rule 'R9' matched: KEPT"
    "2023-12-31T00:00:00+00:00".

Definition other_row_db : Database :=
  mkDb [Sample.acme] [Sample.high_rule] [other_row].

End Cases2.

Module Cases3.

(** [source equals "pos"], false of the sample transaction. *)
Definition false_condition : pyval :=
  AsStated.leaf "source" "equals" (PStr "pos").

(** [source equals "online"], true of the sample transaction. *)
Definition true_condition : pyval :=
  AsStated.leaf "source" "equals" (PStr "online").

(** A condition with no [field]. *)
Definition broken_condition : pyval :=
  PDict [("operator", PStr "equals"); ("value", PStr "x")].

Definition compound (operator : string) (subs : list pyval) : pyval :=
  PDict [("conditions", PList subs); ("operator", PStr operator)].

End Cases3.

(** The operators that [_compare_values] knows. *)
Definition compare_operators : list string :=
  ["equals"; "not_equals"; "greater_than"; "less_than"; "contains";
   "regex"].

(* ================================================================== *)
(** ** What the CEL processor does with one entry of [conditions] *)

Module CelEntry.
Section WithRuntime.
Context {rt : Runtime}.

(** The entry returns its tag; is passed over without a trace (no
    expression, no tag, or a result that is not truthy); fails to
    evaluate, which is logged; or is not a dict, which ends the loop. *)
Inductive verdict :=
| Fires (tag : pyval)
| Skipped
| Failed
| Broken (e : exn).

Definition verdict_of (ctx : cel_context pyfloat) (condition : pyval)
  : verdict :=
  match py_get condition "expression" (PStr "") with
  | Raise e => Broken e
  | Ok expression =>
      match py_get condition "tag" PNone with
      | Raise e => Broken e
      | Ok tag =>
          if negb (py_truthy expression) || negb (py_truthy tag)
          then Skipped
          else
            match Cel.run_expression expression ctx with
            | Ok result_value =>
                if py_truthy result_value then Fires tag else Skipped
            | Raise _ => Failed
            end
      end
  end.

Definition failed (ctx : cel_context pyfloat) (condition : pyval) : bool :=
  match verdict_of ctx condition with
  | Failed => true
  | _ => false
  end.

Definition passed_over (ctx : cel_context pyfloat) (condition : pyval)
  : bool :=
  match verdict_of ctx condition with
  | Skipped | Failed => true
  | _ => false
  end.

(** The events of the entries that failed. *)
Definition failures (ctx : cel_context pyfloat) (conditions : list pyval)
  : list log_event :=
  map (fun _ => Cel.condition_error) (filter (failed ctx) conditions).

(** [rule_config.get('default_tag')]. *)
Definition default_tag (cfg : pydict) : pyval :=
  match assoc "default_tag" cfg with
  | Some v => v
  | None => PNone
  end.

End WithRuntime.
End CelEntry.

Module Cases4.

(** An entry with an empty expression, one whose expression cannot be
    evaluated, one that holds. *)
Definition empty_entry : pyval :=
  PDict [("expression", PStr ""); ("tag", PStr "T0")].
Definition bad_entry : pyval :=
  PDict [("expression", PStr "transaction.undefined_field == 1");
         ("tag", PStr "T1")].
Definition good_entry : pyval :=
  PDict [("expression", PStr "'yes'"); ("tag", PStr "T2")].

End Cases4.

(* ================================================================== *)
(** ** Orders and shapes used to state facts about the rule table *)

Module RuleTable.

(** [a] stands before [b] in [Meta.ordering] of [TaggingRule] within one
    company. *)
Definition before (a b : TaggingRule) : Prop := Utils.rule_leb a b = true.

(** The rules of the company with the given id. *)
Definition of_company (company : Z) (rules : list TaggingRule)
  : list TaggingRule :=
  filter (fun r => rule_company r =? company) rules.

End RuleTable.

Module Cases5.

(** Three rules of the company, one of them switched off, stored in no
    particular order. *)
Definition rule_m : TaggingRule :=
  mkRule 1 "M" "cel" 20 (PDict [("expression", PStr "'x'")]) (PDict []) true.
Definition rule_b : TaggingRule :=
  mkRule 1 "B" "ml" 20 (PDict [("model_type", PStr "classification")])
    (PDict []) false.
Definition rule_z : TaggingRule :=
  mkRule 1 "Z" "simple" 10 (Simple.config_of []) (PDict []) true.

Definition unordered_db : Database :=
  mkDb [Sample.acme] [rule_m; rule_b; rule_z] [].

(** A rule of another company, 2. *)
Definition foreign_rule : TaggingRule :=
  mkRule 2 "R1" "simple" 10 (Simple.config_of []) (PDict []) true.

Definition two_company_db : Database :=
  mkDb [Sample.acme; mkCompany 2 "Beta" "BETA" true]
       [foreign_rule; Sample.draft_rule] [].

(** An envelope for [ACME] with a rule that validates and one that does
    not. *)
Definition mixed_envelope : pyval :=
  PDict [("company_code", PStr "ACME");
         ("rules",
          PList [Utils.rule_data_of Sample.high_rule;
                 Utils.rule_data_of Sample.draft_rule])].

End Cases5.

(* ================================================================== *)
(** ** AutoTagService ([autotag/services.py]) *)

Module Service.

(** The result dict of [tag_multiple_transactions], in insertion order. *)
Definition results := list (Z * pyval).

(** [results[k] = v]. *)
Fixpoint dict_set (k : Z) (v : pyval) (d : results) : results :=
  match d with
  | [] => [(k, v)]
  | (k', v') :: r =>
      if k' =? k then (k, v) :: r else (k', v') :: dict_set k v r
  end.

(** The slices [transaction_ids[i:i + batch_size]] for [i] in
    [range(0, len(transaction_ids), batch_size)], [batch_size] positive. *)
Definition batches (batch_size : nat) (ids : list Z) : list (list Z) :=
  map (fun k => firstn batch_size (skipn (k * batch_size) ids))
      (seq 0 ((List.length ids + batch_size - 1) / batch_size)).

Definition has_id (id : Z) (t : Transaction) : bool := txn_id t =? id.

(** [Company.objects.get(code=company_code, is_active=True)]. *)
Definition active_with_code (code : string) (c : Company) : bool :=
  Utils.has_code code c && company_is_active c.

(** [Transaction.objects.filter(id__in=batch_ids)]. *)
Definition in_batch (batch_ids : list Z) (t : Transaction) : bool :=
  existsb (Z.eqb (txn_id t)) batch_ids.

(** What [create_or_update_rule] does: the database after the upsert, or
    [Company.DoesNotExist], or another exception. *)
Inductive upsert :=
| Done (db : Database)
| NoCompany
| Failed (e : exn).

Section WithRuntime.
Context {rt : Runtime}.

(** The readings of the clock in the successive calls of the engine that
    one call of the service makes: [now k] is the clock of the call
    number [k]. *)
Definition clocks := nat -> clock.

(** [tag_single_transaction].  [transactions] is the table of
    transactions, in the order in which the default manager returns its
    rows; [now] holds the readings of the clock during the call. *)
Definition tag_single_transaction (transactions : list Transaction)
    (db : Database) (now : clock) (transaction_id : Z) (code : string)
  : res (pyval * Database) :=
  match Utils.objects_get (has_id transaction_id) transactions with
  | Utils.DoesNotExist => Ok (PNone, db)
  | Utils.Multiple =>
      raise MultipleObjectsReturned
        "get() returned more than one Transaction"
  | Utils.Found transaction_obj =>
      match Utils.objects_get (active_with_code code) (companies db) with
      | Utils.DoesNotExist => Ok (PNone, db)
      | Utils.Multiple =>
          raise MultipleObjectsReturned
            "get() returned more than one Company"
      | Utils.Found company =>
          Engine.tag_transaction db now transaction_obj company
      end
  end.

(** The loop over the transactions of one batch; [k] is the number of
    calls of the engine made before it.  An exception of the engine
    leaves the loop; what was written before it stays written. *)
Fixpoint tag_each (now : clocks) (company : Company)
    (ts : list Transaction) (k : nat) (acc : results) (db : Database)
  : res results * Database :=
  match ts with
  | [] => (Ok acc, db)
  | transaction_obj :: rest =>
      match Engine.tag_transaction db (now k) transaction_obj company with
      | Ok (tag_code, db') =>
          tag_each now company rest (S k)
            (dict_set (txn_id transaction_obj) tag_code acc) db'
      | Raise e => (Raise e, db)
      end
  end.

(** The loop over the batches. *)
Fixpoint each_batch (transactions : list Transaction) (now : clocks)
    (company : Company) (bs : list (list Z)) (k : nat) (acc : results)
    (db : Database) : res results * Database :=
  match bs with
  | [] => (Ok acc, db)
  | batch_ids :: rest =>
      let batch := filter (in_batch batch_ids) transactions in
      match tag_each now company batch k acc db with
      | (Ok acc', db') =>
          each_batch transactions now company rest
            (k + List.length batch) acc' db'
      | (Raise e, db') => (Raise e, db')
      end
  end.

(** [tag_multiple_transactions]: [range] refuses a step of zero and is
    empty for a negative step. *)
Definition tag_multiple_transactions (transactions : list Transaction)
    (db : Database) (now : clocks) (ids : list Z) (code : string)
    (batch_size : Z) : res results * Database :=
  match Utils.objects_get (active_with_code code) (companies db) with
  | Utils.DoesNotExist => (Ok [], db)
  | Utils.Multiple =>
      (raise MultipleObjectsReturned "get() returned more than one Company",
       db)
  | Utils.Found company =>
      if batch_size =? 0 then
        (raise ValueError "range() arg 3 must not be zero", db)
      else if batch_size <? 0 then (Ok [], db)
      else
        each_batch transactions now company
          (batches (Z.to_nat batch_size) ids) 0 [] db
  end.

(** [retag_company_transactions]: the number of keys of the result of
    [tag_multiple_transactions] over the transactions that have a tag of
    the company, with the default batch size.  The tags are read in
    their default ordering, the latest first. *)
Definition retag_company_transactions (transactions : list Transaction)
    (db : Database) (now : clocks) (code : string) : res Z * Database :=
  match Utils.objects_get (active_with_code code) (companies db) with
  | Utils.DoesNotExist => (Ok 0, db)
  | Utils.Multiple =>
      (raise MultipleObjectsReturned "get() returned more than one Company",
       db)
  | Utils.Found company =>
      let transaction_ids :=
        map tt_transaction
            (rev (filter (fun row => tt_company row =? company_id company)
                         (transaction_tags db))) in
      match tag_multiple_transactions transactions db now transaction_ids
              code 100 with
      | (Ok rs, db') => (Ok (Z.of_nat (List.length rs)), db')
      | (Raise e, db') => (Raise e, db')
      end
  end.

(** An [IntegerField] of SQLite holds 64 bits. *)
Definition fits_integer (z : Z) : bool :=
  (- 2 ^ 63 <=? z) && (z <? 2 ^ 63).

(** The save of a rule, after the row of the key was looked up: the two
    JSON columns are serialized ([json.dumps] refuses an object that is
    not a JSON value), the values are bound (SQLite refuses an integer
    that does not fit 64 bits), and the statement runs ([rule_config] is
    not nullable). *)
Definition save_checks (priority : Z) (rule_config conditions : pyval)
  : res unit :=
  if negb (is_json rule_config) || negb (is_json conditions) then
    raise TypeError "Object is not JSON serializable"
  else if negb (fits_integer priority) then
    raise OverflowError "Python int too large to convert to SQLite INTEGER"
  else
    match rule_config with
    | PNone =>
        raise IntegrityError
          "NOT NULL constraint failed: tagging_rules.rule_config"
    | _ => Ok tt
    end.

(** [create_or_update_rule]: no validation of [rule_config]; a falsy
    [conditions] is stored as [{}].  The call is atomic: when it raises
    the database is as before. *)
Definition create_or_update_rule (db : Database) (code rule_name : string)
    (rule_type : string) (rule_config : pyval) (priority : Z)
    (conditions : pyval) (is_active : bool) : upsert :=
  match Utils.objects_get (Utils.has_code code) (companies db) with
  | Utils.DoesNotExist => NoCompany
  | Utils.Multiple =>
      Failed (mkExn MultipleObjectsReturned
                "get() returned more than one Company")
  | Utils.Found company =>
      let conds := if py_truthy conditions then conditions else PDict [] in
      match Utils.objects_get (rule_for (company_id company) rule_name)
              (tagging_rules db) with
      | Utils.Multiple =>
          Failed (mkExn MultipleObjectsReturned
                    "get() returned more than one TaggingRule")
      | _ =>
          match
            (_ <- save_checks priority rule_config conds ;;
             Utils.update_or_create_rule (tagging_rules db)
               (company_id company) rule_name
               (mkRule (company_id company) rule_name rule_type priority
                       rule_config conds is_active))
          with
          | Ok rules => Done (mkDb (companies db) rules (transaction_tags db))
          | Raise e => Failed e
          end
      end
  end.

End WithRuntime.
End Service.

Module Cases6.

Definition txn_with_id (id : Z) (code : string) : Transaction :=
  mkTransaction id (PStr code) (PInt 100) (PStr "debit") (PStr "online")
    (PStr "us") (PObj "2024-01-01 00:00:00+00:00")
    "2024-01-01T00:00:00+00:00" (PObj "2024-01-01 00:00:00+00:00") None [].

(** Three transactions; the ids asked for include 99, which is not in
    the table. *)
Definition table : list Transaction :=
  [txn_with_id 3 "PROD_001"; txn_with_id 2 "PROD_002";
   txn_with_id 1 "PROD_001"].

Definition asked : list Z := [1; 2; 99; 3].

(** The company switched off. *)
Definition closed_db : Database :=
  mkDb [mkCompany 1 "Acme" "ACME" false] [Sample.high_rule] [].

(** Transaction 1 carries a tag put by hand; transactions 2 and 3 have
    none. *)
Definition tagged_db : Database :=
  mkDb [Sample.acme] [Sample.low_rule; Sample.high_rule]
    [mkTag 1 1 (PStr "OLD") 1 true "by hand" "2024-01-01T00:00:00+00:00"].

End Cases6.

(** * Properties *)

Local Open Scope list_scope.
Unset Implicit Arguments.

(** ** Results *)

Lemma bind_ok {A B} (m : res A) (k : A -> res B) (b : B) :
  bind m k = Ok b -> exists a, m = Ok a /\ k a = Ok b.
Proof.
  destruct m as [a|e]; simpl; intros H.
  - exists a. split; [reflexivity | exact H].
  - discriminate H.
Qed.

Lemma assoc_In (k : string) (kvs : pydict) (v : pyval) :
  assoc k kvs = Some v -> In (k, v) kvs.
Proof.
  induction kvs as [|[k' v'] r IH]; simpl; intros H.
  - discriminate H.
  - destruct (String.eqb_spec k k') as [->|_].
    + injection H as ->. left. reflexivity.
    + right. apply IH, H.
Qed.

Lemma has_key_In (k : string) (kvs : pydict) :
  has_key k kvs = true -> exists v, assoc k kvs = Some v /\ In (k, v) kvs.
Proof.
  unfold has_key. destruct (assoc k kvs) as [v|] eqn:E; intros H.
  - exists v. split; [reflexivity | apply assoc_In, E].
  - discriminate H.
Qed.

(* ------------------------------------------------------------------ *)
(** ** The simple processor *)

Section SimpleProperties.
Context {rt : Runtime}.

Lemma transaction_pass_app (t : Transaction) (a b : pydict) :
  Simple.transaction_pass t (a ++ b) =
  match Simple.transaction_pass t a with
  | Ok None => Simple.transaction_pass t b
  | other => other
  end.
Proof.
  induction a as [|[f fm] a IH]; simpl; [reflexivity|].
  destruct (Simple.is_transaction_field f); [|exact IH].
  destruct (Simple.transaction_hit t f fm) as [[|]|e]; simpl;
    [|exact IH|reflexivity].
  destruct (py_getitem fm (txn_getattr t f)); reflexivity.
Qed.

Lemma metadata_pass_app (md : pyval) (a b : pydict) :
  Simple.metadata_pass md (a ++ b) =
  match Simple.metadata_pass md a with
  | Ok None => Simple.metadata_pass md b
  | other => other
  end.
Proof.
  induction a as [|[f fm] a IH]; simpl; [reflexivity|].
  destruct (Simple.is_transaction_field f); [exact IH|].
  destruct (Simple.metadata_hit md f fm) as [[v|]|e]; simpl;
    [reflexivity|exact IH|reflexivity].
Qed.

Lemma transaction_pass_filter (t : Transaction) (items : pydict) :
  Simple.transaction_pass t (filter Simple.transaction_item items) =
  Simple.transaction_pass t items.
Proof.
  induction items as [|[f fm] items IH]; simpl; [reflexivity|].
  unfold Simple.transaction_item at 1. simpl.
  destruct (Simple.is_transaction_field f) eqn:E; simpl; [|exact IH].
  rewrite E, IH. reflexivity.
Qed.

Lemma metadata_pass_filter (md : pyval) (items : pydict) :
  Simple.metadata_pass md (filter Simple.metadata_item items) =
  Simple.metadata_pass md items.
Proof.
  induction items as [|[f fm] items IH]; simpl; [reflexivity|].
  unfold Simple.metadata_item at 1. simpl.
  destruct (Simple.is_transaction_field f) eqn:E; simpl; [exact IH|].
  rewrite E, IH. reflexivity.
Qed.

Lemma transaction_pass_skips (t : Transaction) (items : pydict) :
  Simple.transaction_pass t (filter Simple.metadata_item items) = Ok None.
Proof.
  induction items as [|[f fm] items IH]; simpl; [reflexivity|].
  unfold Simple.metadata_item at 1. simpl.
  destruct (Simple.is_transaction_field f) eqn:E; simpl; [exact IH|].
  rewrite E. exact IH.
Qed.

Lemma metadata_pass_skips (md : pyval) (items : pydict) :
  Simple.metadata_pass md (filter Simple.transaction_item items) = Ok None.
Proof.
  induction items as [|[f fm] items IH]; simpl; [reflexivity|].
  unfold Simple.transaction_item at 1. simpl.
  destruct (Simple.is_transaction_field f) eqn:E; simpl; [|exact IH].
  rewrite E. exact IH.
Qed.

(** The result does not depend on how transaction fields and metadata
    fields are interleaved in the configuration. *)
Lemma process_items_partition (t : Transaction) (md : pyval)
    (items : pydict) :
  Simple.process_items t md items =
  Simple.process_items t md
    (filter Simple.transaction_item items ++ filter Simple.metadata_item items).
Proof.
  unfold Simple.process_items.
  rewrite transaction_pass_app, metadata_pass_app.
  rewrite transaction_pass_filter, transaction_pass_skips.
  rewrite metadata_pass_skips, metadata_pass_filter.
  destruct (Simple.transaction_pass t items) as [[v|]|e]; reflexivity.
Qed.

(** On a configuration whose mappings are dicts, and a transaction
    whose mapped fields hold values that can be looked up, the first
    loop returns the first match of the mappings on transaction fields,
    in declared order. *)
Lemma transaction_pass_stated (t : Transaction) (items : pydict) :
  (forall f fm, In (f, fm) items -> exists kvs, fm = PDict kvs) ->
  (forall f, In f Simple.transaction_fields ->
             AsStated.hashable (txn_getattr t f) = true) ->
  Simple.transaction_pass t items =
  Ok (AsStated.first_of (AsStated.transaction_match t)
        (filter Simple.transaction_item items)).
Proof.
  intros Hwf Hval.
  induction items as [|[f fm] items IH]; [reflexivity|].
  assert (IH' := IH (fun g gm Hin => Hwf g gm (or_intror Hin))).
  destruct (Hwf f fm (or_introl eq_refl)) as [kvs ->].
  cbn [Simple.transaction_pass filter]. unfold Simple.transaction_item at 1.
  cbn [fst].
  destruct (Simple.is_transaction_field f) eqn:Ef; [|exact IH'].
  assert (Hin : In f Simple.transaction_fields).
  { unfold Simple.is_transaction_field in Ef. apply existsb_exists in Ef.
    destruct Ef as [x [Hx Heq]]. apply String.eqb_eq in Heq. subst x.
    exact Hx. }
  specialize (Hval f Hin).
  cbn [AsStated.first_of]. unfold AsStated.transaction_match.
  cbn [fst snd]. unfold Simple.transaction_hit.
  destruct (txn_getattr t f) as [|b|z|s|l|d|o]; try discriminate Hval;
    cbn [py_truthy py_in bind];
    try exact IH'.
  - destruct b; cbn [bind]; exact IH'.
  - destruct (negb (z =? 0)); cbn [bind]; exact IH'.
  - destruct (String.eqb s ""); cbn [negb bind]; [exact IH'|].
    unfold has_key. cbn [py_getitem].
    destruct (assoc s kvs) as [v|]; cbn [bind]; [reflexivity | exact IH'].
Qed.

(** On such a configuration and a metadata dict, the second loop returns
    the first match of the mappings on metadata fields. *)
Lemma metadata_pass_stated (md items : pydict) :
  (forall f fm, In (f, fm) items -> exists kvs, fm = PDict kvs) ->
  Simple.metadata_pass (PDict md) items =
  Ok (AsStated.first_of (AsStated.metadata_match md)
        (filter Simple.metadata_item items)).
Proof.
  intros Hwf.
  induction items as [|[f fm] items IH]; [reflexivity|].
  assert (IH' := IH (fun g gm Hin => Hwf g gm (or_intror Hin))).
  destruct (Hwf f fm (or_introl eq_refl)) as [kvs ->].
  cbn [Simple.metadata_pass filter]. unfold Simple.metadata_item at 1.
  cbn [fst].
  destruct (Simple.is_transaction_field f) eqn:Ef; [exact IH'|].
  cbn [negb AsStated.first_of]. unfold AsStated.metadata_match.
  cbn [fst snd]. unfold Simple.metadata_hit.
  cbn [py_in py_getitem bind]. unfold has_key.
  destruct (assoc f md) as [value|]; cbn [bind]; [|exact IH'].
  destruct (assoc (py_str value) kvs) as [v|]; cbn [bind];
    [reflexivity | exact IH'].
Qed.

End SimpleProperties.

Lemma process_config_of {rt : Runtime} (t : Transaction) (md : pyval)
    (items : pydict) :
  Simple.process t md (Simple.config_of items) =
  Simple.process_items t md items.
Proof. reflexivity. Qed.

(** C9.  In the simple processor the mappings on the transaction fields
    ([product_code], [source], [jurisdiction], [ledger_type]) are all
    examined before any mapping on a metadata field, in whatever order
    the configuration lists the fields: the result is that of the
    configuration with the transaction fields moved to the front.  On a
    configuration whose mappings are dicts, a metadata dict, and a
    transaction whose four fields hold values that can be looked up in a
    dict (the columns hold texts), the result is the tag of the first
    mapping on a transaction field, in declared order, that has the
    value of the field among its keys, else the tag of the first mapping
    on a metadata field that has the text of the value of the field
    among its keys, else [None].  A key matches when it is equal to the
    value, character for character. *)
Theorem simple_transaction_fields_before_metadata
    (rt : Runtime) (t : Transaction) (md : pyval) (items : pydict) :
  Simple.process t md (Simple.config_of items) =
  Simple.process t md
    (Simple.config_of (filter Simple.transaction_item items ++
                       filter Simple.metadata_item items))
  /\ (forall mdkvs,
        md = PDict mdkvs ->
        (forall f fm, In (f, fm) items -> exists kvs, fm = PDict kvs) ->
        (forall f, In f Simple.transaction_fields ->
                   AsStated.hashable (txn_getattr t f) = true) ->
        Simple.process t md (Simple.config_of items) =
        Ok (AsStated.simple_result t mdkvs items)).
Proof.
  rewrite !process_config_of. split; [apply process_items_partition|].
  intros mdkvs -> Hwf Hval. unfold Simple.process_items.
  rewrite (transaction_pass_stated t items Hwf Hval). cbn [bind].
  unfold AsStated.simple_result.
  destruct (AsStated.first_of (AsStated.transaction_match t)
              (filter Simple.transaction_item items)); [reflexivity|].
  rewrite (metadata_pass_stated mdkvs items Hwf). cbn [bind].
  destruct (AsStated.first_of (AsStated.metadata_match mdkvs)
              (filter Simple.metadata_item items)); reflexivity.
Qed.

(** C9 on the sample, a configuration that declares the metadata field
    first.  When both mappings match, the one on the transaction field
    decides; when the product code is not a key, the second loop finds
    the metadata field; a value that differs from the key in case does
    not match. *)
Lemma simple_transaction_fields_before_metadata_witness :
  Simple.process (rt := Concrete.runtime) (Sample.txn "PROD_A")
    (PDict [("category", PStr "premium")])
    (Simple.config_of
       [("category", PDict [("premium", PStr "META_TAG")]);
        ("product_code", PDict [("PROD_A", PStr "TXN_TAG")])])
  = Ok (PStr "TXN_TAG") /\
  Simple.process (rt := Concrete.runtime) (Sample.txn "PROD_B")
    (PDict [("category", PStr "premium")])
    (Simple.config_of
       [("category", PDict [("premium", PStr "META_TAG")]);
        ("product_code", PDict [("PROD_A", PStr "TXN_TAG")])])
  = Ok (PStr "META_TAG") /\
  Simple.process (rt := Concrete.runtime) (Sample.txn "prod_a")
    (PDict [("category", PStr "Premium")])
    (Simple.config_of
       [("category", PDict [("premium", PStr "META_TAG")]);
        ("product_code", PDict [("PROD_A", PStr "TXN_TAG")])])
  = Ok PNone.
Proof.
  assert (Hwf : forall f fm,
            In (f, fm) [("category", PDict [("premium", PStr "META_TAG")]);
                        ("product_code", PDict [("PROD_A", PStr "TXN_TAG")])]
            -> exists kvs, fm = PDict kvs).
  { intros f fm [H|[H|[]]]; injection H as _ <-; eexists; reflexivity. }
  assert (Hval : forall code f, In f Simple.transaction_fields ->
            AsStated.hashable (txn_getattr (Sample.txn code) f) = true).
  { intros code f [<-|[<-|[<-|[<-|[]]]]]; reflexivity. }
  split; [|split].
  - destruct (simple_transaction_fields_before_metadata Concrete.runtime
                (Sample.txn "PROD_A") (PDict [("category", PStr "premium")])
                [("category", PDict [("premium", PStr "META_TAG")]);
                 ("product_code", PDict [("PROD_A", PStr "TXN_TAG")])])
      as [_ H].
    exact (H _ eq_refl Hwf (Hval "PROD_A")).
  - destruct (simple_transaction_fields_before_metadata Concrete.runtime
                (Sample.txn "PROD_B") (PDict [("category", PStr "premium")])
                [("category", PDict [("premium", PStr "META_TAG")]);
                 ("product_code", PDict [("PROD_A", PStr "TXN_TAG")])])
      as [_ H].
    exact (H _ eq_refl Hwf (Hval "PROD_B")).
  - destruct (simple_transaction_fields_before_metadata Concrete.runtime
                (Sample.txn "prod_a") (PDict [("category", PStr "Premium")])
                [("category", PDict [("premium", PStr "META_TAG")]);
                 ("product_code", PDict [("PROD_A", PStr "TXN_TAG")])])
      as [_ H].
    exact (H _ eq_refl Hwf (Hval "prod_a")).
Defined.

(** C10.  A transaction field whose value is falsy (the empty string,
    [None]) never matches a mapping on that field, whatever the mapping
    holds, the key [""] included: the configuration gives the result it
    gives without that mapping. *)
Theorem simple_falsy_transaction_value_never_matches
    (rt : Runtime) (t : Transaction) (md : pyval) (l1 l2 : pydict)
    (f : string) (fm : pyval) :
  Simple.is_transaction_field f = true ->
  py_truthy (txn_getattr t f) = false ->
  Simple.transaction_hit t f fm = Ok false /\
  Simple.process t md (Simple.config_of (l1 ++ (f, fm) :: l2)) =
  Simple.process t md (Simple.config_of (l1 ++ l2)).
Proof.
  intros Hf Hv.
  assert (Hhit : Simple.transaction_hit t f fm = Ok false).
  { unfold Simple.transaction_hit. rewrite Hv. reflexivity. }
  split; [exact Hhit|].
  rewrite !process_config_of. unfold Simple.process_items.
  rewrite !transaction_pass_app, !metadata_pass_app. simpl.
  rewrite Hf, Hhit. reflexivity.
Qed.

(** C10 on the sample: with [product_code = ""], the mapping
    [{"": "EMPTY"}] on [product_code] is passed over and the mapping on
    [source] decides. *)
Lemma simple_falsy_transaction_value_never_matches_witness :
  Simple.transaction_hit (rt := Concrete.runtime) (Sample.txn "")
    "product_code" (PDict [("", PStr "EMPTY")]) = Ok false /\
  Simple.process (rt := Concrete.runtime) (Sample.txn "") (PDict [])
    (Simple.config_of
       [("product_code", PDict [("", PStr "EMPTY")]);
        ("source", PDict [("online", PStr "ONLINE")])])
  = Ok (PStr "ONLINE").
Proof.
  destruct (simple_falsy_transaction_value_never_matches Concrete.runtime
              (Sample.txn "") (PDict []) []
              [("source", PDict [("online", PStr "ONLINE")])]
              "product_code" (PDict [("", PStr "EMPTY")])
              eq_refl eq_refl) as [H1 H2].
  split; [exact H1|]. simpl app in H2. rewrite H2. reflexivity.
Defined.

(* ------------------------------------------------------------------ *)
(** ** The engine: order of evaluation *)

Section Ordering.

Lemma insert_by_priority_perm (r : TaggingRule) (l : list TaggingRule) :
  Permutation (r :: l) (Engine.insert_by_priority r l).
Proof.
  induction l as [|x l IH]; simpl.
  - apply Permutation_refl.
  - destruct (priority r <=? priority x).
    + apply Permutation_refl.
    + apply perm_trans with (x :: r :: l).
      * apply perm_swap.
      * apply perm_skip, IH.
Qed.

Lemma order_by_priority_perm (l : list TaggingRule) :
  Permutation l (Engine.order_by_priority l).
Proof.
  induction l as [|x l IH]; simpl.
  - apply perm_nil.
  - apply perm_trans with (x :: Engine.order_by_priority l).
    + apply perm_skip, IH.
    + apply insert_by_priority_perm.
Qed.

Lemma insert_by_priority_sorted (r : TaggingRule) (l : list TaggingRule) :
  StronglySorted Engine.by_priority l ->
  StronglySorted Engine.by_priority (Engine.insert_by_priority r l).
Proof.
  induction 1 as [|x l Hs IH Hx]; simpl.
  - constructor; constructor.
  - destruct (Z.leb_spec (priority r) (priority x)) as [Hle|Hgt].
    + constructor.
      * constructor; assumption.
      * constructor; [exact Hle|].
        rewrite Forall_forall in *. intros y Hy.
        unfold Engine.by_priority in *. specialize (Hx y Hy). lia.
    + constructor; [exact IH|].
      apply (Permutation_Forall (insert_by_priority_perm r l)).
      constructor; [unfold Engine.by_priority; lia | exact Hx].
Qed.

Lemma order_by_priority_sorted (l : list TaggingRule) :
  StronglySorted Engine.by_priority (Engine.order_by_priority l).
Proof.
  induction l as [|x l IH]; simpl.
  - constructor.
  - apply insert_by_priority_sorted, IH.
Qed.

(** The rules the engine walks: the active rules of the company, each
    once, in ascending priority. *)
Lemma active_rules_spec (db : Database) (c : Company) :
  StronglySorted Engine.by_priority (Engine.active_rules db c) /\
  Permutation (filter (Engine.active_rule_of c) (tagging_rules db))
              (Engine.active_rules db c).
Proof.
  split.
  - apply order_by_priority_sorted.
  - apply order_by_priority_perm.
Qed.

End Ordering.

(* ------------------------------------------------------------------ *)
(** ** The engine: the loop over the rules *)

Section LoopProperties.
Context {rt : Runtime}.
Variables (now : clock) (t : Transaction) (md : pyval).

(** A guard that raises ends the loop with its exception. *)
Lemma guard_error_propagates (r : TaggingRule) (rest : list TaggingRule)
    (p : Engine.processor) (e : exn) (pos : nat) (st : Engine.loop_state) :
  Engine.PROCESSORS (rule_type r) = Some p ->
  Engine.check_rule_conditions t md (conditions r) = Raise e ->
  Engine.rules_loop now t md pos (r :: rest) st = Raise e.
Proof. intros Hp Hg. simpl. rewrite Hp, Hg. reflexivity. Qed.

(** A processor that raises leaves a note, and the loop goes on. *)
Lemma processor_error_is_skipped (r : TaggingRule) (rest : list TaggingRule)
    (p : Engine.processor) (e : exn) (pos : nat) (st : Engine.loop_state) :
  Engine.PROCESSORS (rule_type r) = Some p ->
  Engine.check_rule_conditions t md (conditions r) = Ok true ->
  Engine.run_processor p (reading now r) t md (rule_config r) = Raise e ->
  Engine.rules_loop now t md pos (r :: rest) st =
  Engine.rules_loop now t md (S pos) rest
    (Engine.record_failure
       (Engine.with_events st
          [Engine.GuardChecked pos r; Engine.ProcessorInvoked pos r]) r e).
Proof.
  intros Hp Hg Hrun. simpl. rewrite Hp, Hg. simpl. rewrite Hrun.
  unfold Engine.record_failure, Engine.with_events. simpl.
  rewrite <- app_assoc. reflexivity.
Qed.

(** Once a tag is chosen, no later rule replaces it. *)
Lemma decided_is_kept (rules : list TaggingRule) :
  forall pos st st',
    Engine.decided st ->
    Engine.rules_loop now t md pos rules st = Ok st' ->
    Engine.best_tag st' = Engine.best_tag st /\ Engine.decided st'.
Proof.
  induction rules as [|r rules IH]; simpl; intros pos st st' Hd H.
  - injection H as <-. split; [reflexivity | exact Hd].
  - destruct (Engine.PROCESSORS (rule_type r)) as [p|]; [|eauto].
    destruct (Engine.check_rule_conditions t md (conditions r))
      as [[|]|e]; simpl in H; [| |discriminate H].
    + destruct (Engine.run_processor p (reading now r) t md (rule_config r))
        as [tag|e].
      * destruct (py_truthy tag).
        -- assert (Hk : Engine.decided
                     (Engine.record_match
                        (Engine.with_events
                           (Engine.with_events st
                              [Engine.GuardChecked pos r])
                           [Engine.ProcessorInvoked pos r]) r tag) /\
                   Engine.best_tag
                     (Engine.record_match
                        (Engine.with_events
                           (Engine.with_events st
                              [Engine.GuardChecked pos r])
                           [Engine.ProcessorInvoked pos r]) r tag) =
                   Engine.best_tag st).
           { destruct Hd as [Ht Hc]. unfold Engine.record_match,
               Engine.decided. simpl. rewrite Hc. simpl.
             repeat split; assumption. }
           destruct Hk as [Hk Hb].
           destruct ((priority r <? 50) && Engine.Qgtb 1 (9 # 10)).
           ++ injection H as <-. split; assumption.
           ++ destruct (IH _ _ _ Hk H) as [H1 H2].
              split; [congruence | exact H2].
        -- eapply IH in H; [exact H | exact Hd].
      * eapply IH in H; [exact H | exact Hd].
    + eapply IH in H; [exact H | exact Hd].
Qed.

(** From a state with nothing chosen, the loop ends with the tag of the
    first rule that yields one. *)
Lemma undecided_finds_first (rules : list TaggingRule) :
  forall pos st st',
    Engine.undecided st ->
    Engine.rules_loop now t md pos rules st = Ok st' ->
    Engine.best_tag st' = Engine.first_match now t md rules /\
    (Engine.undecided st' \/ Engine.decided st').
Proof.
  induction rules as [|r rules IH]; simpl; intros pos st st' Hu H.
  - injection H as <-. split; [apply Hu | left; exact Hu].
  - unfold Engine.rule_tag.
    destruct (Engine.PROCESSORS (rule_type r)) as [p|]; [|eauto].
    destruct (Engine.check_rule_conditions t md (conditions r))
      as [[|]|e]; simpl in H; [| |discriminate H].
    + destruct (Engine.run_processor p (reading now r) t md (rule_config r))
        as [tag|e].
      * destruct (py_truthy tag) eqn:Etag.
        -- assert (Hk : Engine.decided
                     (Engine.record_match
                        (Engine.with_events
                           (Engine.with_events st
                              [Engine.GuardChecked pos r])
                           [Engine.ProcessorInvoked pos r]) r tag) /\
                   Engine.best_tag
                     (Engine.record_match
                        (Engine.with_events
                           (Engine.with_events st
                              [Engine.GuardChecked pos r])
                           [Engine.ProcessorInvoked pos r]) r tag) = tag).
           { destruct Hu as [Ht Hc]. unfold Engine.record_match,
               Engine.decided. simpl. rewrite Hc. simpl.
             repeat split; assumption. }
           destruct Hk as [Hk Hb].
           destruct ((priority r <? 50) && Engine.Qgtb 1 (9 # 10)).
           ++ injection H as <-. split; [exact Hb | right; exact Hk].
           ++ destruct (decided_is_kept _ _ _ _ Hk H) as [H1 H2].
              split; [congruence | right; exact H2].
        -- eapply IH in H; [exact H | exact Hu].
      * eapply IH in H; [exact H | exact Hu].
    + eapply IH in H; [exact H | exact Hu].
Qed.

(** The loop returns when no guard it checks raises. *)
Lemma loop_returns (rules : list TaggingRule) :
  forall pos st,
    (forall r, In r rules -> Engine.guard_returns t md r = true) ->
    exists st', Engine.rules_loop now t md pos rules st = Ok st'.
Proof.
  induction rules as [|r rules IH]; simpl; intros pos st Hg.
  - exists st. reflexivity.
  - assert (Hr := Hg r (or_introl eq_refl)).
    assert (Hrest : forall r', In r' rules ->
                               Engine.guard_returns t md r' = true).
    { intros r' Hin. apply Hg. right. exact Hin. }
    unfold Engine.guard_returns in Hr.
    destruct (Engine.PROCESSORS (rule_type r)) as [p|]; [|apply IH, Hrest].
    destruct (Engine.check_rule_conditions t md (conditions r))
      as [[|]|e]; simpl in *; [| |discriminate Hr].
    + destruct (Engine.run_processor p (reading now r) t md (rule_config r))
        as [tag|e]; [|apply IH, Hrest].
      destruct (py_truthy tag); [|apply IH, Hrest].
      destruct ((priority r <? 50) && Engine.Qgtb 1 (9 # 10));
        [eexists; reflexivity | apply IH, Hrest].
    + apply IH, Hrest.
Qed.

(** Every event the loop adds is at a position of the list it walks. *)
Lemma trace_positions (rules : list TaggingRule) :
  forall pos st st',
    Engine.rules_loop now t md pos rules st = Ok st' ->
    forall ev, In ev (Engine.trace st') ->
      In ev (Engine.trace st) \/
      (pos <= Engine.event_pos ev < pos + List.length rules)%nat.
Proof.
  induction rules as [|r rules IH]; simpl; intros pos st st' H ev Hev.
  - injection H as <-. left. exact Hev.
  - assert (Hshift : forall st0,
      Engine.rules_loop now t md (S pos) rules st0 = Ok st' ->
      (forall e, In e (Engine.trace st0) ->
                 In e (Engine.trace st) \/ Engine.event_pos e = pos) ->
      In ev (Engine.trace st) \/
      (pos <= Engine.event_pos ev < pos + S (List.length rules))%nat).
    { intros st0 H0 Hst0.
      destruct (IH _ _ _ H0 ev Hev) as [Hin|Hpos].
      - destruct (Hst0 ev Hin) as [Hl|Hr]; [left; exact Hl | right; lia].
      - right. lia. }
    destruct (Engine.PROCESSORS (rule_type r)) as [p|].
    2:{ apply (Hshift st H). intros e He. left. exact He. }
    destruct (Engine.check_rule_conditions t md (conditions r))
      as [[|]|e]; simpl in H; [| |discriminate H].
    + assert (Hboth : forall e,
        In e ((Engine.trace st ++ [Engine.GuardChecked pos r]) ++
              [Engine.ProcessorInvoked pos r]) ->
        In e (Engine.trace st) \/ Engine.event_pos e = pos).
      { intros e He. rewrite !in_app_iff in He. simpl in He.
        destruct He as [[He|[<-|[]]]|[<-|[]]]; auto. }
      destruct (Engine.run_processor p (reading now r) t md (rule_config r))
        as [tag|e].
      * destruct (py_truthy tag).
        -- destruct ((priority r <? 50) && Engine.Qgtb 1 (9 # 10)).
           ++ injection H as <-. simpl in Hev.
              destruct (Hboth ev Hev) as [Hl|Hr];
                [left; exact Hl | right; lia].
           ++ apply (Hshift _ H). exact Hboth.
        -- apply (Hshift _ H). exact Hboth.
      * apply (Hshift _ H). exact Hboth.
    + apply (Hshift _ H). intros e0 He. simpl in He.
      rewrite in_app_iff in He. simpl in He.
      destruct He as [He|[<-|[]]]; auto.
Qed.

(** A matching rule of priority below 50 ends the loop. *)
Lemma early_exit_cuts (l1 l2 : list TaggingRule) (r : TaggingRule)
    (p : Engine.processor) (tag : pyval) :
  Engine.PROCESSORS (rule_type r) = Some p ->
  Engine.check_rule_conditions t md (conditions r) = Ok true ->
  Engine.run_processor p (reading now r) t md (rule_config r) = Ok tag ->
  py_truthy tag = true ->
  priority r < 50 ->
  forall pos st,
    Engine.rules_loop now t md pos (l1 ++ r :: l2) st =
    Engine.rules_loop now t md pos (l1 ++ [r]) st.
Proof.
  intros Hp Hg Hrun Htag Hprio.
  induction l1 as [|x l1 IH]; simpl; intros pos st.
  - rewrite Hp, Hg. simpl. rewrite Hrun, Htag.
    assert (Hlt : (priority r <? 50) = true) by (apply Z.ltb_lt; lia).
    rewrite Hlt. reflexivity.
  - destruct (Engine.PROCESSORS (rule_type x)) as [px|]; [|apply IH].
    destruct (Engine.check_rule_conditions t md (conditions x))
      as [[|]|e]; simpl; [| |reflexivity].
    + destruct (Engine.run_processor px (reading now x) t md (rule_config x))
        as [tagx|e]; [|apply IH].
      destruct (py_truthy tagx); [|apply IH].
      destruct ((priority x <? 50) && Engine.Qgtb 1 (9 # 10));
        [reflexivity | apply IH].
    + apply IH.
Qed.

End LoopProperties.

(* ------------------------------------------------------------------ *)
(** ** The engine: the tag table *)

Section TagTable.
Context {rt : Runtime}.
Variables (txn company : Z) (tag : pyval) (confidence : Q)
          (notes_text now : string).

Local Abbreviation write :=
  (Engine.write_defaults txn company tag confidence notes_text now).

Lemma tag_for_write (a b : Z) (row : TransactionTag) :
  tag_for a b (write row) = tag_for a b row.
Proof. unfold write. destruct (tag_for txn company row); reflexivity. Qed.

Lemma tags_of_write (a b : Z) (rows : list TransactionTag) :
  tags_of a b (map write rows) = map write (tags_of a b rows).
Proof.
  induction rows as [|row rows IH]; simpl; [reflexivity|].
  rewrite tag_for_write. destruct (tag_for a b row); simpl; rewrite IH;
    reflexivity.
Qed.

Lemma tags_of_app (a b : Z) (rows more : list TransactionTag) :
  tags_of a b (rows ++ more) = tags_of a b rows ++ tags_of a b more.
Proof. apply filter_app. Qed.

Lemma write_twice (row : TransactionTag) : write (write row) = write row.
Proof.
  unfold write. destruct (tag_for txn company row) eqn:E.
  - change (tag_for txn company
              (Engine.apply_defaults tag confidence notes_text now row))
      with (tag_for txn company row). rewrite E. reflexivity.
  - rewrite E. reflexivity.
Qed.

(** Under the uniqueness constraint [update_or_create] returns. *)
Lemma update_or_create_returns (rows : list TransactionTag) :
  (List.length (tags_of txn company rows) <= 1)%nat ->
  exists rows',
    Engine.update_or_create rows txn company tag confidence notes_text now
    = Ok rows'.
Proof.
  unfold Engine.update_or_create.
  destruct (tags_of txn company rows) as [|x [|y l]]; simpl; intros H.
  - eexists. reflexivity.
  - eexists. reflexivity.
  - lia.
Qed.

(** After it, the pair has one row: the new one, or the old one with
    every column of [defaults] replaced. *)
Lemma update_or_create_row (rows rows' : list TransactionTag) :
  Engine.update_or_create rows txn company tag confidence notes_text now
  = Ok rows' ->
  (tags_of txn company rows = [] /\
   tags_of txn company rows' =
   [mkTag txn company (Engine.as_stored tag) confidence false notes_text
          now]) \/
  (exists row, tags_of txn company rows = [row] /\
     tags_of txn company rows' =
     [Engine.apply_defaults tag confidence notes_text now row]).
Proof.
  unfold Engine.update_or_create.
  destruct (tags_of txn company rows) as [|x [|y l]] eqn:E; intros H;
    [| |discriminate H]; injection H as <-.
  - left. split; [reflexivity|].
    rewrite tags_of_app, E. simpl. unfold tag_for. simpl.
    rewrite !Z.eqb_refl. reflexivity.
  - right. exists x. split; [reflexivity|].
    fold write. rewrite tags_of_write, E. simpl. unfold write.
    assert (Hx : In x (tags_of txn company rows)) by (rewrite E; left; auto).
    apply filter_In in Hx. destruct Hx as [_ Hx]. rewrite Hx. reflexivity.
Qed.

(** The rows of the other pairs are left as they were. *)
Lemma update_or_create_frame (rows rows' : list TransactionTag) (a b : Z) :
  Engine.update_or_create rows txn company tag confidence notes_text now
  = Ok rows' ->
  tag_for txn company (mkTag a b PNone 0 false "" "") = false ->
  tags_of a b rows' = tags_of a b rows.
Proof.
  unfold Engine.update_or_create. intros H Hne.
  assert (Hother : forall row, tag_for a b row = true ->
                               tag_for txn company row = false).
  { intros row Hrow. unfold tag_for in *. simpl in Hne.
    apply andb_true_iff in Hrow. destruct Hrow as [H1 H2].
    apply Z.eqb_eq in H1, H2. rewrite H1, H2. exact Hne. }
  destruct (tags_of txn company rows) as [|x [|y l]] eqn:E;
    [| |discriminate H]; injection H as <-.
  - rewrite tags_of_app. simpl.
    replace (tag_for a b (mkTag txn company (Engine.as_stored tag)
                            confidence false notes_text now)) with false.
    + apply app_nil_r.
    + symmetry. unfold tag_for in *. simpl in *.
      rewrite (Z.eqb_sym txn a), (Z.eqb_sym company b). exact Hne.
  - fold write. rewrite tags_of_write.
    clear E. unfold tags_of. induction rows as [|row rows IH]; simpl;
      [reflexivity|].
    destruct (tag_for a b row) eqn:Er; simpl.
    + unfold write at 1. rewrite (Hother row Er). f_equal.
      apply IH.
    + apply IH.
Qed.

(** The constraint is kept. *)
Lemma update_or_create_unique (rows rows' : list TransactionTag) :
  tags_unique rows ->
  Engine.update_or_create rows txn company tag confidence notes_text now
  = Ok rows' ->
  tags_unique rows'.
Proof.
  intros Hu H a b.
  destruct ((a =? txn) && (b =? company)) eqn:Eab.
  - apply andb_true_iff in Eab. destruct Eab as [Ea Eb].
    apply Z.eqb_eq in Ea, Eb. subst a b.
    destruct (update_or_create_row _ _ H) as [[_ ->]|[row [_ ->]]];
      simpl; lia.
  - rewrite (update_or_create_frame _ _ a b H).
    + apply Hu.
    + unfold tag_for. simpl. exact Eab.
Qed.

(** After it, the rows of the pair hold the values written. *)
Lemma update_or_create_written (rows rows' : list TransactionTag) :
  Engine.update_or_create rows txn company tag confidence notes_text now
  = Ok rows' ->
  forall row, In row rows' -> tag_for txn company row = true ->
    row = Engine.apply_defaults tag confidence notes_text now row.
Proof.
  unfold Engine.update_or_create.
  destruct (tags_of txn company rows) as [|x [|y l]] eqn:E; intros H;
    [| |discriminate H]; injection H as <-; intros row Hin Hrow.
  - apply in_app_or in Hin. destruct Hin as [Hin|[<-|[]]].
    + assert (Hmem : In row (tags_of txn company rows))
        by (apply filter_In; split; assumption).
      rewrite E in Hmem. destruct Hmem.
    + reflexivity.
  - apply in_map_iff in Hin. destruct Hin as [x0 [<- Hin]].
    rewrite tag_for_write in Hrow. unfold write. rewrite Hrow.
    reflexivity.
Qed.

(** Writing the same values at another time changes [updated_at] of the
    row of the pair and nothing else. *)
Lemma update_or_create_later (rows rows' : list TransactionTag)
    (later : string) :
  Engine.update_or_create rows txn company tag confidence notes_text now
  = Ok rows' ->
  Engine.update_or_create rows' txn company tag confidence notes_text later
  = Ok (Outcome.touched txn company later rows').
Proof.
  intros H.
  assert (Hone : exists row, tags_of txn company rows' = [row]).
  { destruct (update_or_create_row _ _ H) as [[_ ->]|[row [_ ->]]];
      eexists; reflexivity. }
  destruct Hone as [row0 Hrow0].
  unfold Engine.update_or_create. rewrite Hrow0. f_equal.
  unfold Outcome.touched. apply map_ext_in. intros row Hin.
  unfold Engine.write_defaults.
  destruct (tag_for txn company row) eqn:Er; [|reflexivity].
  assert (Hw := update_or_create_written _ _ H row Hin Er).
  destruct row as [a b tc cs mo pn ua].
  unfold Engine.apply_defaults, Outcome.saved_at in *. simpl in *.
  injection Hw as Htc Hcs Hpn Hua. congruence.
Qed.

End TagTable.

(* ------------------------------------------------------------------ *)
(** ** The engine: [tag_transaction] *)

Section EngineProperties.
Context {rt : Runtime}.

Lemma initial_undecided : Engine.undecided Engine.initial_state.
Proof. split; reflexivity. Qed.

(** What [tag_transaction] returns is what the loop chose. *)
Lemma persist_result (db db' : Database) (now : clock) (t : Transaction)
    (c : Company) (st : Engine.loop_state) (r : pyval) :
  Engine.undecided st \/ Engine.decided st ->
  Engine.persist db now t c st = Ok (r, db') ->
  r = Engine.best_tag st.
Proof.
  unfold Engine.persist. intros Hst H.
  destruct (py_truthy (Engine.best_tag st)) eqn:E.
  - apply bind_ok in H. destruct H as [rows [_ H]].
    injection H as <- _. reflexivity.
  - injection H as <- _. destruct Hst as [[Ht _]|[Ht _]].
    + symmetry. exact Ht.
    + rewrite Ht in E. discriminate E.
Qed.

Lemma persist_returns (db : Database) (now : clock) (t : Transaction)
    (c : Company) (st : Engine.loop_state) :
  tags_unique (transaction_tags db) ->
  exists r db', Engine.persist db now t c st = Ok (r, db').
Proof.
  unfold Engine.persist. intros Hu.
  destruct (py_truthy (Engine.best_tag st)).
  - destruct (update_or_create_returns (txn_id t) (company_id c)
                (Engine.best_tag st) (Engine.best_confidence st)
                (Engine.joined (Engine.notes st)) (at_save now)
                (transaction_tags db) (Hu _ _)) as [rows ->].
    simpl. eauto.
  - eauto.
Qed.

Lemma tag_transaction_first_match (db db' : Database) (now : clock)
    (t : Transaction) (c : Company) (r : pyval) :
  Engine.tag_transaction db now t c = Ok (r, db') ->
  r = Engine.first_match now t (Engine.metadata_of t)
        (Engine.active_rules db c).
Proof.
  unfold Engine.tag_transaction. intros H.
  apply bind_ok in H. destruct H as [st [Hloop Hp]].
  destruct (undecided_finds_first now t _ _ _ _ _ initial_undecided Hloop)
    as [Hbest Hst].
  rewrite <- Hbest. apply (persist_result _ _ _ _ _ _ _ Hst Hp).
Qed.

Lemma tag_transaction_returns (db : Database) (now : clock)
    (t : Transaction) (c : Company) :
  (forall r, In r (Engine.active_rules db c) ->
             Engine.guard_returns t (Engine.metadata_of t) r = true) ->
  tags_unique (transaction_tags db) ->
  exists db',
    Engine.tag_transaction db now t c =
    Ok (Engine.first_match now t (Engine.metadata_of t)
          (Engine.active_rules db c), db').
Proof.
  intros Hg Hu.
  destruct (loop_returns now t (Engine.metadata_of t) _ 0%nat
              Engine.initial_state Hg) as [st Hloop].
  destruct (persist_returns db now t c st Hu) as [r [db' Hp]].
  assert (H : Engine.tag_transaction db now t c = Ok (r, db')).
  { unfold Engine.tag_transaction. rewrite Hloop. exact Hp. }
  exists db'. rewrite H.
  rewrite (tag_transaction_first_match _ _ _ _ _ _ H). reflexivity.
Qed.

End EngineProperties.

(** C1.  The rules are walked in ascending priority, each active rule of
    the company once.  Whenever [tag_transaction] returns, the tag it
    returns is the tag of the first of them that has a processor, whose
    guard passes and whose processor returns a non-empty tag ([None] when
    there is none): a later match never replaces it.  It does return
    when no guard raises and the tag table satisfies its uniqueness
    constraint. *)
Theorem first_matching_rule_wins
    (rt : Runtime) (db : Database) (now : clock) (t : Transaction)
    (c : Company) :
  (StronglySorted Engine.by_priority (Engine.active_rules db c) /\
   Permutation (filter (Engine.active_rule_of c) (tagging_rules db))
               (Engine.active_rules db c)) /\
  (forall r db',
     Engine.tag_transaction db now t c = Ok (r, db') ->
     r = Engine.first_match now t (Engine.metadata_of t)
           (Engine.active_rules db c)) /\
  ((forall r, In r (Engine.active_rules db c) ->
              Engine.guard_returns t (Engine.metadata_of t) r = true) ->
   tags_unique (transaction_tags db) ->
   exists db',
     Engine.tag_transaction db now t c =
     Ok (Engine.first_match now t (Engine.metadata_of t)
           (Engine.active_rules db c), db')).
Proof.
  split; [apply active_rules_spec|]. split.
  - intros r db'. apply tag_transaction_first_match.
  - apply tag_transaction_returns.
Qed.

(** C1 on the sample: the rule of priority 10 is stored after the rule
    of priority 100 and decides. *)
Lemma first_matching_rule_wins_witness :
  exists db',
    Engine.tag_transaction (rt := Concrete.runtime) Sample.arbitration_db
      (steady "2024-01-02T00:00:00+00:00") (Sample.txn "PROD_001") Sample.acme
    = Ok (PStr "HIGH", db').
Proof.
  destruct (first_matching_rule_wins Concrete.runtime Sample.arbitration_db
              (steady "2024-01-02T00:00:00+00:00") (Sample.txn "PROD_001")
              Sample.acme) as [_ [_ H]].
  apply H.
  - intros r [<-|[<-|[]]]; reflexivity.
  - intros txn company. simpl. lia.
Defined.

(** C5.  Once a rule of priority below 50 matches (its confidence, 1.0,
    is above 0.9), the loop ends: the rules behind it have no part in the
    result, and no guard check or processor invocation happens at a
    position behind it. *)
Theorem early_exit_consults_no_later_rule
    (rt : Runtime) (db : Database) (now : clock) (t : Transaction)
    (c : Company) (l1 l2 : list TaggingRule) (r : TaggingRule)
    (p : Engine.processor) (tag : pyval) :
  Engine.active_rules db c = l1 ++ r :: l2 ->
  Engine.PROCESSORS (rule_type r) = Some p ->
  Engine.check_rule_conditions t (Engine.metadata_of t) (conditions r)
  = Ok true ->
  Engine.run_processor p (reading now r) t (Engine.metadata_of t)
    (rule_config r) = Ok tag ->
  py_truthy tag = true ->
  priority r < 50 ->
  (forall pos st,
     Engine.rules_loop now t (Engine.metadata_of t) pos (l1 ++ r :: l2) st =
     Engine.rules_loop now t (Engine.metadata_of t) pos (l1 ++ [r]) st) /\
  (forall events ev,
     Engine.consulted db now t c = Ok events ->
     In ev events ->
     (Engine.event_pos ev <= List.length l1)%nat).
Proof.
  intros Hrules Hp Hg Hrun Htag Hprio.
  assert (Hcut := early_exit_cuts now t (Engine.metadata_of t) l1 l2 r p tag
                    Hp Hg Hrun Htag Hprio).
  split; [exact Hcut|].
  intros events ev H Hev. unfold Engine.consulted in H.
  rewrite Hrules, Hcut in H.
  apply bind_ok in H. destruct H as [st [Hloop H]]. injection H as <-.
  destruct (trace_positions now t _ _ _ _ _ Hloop ev Hev) as [[]|Hpos].
  rewrite length_app in Hpos. simpl in Hpos. lia.
Qed.

(** C5 on the sample: rule [R1] of priority 25 matches and [R2] is not
    consulted. *)
Lemma early_exit_consults_no_later_rule_witness :
  Engine.consulted (rt := Concrete.runtime) Sample.early_exit_db
    (steady "2024-01-02T00:00:00+00:00") (Sample.txn "PROD_001") Sample.acme
  = Ok [Engine.GuardChecked 0 Sample.rule_a;
        Engine.ProcessorInvoked 0 Sample.rule_a] /\
  (Engine.event_pos (Engine.ProcessorInvoked 0 Sample.rule_a) <= 0)%nat.
Proof.
  split; [reflexivity|].
  destruct (early_exit_consults_no_later_rule Concrete.runtime
              Sample.early_exit_db (steady "2024-01-02T00:00:00+00:00")
              (Sample.txn "PROD_001") Sample.acme [] [Sample.rule_b]
              Sample.rule_a Engine.SimpleP (PStr "A")
              eq_refl eq_refl eq_refl eq_refl eq_refl eq_refl) as [_ H].
  apply (H [Engine.GuardChecked 0 Sample.rule_a;
            Engine.ProcessorInvoked 0 Sample.rule_a]).
  - reflexivity.
  - right. left. reflexivity.
Defined.

(** C2.  The guard is evaluated outside the [try]: a rule whose guard
    raises makes [tag_transaction] raise, while a rule whose processor
    raises is skipped and the rule behind it still decides. *)
Theorem guard_error_fails_the_transaction (rt : Runtime) (now : clock) :
  Engine.tag_transaction Sample.odd_guard_db now (Sample.txn "PROD_001")
    Sample.acme
  = Raise (mkExn AttributeError
             "'NoneType' object has no attribute 'startswith'") /\
  Engine.run_processor Engine.SimpleP (reading now Sample.odd_config_rule)
    (Sample.txn "PROD_001") (PDict []) (rule_config Sample.odd_config_rule)
  = Raise (mkExn AttributeError "'str' object has no attribute 'get'") /\
  exists db',
    Engine.tag_transaction Sample.odd_config_db now (Sample.txn "PROD_001")
      Sample.acme = Ok (PStr "LOW", db') /\
    map processing_notes (transaction_tags db') =
    [String.concat (String (ascii_of_nat 10) "")
       ["Rule 'Malformed Rule 3' failed: 'str' object has no attribute 'get'";
        "Rule 'R2' matched: LOW"]].
Proof.
  split; [reflexivity|]. split; [reflexivity|].
  eexists. split; reflexivity.
Qed.

(** C4 as written fails: the hand-set tag of the sample is replaced by
    the tag of rule [R1]. *)
Lemma manual_override_sentence_fails :
  ~ AsStated.manual_override_sentence (rt := Concrete.runtime)
      Sample.override_db Sample.morning
      (Sample.txn "PROD_001") Sample.acme.
Proof.
  intros H.
  pose (written := mkTag 7 1 (PStr "HIGH") 1 true "Rule 'R1' matched: HIGH"
                     "2024-01-02T00:00:01+00:00").
  destruct (H Sample.manual_row (PStr "HIGH")
              (mkDb [Sample.acme] [Sample.high_rule] [written])
              (or_introl eq_refl) eq_refl eq_refl eq_refl written
              (or_introl eq_refl)) as [Htag _].
  discriminate Htag.
Qed.

(** C4, as the code has it.  [tag_transaction] does not look at
    [is_manual_override].  When it returns a tag, the row of the pair
    holds that tag as the column stores it, the confidence 1.0, the notes
    of this run of the loop joined by newlines, and the reading of the
    clock at the save; of what it held it keeps only its
    [is_manual_override].  The row is left as it was only when no rule
    yields a tag. *)
Theorem engine_overwrites_any_existing_tag
    (rt : Runtime) (db db' : Database) (now : clock) (t : Transaction)
    (c : Company) (row : TransactionTag) (r : pyval) :
  tags_unique (transaction_tags db) ->
  In row (transaction_tags db) ->
  tag_for (txn_id t) (company_id c) row = true ->
  Engine.tag_transaction db now t c = Ok (r, db') ->
  (r = PNone /\ db' = db) \/
  (py_truthy r = true /\
   exists st,
     Engine.rules_loop now t (Engine.metadata_of t) 0
       (Engine.active_rules db c) Engine.initial_state = Ok st /\
     tags_of (txn_id t) (company_id c) (transaction_tags db') =
     [mkTag (tt_transaction row) (tt_company row) (Engine.as_stored r) 1
            (is_manual_override row) (Engine.joined (Engine.notes st))
            (at_save now)]).
Proof.
  intros Hu Hin Hrow H. unfold Engine.tag_transaction in H.
  apply bind_ok in H. destruct H as [st [Hloop Hp]].
  destruct (undecided_finds_first now t _ _ _ _ _ initial_undecided Hloop)
    as [_ Hst].
  unfold Engine.persist in Hp.
  destruct (py_truthy (Engine.best_tag st)) eqn:E.
  - right. apply bind_ok in Hp. destruct Hp as [rows [Hup Hp]].
    injection Hp as <- <-. split; [exact E|].
    destruct Hst as [[Ht _]|[_ Hc]];
      [rewrite Ht in E; discriminate E|].
    rewrite Hc in Hup.
    assert (Hmem : In row (tags_of (txn_id t) (company_id c)
                             (transaction_tags db))).
    { apply filter_In. split; assumption. }
    exists st. split; [exact Hloop|].
    destruct (update_or_create_row _ _ _ _ _ _ _ _ Hup)
      as [[Hnone _]|[row0 [Hone Hnew]]].
    + rewrite Hnone in Hmem. destruct Hmem.
    + rewrite Hone in Hmem. destruct Hmem as [<-|[]].
      simpl. exact Hnew.
  - left. injection Hp as <- <-. split; reflexivity.
Qed.

(** C4 on the sample: the hand-set row after the call holds the tag and
    the note of rule [R1] and the time of the save, with the flag
    kept. *)
Lemma engine_overwrites_any_existing_tag_witness :
  exists st,
    Engine.rules_loop (rt := Concrete.runtime) Sample.morning
      (Sample.txn "PROD_001") (Engine.metadata_of (Sample.txn "PROD_001")) 0
      (Engine.active_rules Sample.override_db Sample.acme)
      Engine.initial_state = Ok st /\
    tags_of 7 1
      [mkTag 7 1 (PStr "HIGH") 1 true "Rule 'R1' matched: HIGH"
         "2024-01-02T00:00:01+00:00"]
    = [mkTag 7 1 (Engine.as_stored (rt := Concrete.runtime) (PStr "HIGH")) 1
         true (Engine.joined (Engine.notes st)) "2024-01-02T00:00:01+00:00"].
Proof.
  destruct (engine_overwrites_any_existing_tag Concrete.runtime
              Sample.override_db
              (mkDb [Sample.acme] [Sample.high_rule]
                 [mkTag 7 1 (PStr "HIGH") 1 true "Rule 'R1' matched: HIGH"
                    "2024-01-02T00:00:01+00:00"])
              Sample.morning (Sample.txn "PROD_001") Sample.acme
              Sample.manual_row (PStr "HIGH")) as [[H _]|[_ H]].
  - intros txn company. simpl. destruct (tag_for txn company _); simpl; lia.
  - left. reflexivity.
  - reflexivity.
  - reflexivity.
  - discriminate H.
  - exact H.
Defined.

(** C8 as written fails: in two calls at two readings of the clock, the
    tag of rule [Clock] is the reading, so the two tags differ. *)
Lemma idempotence_sentence_fails :
  ~ AsStated.idempotence_sentence (rt := Concrete.runtime) Sample.clock_db
      Sample.morning Sample.next_morning
      (Sample.txn "PROD_001") Sample.acme.
Proof.
  intros H.
  pose (first := mkTag 7 1 (PStr "2024-01-02T00:00:00+00:00") 1 false
                   "Rule 'Clock' matched: 2024-01-02T00:00:00+00:00"
                   "2024-01-02T00:00:01+00:00").
  pose (second := mkTag 7 1 (PStr "2024-01-03T00:00:00+00:00") 1 false
                    "Rule 'Clock' matched: 2024-01-03T00:00:00+00:00"
                    "2024-01-03T00:00:01+00:00").
  destruct (H (PStr "2024-01-02T00:00:00+00:00")
              (mkDb [Sample.acme] [Sample.clock_rule] [first])
              (PStr "2024-01-03T00:00:00+00:00")
              (mkDb [Sample.acme] [Sample.clock_rule] [second])
              eq_refl eq_refl) as [Hsame _].
  discriminate Hsame.
Qed.

Section TwoCalls.
Context {rt : Runtime}.
Variables (now1 now2 : clock) (t : Transaction) (md : pyval).

(** The loop does the same at two clocks when each rule it walks has its
    processor return the same at the two readings. *)
Lemma loop_at_another_clock (rules : list TaggingRule) :
  (forall x p, In x rules -> Engine.PROCESSORS (rule_type x) = Some p ->
     Engine.run_processor p (reading now2 x) t md (rule_config x) =
     Engine.run_processor p (reading now1 x) t md (rule_config x)) ->
  forall pos st,
    Engine.rules_loop now2 t md pos rules st =
    Engine.rules_loop now1 t md pos rules st.
Proof.
  induction rules as [|r rules IH]; intros Hsame pos st; [reflexivity|].
  assert (Hrest : forall x p, In x rules ->
            Engine.PROCESSORS (rule_type x) = Some p ->
            Engine.run_processor p (reading now2 x) t md (rule_config x) =
            Engine.run_processor p (reading now1 x) t md (rule_config x)).
  { intros x p Hx. apply Hsame. right. exact Hx. }
  simpl.
  destruct (Engine.PROCESSORS (rule_type r)) as [p|] eqn:Ep;
    [|apply IH, Hrest].
  rewrite (Hsame r p (or_introl eq_refl) Ep).
  destruct (Engine.check_rule_conditions t md (conditions r))
    as [[|]|e]; simpl; [| |reflexivity].
  - destruct (Engine.run_processor p (reading now1 r) t md (rule_config r))
      as [tag|e]; [|apply IH, Hrest].
    destruct (py_truthy tag); [|apply IH, Hrest].
    destruct ((priority r <? 50) && Engine.Qgtb 1 (9 # 10));
      [reflexivity | apply IH, Hrest].
  - apply IH, Hrest.
Qed.

(** Only the CEL processor reads the clock. *)
Lemma only_cel_reads_the_clock (x : TaggingRule) (p : Engine.processor) :
  (Engine.PROCESSORS (rule_type x) = Some Engine.CelP ->
   fst (Cel.process (reading now2 x) t md (rule_config x)) =
   fst (Cel.process (reading now1 x) t md (rule_config x))) ->
  Engine.PROCESSORS (rule_type x) = Some p ->
  Engine.run_processor p (reading now2 x) t md (rule_config x) =
  Engine.run_processor p (reading now1 x) t md (rule_config x).
Proof.
  intros Hcel Hp. destruct p; try reflexivity.
  simpl. rewrite (Hcel Hp). reflexivity.
Qed.

End TwoCalls.

(** C8, as the code has it.  A second call on the database the first
    call left, with the rules and the metadata unchanged, returns the
    same tag provided each CEL rule of the company returns the same at
    the readings of the clock of the two calls (the other processors do
    not read the clock).  It then changes nothing but [updated_at] of
    the row of the pair, which becomes the reading at the second save,
    and the pair has at most one row. *)
Theorem tagging_twice_rewrites_only_updated_at
    (rt : Runtime) (db db1 : Database) (now1 now2 : clock)
    (t : Transaction) (c : Company) (r : pyval) :
  tags_unique (transaction_tags db) ->
  Engine.tag_transaction db now1 t c = Ok (r, db1) ->
  (forall x, In x (Engine.active_rules db c) ->
     Engine.PROCESSORS (rule_type x) = Some Engine.CelP ->
     fst (Cel.process (reading now2 x) t (Engine.metadata_of t)
            (rule_config x)) =
     fst (Cel.process (reading now1 x) t (Engine.metadata_of t)
            (rule_config x))) ->
  exists db2,
    Engine.tag_transaction db1 now2 t c = Ok (r, db2) /\
    companies db2 = companies db1 /\
    tagging_rules db2 = tagging_rules db1 /\
    transaction_tags db2 =
    (if py_truthy r
     then Outcome.touched (txn_id t) (company_id c) (at_save now2)
            (transaction_tags db1)
     else transaction_tags db1) /\
    tags_unique (transaction_tags db2) /\
    (List.length (tags_of (txn_id t) (company_id c) (transaction_tags db2))
     <= 1)%nat.
Proof.
  intros Hu H Hcel.
  assert (Hloop2 : forall pos st,
            Engine.rules_loop now2 t (Engine.metadata_of t) pos
              (Engine.active_rules db c) st =
            Engine.rules_loop now1 t (Engine.metadata_of t) pos
              (Engine.active_rules db c) st).
  { apply loop_at_another_clock. intros x p Hx Hp.
    apply only_cel_reads_the_clock; [apply Hcel, Hx | exact Hp]. }
  unfold Engine.tag_transaction in *.
  apply bind_ok in H. destruct H as [st [Hloop Hp]].
  unfold Engine.persist in Hp.
  destruct (py_truthy (Engine.best_tag st)) eqn:E.
  - apply bind_ok in Hp. destruct Hp as [rows [Hup Hp]].
    injection Hp as <- <-.
    change (Engine.active_rules
              (mkDb (companies db) (tagging_rules db) rows) c)
      with (Engine.active_rules db c).
    rewrite Hloop2, Hloop. cbn [bind]. unfold Engine.persist. rewrite E.
    cbn [transaction_tags companies tagging_rules].
    rewrite (update_or_create_later _ _ _ _ _ _ _ _ (at_save now2) Hup).
    cbn [bind].
    assert (Hu1 : tags_unique rows)
      by apply (update_or_create_unique _ _ _ _ _ _ _ _ Hu Hup).
    assert (Hu2 : tags_unique
                    (Outcome.touched (txn_id t) (company_id c)
                       (at_save now2) rows)).
    { apply (update_or_create_unique _ _ _ _ _ _ _ _ Hu1
               (update_or_create_later _ _ _ _ _ _ _ _ (at_save now2) Hup)). }
    eexists. split; [reflexivity|]. cbn [transaction_tags companies
                                          tagging_rules].
    repeat split; [exact Hu2 | apply Hu2].
  - injection Hp as <- <-. rewrite Hloop2, Hloop. cbn [bind].
    unfold Engine.persist. rewrite E.
    exists db. repeat split; [exact Hu | apply Hu].
Qed.

(** C8 on the sample: the second call, a day later, returns the tag of
    rule [R1] again and moves [updated_at] of the one row. *)
Lemma tagging_twice_rewrites_only_updated_at_witness :
  exists db2,
    Engine.tag_transaction (rt := Concrete.runtime)
      (mkDb [Sample.acme] [Sample.low_rule; Sample.high_rule]
         [mkTag 7 1 (PStr "HIGH") 1 false "Rule 'R1' matched: HIGH"
            "2024-01-02T00:00:01+00:00"])
      Sample.next_morning (Sample.txn "PROD_001") Sample.acme
    = Ok (PStr "HIGH", db2) /\
    transaction_tags db2 =
    [mkTag 7 1 (PStr "HIGH") 1 false "Rule 'R1' matched: HIGH"
       "2024-01-03T00:00:01+00:00"].
Proof.
  destruct (tagging_twice_rewrites_only_updated_at Concrete.runtime
              Sample.arbitration_db
              (mkDb [Sample.acme] [Sample.low_rule; Sample.high_rule]
                 [mkTag 7 1 (PStr "HIGH") 1 false "Rule 'R1' matched: HIGH"
                    "2024-01-02T00:00:01+00:00"])
              Sample.morning Sample.next_morning (Sample.txn "PROD_001")
              Sample.acme (PStr "HIGH"))
    as [db2 [H1 [_ [_ [H4 _]]]]].
  - intros txn company. simpl. lia.
  - reflexivity.
  - intros x [<-|[<-|[]]] Hp; discriminate Hp.
  - exists db2. split; [exact H1 | rewrite H4; reflexivity].
Defined.

(* ------------------------------------------------------------------ *)
(** ** The conditional evaluator on a missing field *)

Lemma substring_all (s : string) : String.substring 0 (String.length s) s = s.
Proof. induction s as [|a s IH]; simpl; [|rewrite IH]; reflexivity. Qed.

Lemma unknown_attribute (t : Transaction) (name : string) :
  ~ In name txn_attributes ->
  assoc name (other_attributes t) = None ->
  txn_getattr t name = PNone.
Proof.
  intros H Hother. unfold txn_getattr.
  repeat match goal with
  | |- context [String.eqb name ?a] =>
      destruct (String.eqb_spec name a) as [->|_];
        [exfalso; apply H; simpl; tauto|]
  end.
  rewrite Hother. reflexivity.
Qed.

Section MissingField.
Context {rt : Runtime}.

(** [_evaluate_condition] on a dict, as the source reads: the nested
    branch when ['conditions'] is a key, the single condition otherwise. *)
Lemma evaluate_condition_dict (t : Transaction) (m : pyval) (kvs : pydict) :
  Conditional.evaluate_condition t m (PDict kvs) =
  match assoc "conditions" kvs with
  | Some v =>
      bind (Conditional.evaluate_each t m v)
           (fun rs =>
              Ok (Conditional.combine
                    (match assoc "operator" kvs with
                     | Some op => op
                     | None => PStr "and"
                     end) rs))
  | None => Conditional.evaluate_leaf t m kvs
  end.
Proof.
  cbn -[String.eqb assoc].
  match goal with
  | |- match ?nested kvs with _ => _ end = _ =>
      assert (Hnested : forall l,
                nested l =
                match assoc "conditions" l with
                | Some v => Some (Conditional.evaluate_each t m v)
                | None => None
                end)
  end.
  { induction l as [|[k v] l IH]; [reflexivity|].
    cbn -[String.eqb]. destruct (String.eqb "conditions" k); [|exact IH].
    f_equal. destruct v as [| | | |subs| |]; try reflexivity.
    unfold Conditional.evaluate_each.
    induction subs as [|s subs IHs]; [reflexivity|].
    cbn [mapM]. rewrite <- IHs. reflexivity. }
  rewrite Hnested. destruct (assoc "conditions" kvs); reflexivity.
Qed.

Lemma evaluate_leaf_condition (t : Transaction) (m : pyval)
    (field operator : string) (value : pyval) :
  Conditional.evaluate_condition t m (AsStated.leaf field operator value) =
  bind (Conditional.get_field_value t m (PStr field))
       (fun actual => Conditional.compare_values actual (PStr operator) value).
Proof. reflexivity. Qed.

(** A missing field reads as [None]. *)
Lemma missing_field_is_None (t : Transaction) (md : pydict) (field : string) :
  AsStated.missing_field t md field ->
  Conditional.get_field_value t (PDict md) (PStr field) = Ok PNone.
Proof.
  intros [[name [-> Hname]]|[Hprefix [Hattr Hother]]].
  - assert (Hsub : String.substring 9
                     (String.length ("metadata." ++ name)%string - 9)
                     ("metadata." ++ name)%string = name).
    { simpl. rewrite Nat.sub_0_r. apply substring_all. }
    assert (Hpre : String.prefix "metadata." ("metadata." ++ name)%string
                   = true) by (destruct name; reflexivity).
    unfold Conditional.get_field_value.
    rewrite Hpre, Hsub. simpl. rewrite Hname. reflexivity.
  - unfold Conditional.get_field_value. rewrite Hprefix.
    rewrite (unknown_attribute t field Hattr Hother). reflexivity.
Qed.

Lemma None_equals (expected : pyval) :
  expected <> PNone -> py_eq PNone expected = false.
Proof. destruct expected; simpl; congruence. Qed.

End MissingField.

(** C3 as written fails: with no [amount] in the metadata,
    [metadata.amount greater_than 1000] holds, the comparison being of
    the texts ["None"] and ["1000"]. *)
Lemma missing_field_sentence_fails :
  ~ AsStated.missing_field_sentence (rt := Concrete.runtime)
      (Sample.txn "PROD_001") [] "metadata.amount" (PInt 1000).
Proof.
  intros H.
  destruct H as [_ [Hgt _]].
  - left. exists "amount". split; reflexivity.
  - vm_compute in Hgt. discriminate Hgt.
Qed.

(** C3, as the code has it.  A missing field (a [metadata.<name>] path
    whose name is not in the metadata, a name that is not an attribute of
    the transaction) reads as [None].  Under [equals] it is unequal to
    every value but [None]; [greater_than] and [less_than] compare the
    text ["None"] with the text of the expected value; [contains] and
    [regex] search the text ["None"]. *)
Theorem missing_field_reads_as_None
    (rt : Runtime) (t : Transaction) (md : pydict) (field : string)
    (expected : pyval) :
  AsStated.missing_field t md field ->
  Conditional.get_field_value t (PDict md) (PStr field) = Ok PNone /\
  (expected <> PNone ->
   Conditional.evaluate_condition t (PDict md)
     (AsStated.leaf field "equals" expected) = Ok false) /\
  Conditional.evaluate_condition t (PDict md)
    (AsStated.leaf field "greater_than" expected)
  = Ok (String.ltb (py_str expected) "None") /\
  Conditional.evaluate_condition t (PDict md)
    (AsStated.leaf field "less_than" expected)
  = Ok (String.ltb "None" (py_str expected)) /\
  Conditional.evaluate_condition t (PDict md)
    (AsStated.leaf field "contains" expected)
  = Ok (str_contains (py_str expected) "None") /\
  Conditional.evaluate_condition t (PDict md)
    (AsStated.leaf field "regex" expected)
  = re_search (py_str expected) "None".
Proof.
  intros Hmiss.
  assert (Hnone := missing_field_is_None t md field Hmiss).
  split; [exact Hnone|].
  rewrite !evaluate_leaf_condition, Hnone. simpl.
  repeat split.
  intros Hne. unfold Conditional.compare_values. simpl.
  rewrite (None_equals expected Hne). reflexivity.
Qed.

(** C3 on the sample: the missing [metadata.amount] is greater than
    1000. *)
Lemma missing_field_reads_as_None_witness :
  Conditional.evaluate_condition (rt := Concrete.runtime)
    (Sample.txn "PROD_001") (PDict [])
    (AsStated.leaf "metadata.amount" "greater_than" (PInt 1000))
  = Ok true.
Proof.
  destruct (missing_field_reads_as_None Concrete.runtime
              (Sample.txn "PROD_001") [] "metadata.amount" (PInt 1000))
    as [_ [_ [H _]]].
  - left. exists "amount". split; reflexivity.
  - rewrite H. reflexivity.
Defined.

(* ------------------------------------------------------------------ *)
(** ** The CEL processor on a legacy [script] *)

(** C6 as written fails: a configuration that keeps its old [script]
    next to the new [expression] has the expression evaluated and its tag
    returned. *)
Lemma legacy_script_sentence_fails :
  ~ AsStated.legacy_script_sentence (rt := Concrete.runtime)
      "2024-01-02T00:00:00+00:00" (Sample.txn "PROD_001") (PDict [])
      [("expression", PStr "'GOLD'");
       ("script", PStr "def get_tag(t, m): return 'GOLD'")]
      "def get_tag(t, m): return 'GOLD'".
Proof.
  intros H. specialize (H eq_refl). vm_compute in H.
  destruct H as [H _]. discriminate H.
Qed.

(** C6, as the code has it.  [script] is read only when the
    configuration has neither [expression] nor [conditions], and after
    the evaluation context was built.  When the context cannot be built
    ([produce_rate] has no float, or [json_to_cel] refuses a field of
    the transaction or the metadata), the processor returns [None] and
    sends the one event [cel_evaluation_error], whatever the script.
    Otherwise a script text that is empty or contains [def ] or [return]
    is not evaluated, the processor returns [None] and sends the one
    event [legacy_python_script]; any other script text is evaluated as
    the configuration [{"expression": script}] is. *)
Theorem legacy_script_is_refused_or_evaluated
    (rt : Runtime) (now : string) (t : Transaction) (md : pyval)
    (cfg : pydict) (script : string) :
  has_key "expression" cfg = false ->
  has_key "conditions" cfg = false ->
  assoc "script" cfg = Some (PStr script) ->
  match Cel.build_context now t md with
  | Raise _ =>
      Cel.process now t md (PDict cfg) = (PNone, [Cel.evaluation_error])
  | Ok ctx =>
      if String.eqb script "" || str_contains "def " script
         || str_contains "return" script
      then Cel.process now t md (PDict cfg) = (PNone, [Cel.legacy_script])
      else Cel.process now t md (PDict cfg) =
           Cel.process now t md (PDict [("expression", PStr script)])
  end.
Proof.
  intros Hexpr Hconds Hscript.
  unfold Cel.process, Cel.process_body.
  destruct (Cel.build_context now t md) as [ctx|e]; [|reflexivity].
  cbn [py_in]. rewrite Hexpr, Hconds.
  unfold has_key. rewrite Hscript.
  unfold Cel.legacy_branch. cbn [py_get assoc String.eqb]. rewrite Hscript.
  unfold Cel.looks_like_cel. simpl.
  destruct (String.eqb script ""); simpl; [reflexivity|].
  destruct (str_contains "def " script); simpl; [reflexivity|].
  destruct (str_contains "return" script); simpl; reflexivity.
Qed.

(** C6 on the sample: a Python function in [script] is refused; with a
    number in the metadata that does not fit 64 bits, the context is not
    built and the refusal is not reached. *)
Lemma legacy_script_is_refused_or_evaluated_witness :
  Cel.process (rt := Concrete.runtime) "2024-01-02T00:00:00+00:00"
    (Sample.txn "PROD_001") (PDict [])
    (PDict [("script", PStr "def get_tag(t, m): return 'GOLD'")])
  = (PNone, [Cel.legacy_script]) /\
  Cel.process (rt := Concrete.runtime) "2024-01-02T00:00:00+00:00"
    (Sample.txn "PROD_001") (PDict [("big", PInt (2 ^ 70))])
    (PDict [("script", PStr "def get_tag(t, m): return 'GOLD'")])
  = (PNone, [Cel.evaluation_error]).
Proof.
  split.
  - exact (legacy_script_is_refused_or_evaluated Concrete.runtime
             "2024-01-02T00:00:00+00:00" (Sample.txn "PROD_001") (PDict [])
             [("script", PStr "def get_tag(t, m): return 'GOLD'")]
             "def get_tag(t, m): return 'GOLD'" eq_refl eq_refl eq_refl).
  - exact (legacy_script_is_refused_or_evaluated Concrete.runtime
             "2024-01-02T00:00:00+00:00" (Sample.txn "PROD_001")
             (PDict [("big", PInt (2 ^ 70))])
             [("script", PStr "def get_tag(t, m): return 'GOLD'")]
             "def get_tag(t, m): return 'GOLD'" eq_refl eq_refl eq_refl).
Defined.

(* ------------------------------------------------------------------ *)
(** ** Export and import of rules *)

Section RoundTrip.
Context {rt : Runtime}.

Lemma insert_rule_perm (r : TaggingRule) (l : list TaggingRule) :
  Permutation (r :: l) (Utils.insert_rule r l).
Proof.
  induction l as [|x l IH]; simpl.
  - apply Permutation_refl.
  - destruct (Utils.rule_leb r x).
    + apply Permutation_refl.
    + apply perm_trans with (x :: r :: l);
        [apply perm_swap | apply perm_skip, IH].
Qed.

Lemma default_ordering_perm (l : list TaggingRule) :
  Permutation l (Utils.default_ordering l).
Proof.
  induction l as [|x l IH]; simpl.
  - apply perm_nil.
  - apply perm_trans with (x :: Utils.default_ordering l);
      [apply perm_skip, IH | apply insert_rule_perm].
Qed.

Lemma stored_is_json (v : pyval) : stored_json v = true -> is_json v = true.
Proof. destruct v; simpl; auto. Qed.

Lemma as_json_stored (v : pyval) :
  stored_json v = true -> Utils.as_json v = Ok v.
Proof. destruct v; simpl; intros H; try reflexivity; discriminate H. Qed.

Lemma exported_rules_are_json (rs : list TaggingRule) :
  (forall r, In r rs -> Utils.importable r) ->
  forallb is_json (map Utils.rule_data_of rs) = true.
Proof.
  induction rs as [|r rs IH]; simpl; intros H; [reflexivity|].
  destruct (H r (or_introl eq_refl)) as [_ [Hc Hg]].
  rewrite (stored_is_json _ Hc), (stored_is_json _ Hg). simpl.
  apply IH. intros r' Hin. apply H. right. exact Hin.
Qed.

Lemma objects_get_none {A} (p : A -> bool) (rows : list A) :
  (forall x, In x rows -> p x = false) ->
  Utils.objects_get p rows = Utils.DoesNotExist.
Proof.
  intros H. unfold Utils.objects_get.
  replace (filter p rows) with (@nil A); [reflexivity|].
  induction rows as [|x rows IH]; simpl; [reflexivity|].
  rewrite (H x (or_introl eq_refl)). apply IH.
  intros y Hy. apply H. right. exact Hy.
Qed.

(** Importing what was exported of an importable rule writes the rule
    with the same columns. *)
Lemma import_rule_exported (rules : list TaggingRule) (c : Company)
    (r : TaggingRule) :
  Utils.importable r ->
  Utils.import_rule rules c (Utils.rule_data_of r) =
  Utils.update_or_create_rule rules (company_id c) (rule_name r)
    (Utils.moved_to (company_id c) r).
Proof.
  intros [Hv [Hc Hg]]. unfold Utils.import_rule, Utils.rule_data_of.
  simpl. rewrite Hv. simpl.
  rewrite (as_json_stored _ Hc). simpl.
  rewrite (as_json_stored _ Hg). simpl. reflexivity.
Qed.

Lemma import_loop_exported (c : Company) (base : list TaggingRule) :
  (forall x, In x base -> (rule_company x =? company_id c) = false) ->
  forall rs done results,
    NoDup (map rule_name (done ++ rs)) ->
    (forall r, In r rs -> Utils.importable r) ->
    Utils.import_loop c (map Utils.rule_data_of rs)
      (base ++ map (Utils.moved_to (company_id c)) done) results =
    Ok (Utils.mkResults
          (Utils.imported results + Z.of_nat (List.length rs))
          (Utils.errors results),
        base ++ map (Utils.moved_to (company_id c)) (done ++ rs)).
Proof.
  intros Hbase. induction rs as [|r rs IH]; intros done results Hnd Himp.
  - simpl. rewrite Z.add_0_r, app_nil_r. destruct results; reflexivity.
  - cbn [map Utils.import_loop].
    rewrite (import_rule_exported _ c r (Himp r (or_introl eq_refl))).
    unfold Utils.update_or_create_rule.
    rewrite objects_get_none.
    + replace ((base ++ map (Utils.moved_to (company_id c)) done) ++
               [Utils.moved_to (company_id c) r])
        with (base ++ map (Utils.moved_to (company_id c)) (done ++ [r]))
        by (rewrite map_app, app_assoc; reflexivity).
      rewrite IH.
      * cbn [Utils.imported Utils.errors].
        rewrite <- app_assoc. simpl. do 3 f_equal.
        rewrite Zpos_P_of_succ_nat. lia.
      * rewrite <- app_assoc. exact Hnd.
      * intros r' Hin. apply Himp. right. exact Hin.
    + intros x Hx. unfold rule_for. apply in_app_or in Hx.
      destruct Hx as [Hx|Hx].
      * rewrite (Hbase x Hx). reflexivity.
      * apply in_map_iff in Hx. destruct Hx as [d [<- Hd]]. simpl.
        rewrite Z.eqb_refl. simpl. apply String.eqb_neq. intros Heq.
        rewrite map_app in Hnd. apply NoDup_remove_2 in Hnd.
        apply Hnd. apply in_or_app. left.
        rewrite <- Heq. apply in_map, Hd.
Qed.

End RoundTrip.

Lemma filter_empty {A} (p : A -> bool) (l : list A) :
  filter p l = [] -> forall x, In x l -> p x = false.
Proof.
  intros H x Hx. destruct (p x) eqn:E; [|reflexivity].
  assert (Hin : In x (filter p l)) by (apply filter_In; split; assumption).
  rewrite H in Hin. destruct Hin.
Qed.

Lemma filter_moved (company : Z) (rs : list TaggingRule) :
  filter (fun r => rule_company r =? company)
         (map (Utils.moved_to company) rs)
  = map (Utils.moved_to company) rs.
Proof.
  induction rs as [|r rs IH]; simpl; [reflexivity|].
  rewrite Z.eqb_refl, IH. reflexivity.
Qed.

Lemma columns_moved (company : Z) (rs : list TaggingRule) :
  map Utils.rule_columns (map (Utils.moved_to company) rs)
  = map Utils.rule_columns rs.
Proof. rewrite map_map. apply map_ext. intros r. reflexivity. Qed.

(** C7 as written fails: the rule saved with an empty configuration is
    exported, and refused by the validation of the import. *)
Lemma round_trip_sentence_fails :
  ~ AsStated.round_trip_sentence (rt := Concrete.runtime) Sample.draft_db
      Sample.fresh_db "ACME".
Proof.
  intros H.
  specialize (H Sample.acme (mkCompany 5 "Acme" "ACME" true)
                (Utils.envelope_of "ACME" Sample.acme [Sample.draft_rule])
                (Utils.results_dict
                   (Utils.mkResults 0
                      ["Error importing rule 'Draft': Simple rules must have 'mappings' field"%string]))
                Sample.fresh_db
                eq_refl eq_refl eq_refl eq_refl eq_refl).
  apply Permutation_length in H. discriminate H.
Qed.

(** C7, as the code has it.  The import validates each rule and skips
    the rules it refuses.  When every rule of the company is importable
    (its configuration passes [validate_rule_config]), exporting the
    company and importing the text into a database where the company of
    that code has no rule imports every rule with no error, and the
    company then has the same rules, compared by name, rule_type,
    priority, rule_config, conditions and is_active. *)
Theorem round_trip_of_importable_rules
    (rt : Runtime) (src dst : Database) (code : string)
    (c_src c_dst : Company) :
  Utils.codec_round_trips ->
  code <> ""%string ->
  Utils.objects_get (Utils.has_code code) (companies src)
  = Utils.Found c_src ->
  Utils.objects_get (Utils.has_code code) (companies dst)
  = Utils.Found c_dst ->
  Utils.company_rules dst c_dst = [] ->
  rules_unique (tagging_rules src) ->
  (forall r, In r (Utils.company_rules src c_src) -> Utils.importable r) ->
  exists text dst',
    Utils.export_rules_to_json src code = Ok text /\
    Utils.import_rules_from_json dst text =
    Ok (Utils.results_dict
          (Utils.mkResults
             (Z.of_nat (List.length (Utils.company_rules src c_src))) []),
        dst') /\
    Permutation (map Utils.rule_columns (Utils.company_rules src c_src))
                (map Utils.rule_columns (Utils.company_rules dst' c_dst)).
Proof.
  intros Hcodec Hcode Hsrc Hdst Hfresh Huniq Himp.
  set (rs := Utils.rules_of src c_src).
  assert (Hperm : Permutation (Utils.company_rules src c_src) rs)
    by apply default_ordering_perm.
  assert (Himp' : forall r, In r rs -> Utils.importable r).
  { intros r Hr. apply Himp.
    apply (Permutation_in _ (Permutation_sym Hperm) Hr). }
  assert (Hnd : NoDup (map rule_name rs)).
  { apply (Permutation_NoDup (Permutation_map rule_name Hperm)).
    apply Huniq. }
  assert (Hjson : is_json (Utils.envelope_of code c_src rs) = true).
  { simpl. rewrite (exported_rules_are_json rs Himp'). reflexivity. }
  destruct (Hcodec _ Hjson) as [text [Hdump Hload]].
  exists text.
  exists (mkDb (companies dst)
               (tagging_rules dst ++ map (Utils.moved_to (company_id c_dst)) rs)
               (transaction_tags dst)).
  split; [|split].
  - unfold Utils.export_rules_to_json. rewrite Hsrc. exact Hdump.
  - unfold Utils.import_rules_from_json. rewrite Hload. simpl.
    destruct (String.eqb_spec code "") as [->|_]; [congruence|]. simpl.
    rewrite Hdst. simpl.
    assert (Hloop := import_loop_exported c_dst (tagging_rules dst)
                       (filter_empty _ _ Hfresh) rs []
                       (Utils.mkResults 0 []) Hnd Himp').
    simpl in Hloop. rewrite app_nil_r in Hloop. rewrite Hloop. simpl.
    rewrite (Permutation_length Hperm). reflexivity.
  - unfold Utils.company_rules at 2. simpl. rewrite filter_app.
    fold (Utils.company_rules dst c_dst). rewrite Hfresh. simpl.
    rewrite filter_moved, columns_moved.
    apply Permutation_map, Hperm.
Qed.

(** C7 on the sample: the two rules pass the validation and are
    imported into the fresh database. *)
Lemma round_trip_of_importable_rules_witness :
  exists text dst',
    Utils.export_rules_to_json (rt := Concrete.runtime)
      Sample.arbitration_db "ACME" = Ok text /\
    Utils.import_rules_from_json (rt := Concrete.runtime) Sample.fresh_db
      text =
    Ok (Utils.results_dict (Utils.mkResults 2 []), dst') /\
    Permutation
      (map Utils.rule_columns [Sample.low_rule; Sample.high_rule])
      (map Utils.rule_columns
         (Utils.company_rules dst' (mkCompany 5 "Acme" "ACME" true))).
Proof.
  apply (round_trip_of_importable_rules Concrete.runtime
           Sample.arbitration_db Sample.fresh_db "ACME" Sample.acme
           (mkCompany 5 "Acme" "ACME" true)).
  - intros v Hv. exists v. simpl. unfold Concrete.dumps. rewrite Hv.
    split; reflexivity.
  - discriminate.
  - reflexivity.
  - reflexivity.
  - reflexivity.
  - intros company. cbn -[Z.eqb].
    destruct (1 =? company); simpl; [|apply NoDup_nil].
    apply NoDup_cons; [intros [H|[]]; discriminate H|].
    apply NoDup_cons; [intros [] | apply NoDup_nil].
  - intros r [<-|[<-|[]]]; repeat split; reflexivity.
Defined.

(* ------------------------------------------------------------------ *)
(** ** The engine: rules that do not count *)

Section Silence.
Context {rt : Runtime}.
Variables (now : clock) (t : Transaction) (md : pyval).

Lemma loop_up_to_trace (rules : list TaggingRule) :
  forall pos pos' st st',
    Outcome.of_state st = Outcome.of_state st' ->
    Outcome.res_map Outcome.of_state
      (Engine.rules_loop now t md pos rules st) =
    Outcome.res_map Outcome.of_state
      (Engine.rules_loop now t md pos' rules st').
Proof.
  induction rules as [|r rules IH]; intros pos pos' st st' H.
  - simpl. rewrite H. reflexivity.
  - destruct st as [bt bc ns tr], st' as [bt' bc' ns' tr'].
    unfold Outcome.of_state in H. simpl in H. injection H as -> -> ->.
    simpl.
    destruct (Engine.PROCESSORS (rule_type r)) as [p|];
      [|apply IH; reflexivity].
    destruct (Engine.check_rule_conditions t md (conditions r))
      as [[|]|e]; simpl; [| |reflexivity].
    + destruct (Engine.run_processor p (reading now r) t md (rule_config r))
        as [tag|e]; [|apply IH; reflexivity].
      destruct (py_truthy tag); [|apply IH; reflexivity].
      destruct ((priority r <? 50) && Engine.Qgtb 1 (9 # 10));
        [reflexivity | apply IH; reflexivity].
    + apply IH; reflexivity.
Qed.

Lemma silent_step (r : TaggingRule) (rest : list TaggingRule) :
  Outcome.silent now t md r = true ->
  forall pos st,
    Outcome.res_map Outcome.of_state
      (Engine.rules_loop now t md pos (r :: rest) st) =
    Outcome.res_map Outcome.of_state
      (Engine.rules_loop now t md pos rest st).
Proof.
  unfold Outcome.silent. intros Hs pos st. simpl.
  destruct (Engine.PROCESSORS (rule_type r)) as [p|];
    [|apply loop_up_to_trace; reflexivity].
  destruct (Engine.check_rule_conditions t md (conditions r))
    as [[|]|e]; simpl; [| |discriminate Hs].
  - destruct (Engine.run_processor p (reading now r) t md (rule_config r))
      as [tag|e]; [|discriminate Hs].
    destruct (py_truthy tag); [discriminate Hs|].
    apply loop_up_to_trace; reflexivity.
  - apply loop_up_to_trace; reflexivity.
Qed.

Lemma silent_rule_drops (l1 l2 : list TaggingRule) (r : TaggingRule) :
  Outcome.silent now t md r = true ->
  forall pos pos' st st',
    Outcome.of_state st = Outcome.of_state st' ->
    Outcome.res_map Outcome.of_state
      (Engine.rules_loop now t md pos (l1 ++ r :: l2) st) =
    Outcome.res_map Outcome.of_state
      (Engine.rules_loop now t md pos' (l1 ++ l2) st').
Proof.
  intros Hs. induction l1 as [|x l1 IH]; intros pos pos' st st' H.
  - simpl app. rewrite (silent_step r l2 Hs).
    apply loop_up_to_trace, H.
  - destruct st as [bt bc ns tr], st' as [bt' bc' ns' tr'].
    unfold Outcome.of_state in H. simpl in H. injection H as -> -> ->.
    simpl.
    destruct (Engine.PROCESSORS (rule_type x)) as [p|];
      [|apply IH; reflexivity].
    destruct (Engine.check_rule_conditions t md (conditions x))
      as [[|]|e]; simpl; [| |reflexivity].
    + destruct (Engine.run_processor p (reading now x) t md (rule_config x))
        as [tag|e]; [|apply IH; reflexivity].
      destruct (py_truthy tag); [|apply IH; reflexivity].
      destruct ((priority x <? 50) && Engine.Qgtb 1 (9 # 10));
        [reflexivity | apply IH; reflexivity].
    + apply IH; reflexivity.
Qed.

Lemma persist_reads_outcome (db : Database) (c : Company)
    (st st' : Engine.loop_state) :
  Outcome.of_state st = Outcome.of_state st' ->
  Engine.persist db now t c st = Engine.persist db now t c st'.
Proof.
  destruct st as [bt bc ns tr], st' as [bt' bc' ns' tr'].
  unfold Outcome.of_state. simpl. intros H. injection H as -> -> ->.
  reflexivity.
Qed.

Lemma bind_up_to {A B C} (f : A -> C) (m1 m2 : res A) (k : A -> res B) :
  Outcome.res_map f m1 = Outcome.res_map f m2 ->
  (forall a b, f a = f b -> k a = k b) ->
  bind m1 k = bind m2 k.
Proof.
  destruct m1 as [a|e], m2 as [b|e']; simpl; intros H Hk;
    try discriminate H.
  - apply Hk. injection H as H. exact H.
  - injection H as ->. reflexivity.
Qed.

End Silence.

(** X1.  A rule whose guard is false, or whose processor returns an empty
    tag, or that has no processor, counts for nothing: [tag_transaction]
    returns what it returns, and writes what it writes, with that rule
    taken out of the evaluation order. *)
Theorem silent_rule_counts_for_nothing
    (rt : Runtime) (db : Database) (now : clock) (t : Transaction)
    (c : Company) (l1 l2 : list TaggingRule) (r : TaggingRule) :
  Engine.active_rules db c = l1 ++ r :: l2 ->
  Outcome.silent now t (Engine.metadata_of t) r = true ->
  Engine.tag_transaction db now t c =
  bind (Engine.rules_loop now t (Engine.metadata_of t) 0 (l1 ++ l2)
          Engine.initial_state)
       (Engine.persist db now t c).
Proof.
  intros Hrules Hs. unfold Engine.tag_transaction. rewrite Hrules.
  apply (bind_up_to Outcome.of_state).
  - apply silent_rule_drops; [exact Hs | reflexivity].
  - intros a b. apply persist_reads_outcome.
Qed.

(** X1 on a sample: the rule of priority 5 maps another product code, and
    the tag is that of rule [R1]. *)
Lemma silent_rule_counts_for_nothing_witness :
  exists db',
    Engine.tag_transaction (rt := Concrete.runtime) Cases.other_product_db
      (steady "2024-01-02T00:00:00+00:00") (Sample.txn "PROD_001") Sample.acme
    = Ok (PStr "HIGH", db').
Proof.
  rewrite (silent_rule_counts_for_nothing Concrete.runtime
             Cases.other_product_db (steady "2024-01-02T00:00:00+00:00")
             (Sample.txn "PROD_001") Sample.acme [] [Sample.high_rule]
             Cases.other_product_rule eq_refl eq_refl).
  eexists. reflexivity.
Defined.

(** X2.  A rule of a type that is not in [PROCESSORS] is passed over
    before its guard is looked at, and an [ml] rule, whose processor
    returns [None], never yields a tag: with such a rule taken out of the
    evaluation order, [tag_transaction] does the same.  For the [ml] rule
    the guard must not raise; for the unknown type it may. *)
Theorem unknown_and_ml_rules_have_no_effect
    (rt : Runtime) (db : Database) (now : clock) (t : Transaction)
    (c : Company) (l1 l2 : list TaggingRule) (r : TaggingRule) :
  Engine.active_rules db c = l1 ++ r :: l2 ->
  Engine.PROCESSORS (rule_type r) = None \/
  (rule_type r = "ml"%string /\
   is_ok (Engine.check_rule_conditions t (Engine.metadata_of t)
            (conditions r)) = true) ->
  Engine.tag_transaction db now t c =
  bind (Engine.rules_loop now t (Engine.metadata_of t) 0 (l1 ++ l2)
          Engine.initial_state)
       (Engine.persist db now t c).
Proof.
  intros Hrules Hr.
  assert (Hs : Outcome.silent now t (Engine.metadata_of t) r = true).
  { unfold Outcome.silent. destruct Hr as [Hnone|[Hml Hg]].
    - rewrite Hnone. reflexivity.
    - rewrite Hml. simpl.
      destruct (Engine.check_rule_conditions t (Engine.metadata_of t)
                  (conditions r)) as [[|]|e];
        [reflexivity..|discriminate Hg]. }
  unfold Engine.tag_transaction. rewrite Hrules.
  apply (bind_up_to Outcome.of_state).
  - apply silent_rule_drops; [exact Hs | reflexivity].
  - intros a b. apply persist_reads_outcome.
Qed.

(** X2 on a sample: a rule of unknown type whose guard would raise stands
    before rule [R1]; the call returns the tag of [R1]. *)
Lemma unknown_and_ml_rules_have_no_effect_witness :
  exists db',
    Engine.tag_transaction (rt := Concrete.runtime) Cases.unknown_type_db
      (steady "2024-01-02T00:00:00+00:00") (Sample.txn "PROD_001") Sample.acme
    = Ok (PStr "HIGH", db').
Proof.
  rewrite (unknown_and_ml_rules_have_no_effect Concrete.runtime
             Cases.unknown_type_db (steady "2024-01-02T00:00:00+00:00")
             (Sample.txn "PROD_001") Sample.acme [] [Sample.high_rule]
             Cases.unknown_type_rule eq_refl (or_introl eq_refl)).
  eexists. reflexivity.
Defined.

(* ------------------------------------------------------------------ *)
(** ** The engine: what a call reads and writes *)

Section ReadsAndWrites.
Context {rt : Runtime}.

Lemma active_rules_without (db : Database) (c : Company)
    (l1 l2 : list TaggingRule) (r : TaggingRule) :
  tagging_rules db = l1 ++ r :: l2 ->
  Engine.active_rule_of c r = false ->
  Engine.active_rules (Outcome.with_rules db (l1 ++ l2)) c =
  Engine.active_rules db c.
Proof.
  intros H Hr. unfold Engine.active_rules. simpl. rewrite H.
  rewrite !filter_app. simpl. rewrite Hr. reflexivity.
Qed.

Lemma tag_transaction_reads_active_rules (db : Database)
    (rules : list TaggingRule) (now : clock) (t : Transaction)
    (c : Company) :
  Engine.active_rules (Outcome.with_rules db rules) c =
  Engine.active_rules db c ->
  Engine.tag_transaction db now t c =
  Outcome.res_map
    (fun out => (fst out, Outcome.with_rules (snd out) (tagging_rules db)))
    (Engine.tag_transaction (Outcome.with_rules db rules) now t c).
Proof.
  intros H. unfold Engine.tag_transaction. rewrite H.
  destruct (Engine.rules_loop now t (Engine.metadata_of t) 0
              (Engine.active_rules db c) Engine.initial_state)
    as [st|e]; [|reflexivity].
  simpl. unfold Engine.persist.
  destruct (py_truthy (Engine.best_tag st)).
  - simpl.
    destruct (Engine.update_or_create (transaction_tags db) (txn_id t)
                (company_id c) (Engine.best_tag st)
                (Engine.best_confidence st)
                (Engine.joined (Engine.notes st)) (at_save now));
      reflexivity.
  - destruct db. reflexivity.
Qed.

End ReadsAndWrites.

(** X3.  A rule that is not active, or that belongs to another company,
    has no part in a call: [tag_transaction] returns the same tag and
    leaves the same tag table as on the database without that rule. *)
Theorem inactive_or_foreign_rule_is_ignored
    (rt : Runtime) (db : Database) (now : clock) (t : Transaction)
    (c : Company) (l1 l2 : list TaggingRule) (r : TaggingRule) :
  tagging_rules db = l1 ++ r :: l2 ->
  is_active r = false \/ rule_company r <> company_id c ->
  Engine.tag_transaction db now t c =
  Outcome.res_map
    (fun out => (fst out, Outcome.with_rules (snd out) (tagging_rules db)))
    (Engine.tag_transaction (Outcome.with_rules db (l1 ++ l2)) now t c).
Proof.
  intros H Hr. apply tag_transaction_reads_active_rules.
  apply (active_rules_without db c l1 l2 r H).
  unfold Engine.active_rule_of. destruct Hr as [Hr|Hr].
  - rewrite Hr. apply andb_false_r.
  - apply Z.eqb_neq in Hr. rewrite Hr. reflexivity.
Qed.

(** X3 on a sample: the rule of priority 1 is switched off and rule [R1]
    decides. *)
Lemma inactive_or_foreign_rule_is_ignored_witness :
  exists db',
    Engine.tag_transaction (rt := Concrete.runtime) Cases2.inactive_db
      (steady "2024-01-02T00:00:00+00:00") (Sample.txn "PROD_001") Sample.acme
    = Ok (PStr "HIGH", db').
Proof.
  rewrite (inactive_or_foreign_rule_is_ignored Concrete.runtime
             Cases2.inactive_db (steady "2024-01-02T00:00:00+00:00")
             (Sample.txn "PROD_001") Sample.acme [] [Sample.high_rule]
             Cases2.inactive_rule eq_refl (or_introl eq_refl)).
  eexists. reflexivity.
Defined.

(** X4.  A call writes one row at most.  The companies and the rules are
    left as they were, and so is every tag of another transaction or of
    another company. *)
Theorem tag_transaction_touches_one_pair
    (rt : Runtime) (db db' : Database) (now : clock) (t : Transaction)
    (c : Company) (r : pyval) :
  Engine.tag_transaction db now t c = Ok (r, db') ->
  companies db' = companies db /\
  tagging_rules db' = tagging_rules db /\
  forall a b,
    (a =? txn_id t) && (b =? company_id c) = false ->
    tags_of a b (transaction_tags db') = tags_of a b (transaction_tags db).
Proof.
  unfold Engine.tag_transaction. intros H.
  apply bind_ok in H. destruct H as [st [_ Hp]].
  unfold Engine.persist in Hp.
  destruct (py_truthy (Engine.best_tag st)).
  - apply bind_ok in Hp. destruct Hp as [rows [Hup Hp]].
    injection Hp as _ <-. simpl. repeat split.
    intros a b Hab.
    apply (update_or_create_frame _ _ _ _ _ _ _ _ a b Hup).
    unfold tag_for. simpl. exact Hab.
  - injection Hp as _ <-. repeat split.
Qed.

(** X4 on a sample: tagging transaction 7 leaves the tag of transaction 8
    in place. *)
Lemma tag_transaction_touches_one_pair_witness :
  tags_of 8 1
    [Cases2.other_row;
     mkTag 7 1 (PStr "HIGH") 1 false "Rule 'R1' matched: HIGH"
       "2024-01-02T00:00:00+00:00"]
  = tags_of 8 1 (transaction_tags Cases2.other_row_db).
Proof.
  destruct (tag_transaction_touches_one_pair Concrete.runtime
              Cases2.other_row_db
              (mkDb [Sample.acme] [Sample.high_rule]
                 [Cases2.other_row;
                  mkTag 7 1 (PStr "HIGH") 1 false "Rule 'R1' matched: HIGH"
                    "2024-01-02T00:00:00+00:00"])
              (steady "2024-01-02T00:00:00+00:00") (Sample.txn "PROD_001")
              Sample.acme (PStr "HIGH") eq_refl) as [_ [_ H]].
  apply (H 8 1). reflexivity.
Defined.

(** X5.  When no rule yields a tag the call returns [None] and writes
    nothing.  Otherwise, the tag table satisfying its uniqueness
    constraint, the pair has exactly one row after the call.  Its
    [tag_code] is the returned tag as the column stores it: the tag
    itself when it is a text, and the text of [str()] when it is not (a
    mapping to the number 123 returns 123 and stores ["123"]).  The row
    has the confidence 1.0, the notes of the loop joined by newlines and
    the reading of the clock at the save, and when the pair had no row it
    is created with [is_manual_override] false. *)
Theorem stored_tag_is_the_text_of_the_returned_tag
    (rt : Runtime) (db db' : Database) (now : clock) (t : Transaction)
    (c : Company) (r : pyval) :
  tags_unique (transaction_tags db) ->
  Engine.tag_transaction db now t c = Ok (r, db') ->
  (r = PNone /\ db' = db) \/
  (py_truthy r = true /\
   exists row st,
     Engine.rules_loop now t (Engine.metadata_of t) 0
       (Engine.active_rules db c) Engine.initial_state = Ok st /\
     tags_of (txn_id t) (company_id c) (transaction_tags db') = [row] /\
     tag_code row = PStr (py_str r) /\
     Qeq (confidence_score row) 1 /\
     processing_notes row = Engine.joined (Engine.notes st) /\
     tt_updated_at row = at_save now /\
     (tags_of (txn_id t) (company_id c) (transaction_tags db) = [] ->
      is_manual_override row = false)).
Proof.
  intros Hu H. unfold Engine.tag_transaction in H.
  apply bind_ok in H. destruct H as [st [Hloop Hp]].
  destruct (undecided_finds_first now t _ _ _ _ _ initial_undecided Hloop)
    as [_ Hst].
  unfold Engine.persist in Hp.
  destruct (py_truthy (Engine.best_tag st)) eqn:E.
  - right. apply bind_ok in Hp. destruct Hp as [rows [Hup Hp]].
    injection Hp as <- <-. split; [exact E|].
    destruct Hst as [[Ht _]|[_ Hc]];
      [rewrite Ht in E; discriminate E|].
    rewrite Hc in Hup. cbn [transaction_tags].
    assert (Hstored : Engine.as_stored (Engine.best_tag st) =
                      PStr (py_str (Engine.best_tag st))).
    { destruct (Engine.best_tag st); try reflexivity. discriminate E. }
    destruct (update_or_create_row _ _ _ _ _ _ _ _ Hup)
      as [[Hnone Hnew]|[row0 [Hone Hnew]]].
    + eexists. exists st. split; [exact Hloop|].
      split; [exact Hnew|]. cbn [tag_code confidence_score processing_notes
                                 tt_updated_at is_manual_override].
      repeat split; try reflexivity. exact Hstored.
    + eexists. exists st. split; [exact Hloop|].
      split; [exact Hnew|]. unfold Engine.apply_defaults.
      cbn [tag_code confidence_score processing_notes
           tt_updated_at is_manual_override].
      repeat split; try reflexivity; [exact Hstored|].
      intros Hempty. rewrite Hone in Hempty. discriminate Hempty.
  - left. injection Hp as <- <-. split; reflexivity.
Qed.

(** X5 on a sample: the rule maps the product code to the number 123;
    the call returns the number and the row holds its text. *)
Lemma stored_tag_is_the_text_of_the_returned_tag_witness :
  Engine.tag_transaction (rt := Concrete.runtime) Sample.numeric_db
    Sample.morning (Sample.txn "PROD_001") Sample.acme
  = Ok (PInt 123,
        mkDb [Sample.acme] [Sample.numeric_rule]
          [mkTag 7 1 (PStr "123") 1 false "Rule 'N1' matched: 123"
             "2024-01-02T00:00:01+00:00"]) /\
  exists row,
    tags_of 7 1
      [mkTag 7 1 (PStr "123") 1 false "Rule 'N1' matched: 123"
         "2024-01-02T00:00:01+00:00"] = [row] /\
    tag_code row = PStr "123".
Proof.
  split; [reflexivity|].
  destruct (stored_tag_is_the_text_of_the_returned_tag Concrete.runtime
              Sample.numeric_db
              (mkDb [Sample.acme] [Sample.numeric_rule]
                 [mkTag 7 1 (PStr "123") 1 false "Rule 'N1' matched: 123"
                    "2024-01-02T00:00:01+00:00"])
              Sample.morning (Sample.txn "PROD_001") Sample.acme (PInt 123))
    as [[H _]|[_ [row [st [_ [Hrow [Htag _]]]]]]].
  - intros txn company. simpl. lia.
  - reflexivity.
  - discriminate H.
  - exists row. split; [exact Hrow | exact Htag].
Defined.

(* ------------------------------------------------------------------ *)
(** ** The conditional evaluator: compound conditions and clauses *)

Section Compound.
Context {rt : Runtime}.
Variables (t : Transaction) (md : pyval).

Lemma mapM_app_raise {A B} (f : A -> res B) (l1 l2 : list A) (x : A)
    (e : exn) :
  (forall a, In a l1 -> is_ok (f a) = true) ->
  f x = Raise e ->
  mapM f (l1 ++ x :: l2) = Raise e.
Proof.
  induction l1 as [|a l1 IH]; simpl; intros Hok Hx.
  - rewrite Hx. reflexivity.
  - assert (Ha := Hok a (or_introl eq_refl)).
    destruct (f a) as [b|e']; [|discriminate Ha]. simpl.
    rewrite IH; [reflexivity | | exact Hx].
    intros a' Hin. apply Hok. right. exact Hin.
Qed.

(** Only a dict evaluates to a truth value. *)
Lemma evaluates_only_dicts (c : pyval) (b : bool) :
  Conditional.evaluate_condition t md c = Ok b -> exists kvs, c = PDict kvs.
Proof.
  destruct c as [| | | | |kvs|]; intros H;
    try (exists kvs; reflexivity);
    simpl in H; unfold Conditional.evaluate_non_dict in H;
    apply bind_ok in H; destruct H as [x [_ H]]; discriminate H.
Qed.

Lemma first_true_skips (l1 l2 : list pyval) :
  (forall x, In x l1 -> Conditional.evaluate_condition t md x = Ok false) ->
  Conditional.first_true t md (l1 ++ l2) = Conditional.first_true t md l2.
Proof.
  induction l1 as [|x l1 IH]; simpl; intros H; [reflexivity|].
  rewrite (H x (or_introl eq_refl)). simpl.
  apply IH. intros y Hy. apply H. right. exact Hy.
Qed.

End Compound.

(** X6.  A compound condition is the conjunction of its sub-conditions
    under [and] and when it names no operator, their disjunction under
    [or], and false under any other operator, the sub-conditions being a
    list whose members all evaluate.  An empty list is true under [and]
    and false under [or]. *)
Theorem compound_condition_is_all_or_any
    (rt : Runtime) (t : Transaction) (md : pyval) (kvs : pydict)
    (subs : list pyval) (bs : list bool) :
  assoc "conditions" kvs = Some (PList subs) ->
  mapM (Conditional.evaluate_condition t md) subs = Ok bs ->
  (assoc "operator" kvs = None \/ assoc "operator" kvs = Some (PStr "and") ->
   Conditional.evaluate_condition t md (PDict kvs)
   = Ok (forallb (fun b => b) bs)) /\
  (assoc "operator" kvs = Some (PStr "or") ->
   Conditional.evaluate_condition t md (PDict kvs)
   = Ok (existsb (fun b => b) bs)) /\
  (forall op,
     assoc "operator" kvs = Some (PStr op) ->
     op <> "and"%string -> op <> "or"%string ->
     Conditional.evaluate_condition t md (PDict kvs) = Ok false).
Proof.
  intros Hc Hsubs. rewrite evaluate_condition_dict, Hc.
  unfold Conditional.evaluate_each. rewrite Hsubs. simpl.
  split; [|split].
  - intros [->| ->]; reflexivity.
  - intros ->. reflexivity.
  - intros op -> Hand Hor. unfold Conditional.combine. simpl.
    apply String.eqb_neq in Hand, Hor. rewrite Hand, Hor. reflexivity.
Qed.

(** X6 on a sample: a false and a true sub-condition under [or]. *)
Lemma compound_condition_is_all_or_any_witness :
  Conditional.evaluate_condition (rt := Concrete.runtime)
    (Sample.txn "PROD_001") (PDict [])
    (Cases3.compound "or" [Cases3.false_condition; Cases3.true_condition])
  = Ok true.
Proof.
  destruct (compound_condition_is_all_or_any Concrete.runtime
              (Sample.txn "PROD_001") (PDict [])
              [("conditions",
                PList [Cases3.false_condition; Cases3.true_condition]);
               ("operator", PStr "or")]
              [Cases3.false_condition; Cases3.true_condition]
              [false; true] eq_refl eq_refl) as [_ [H _]].
  apply H. reflexivity.
Defined.

(** X7.  A compound condition evaluates every sub-condition before it
    combines them: a sub-condition that raises makes the compound raise,
    whatever the operator and whatever the sub-conditions before it gave,
    a false one under [and] included. *)
Theorem compound_condition_does_not_short_circuit
    (rt : Runtime) (t : Transaction) (md : pyval) (kvs : pydict)
    (l1 l2 : list pyval) (s : pyval) (e : exn) :
  assoc "conditions" kvs = Some (PList (l1 ++ s :: l2)) ->
  (forall x, In x l1 ->
     is_ok (Conditional.evaluate_condition t md x) = true) ->
  Conditional.evaluate_condition t md s = Raise e ->
  Conditional.evaluate_condition t md (PDict kvs) = Raise e.
Proof.
  intros Hc Hl1 Hs. rewrite evaluate_condition_dict, Hc.
  unfold Conditional.evaluate_each.
  rewrite (mapM_app_raise _ l1 l2 s e Hl1 Hs). reflexivity.
Qed.

(** X7 on a sample: under [and], a false sub-condition followed by one
    with no [field]. *)
Lemma compound_condition_does_not_short_circuit_witness :
  Conditional.evaluate_condition (rt := Concrete.runtime)
    (Sample.txn "PROD_001") (PDict [])
    (Cases3.compound "and" [Cases3.false_condition; Cases3.broken_condition])
  = Raise (mkExn AttributeError
             "'NoneType' object has no attribute 'startswith'").
Proof.
  apply (compound_condition_does_not_short_circuit Concrete.runtime
           (Sample.txn "PROD_001") (PDict [])
           [("conditions",
             PList [Cases3.false_condition; Cases3.broken_condition]);
            ("operator", PStr "and")]
           [Cases3.false_condition] [] Cases3.broken_condition).
  - reflexivity.
  - intros x [<-|[]]. reflexivity.
  - reflexivity.
Defined.

(** X8.  The conditional processor returns the [tag] of the first clause
    that is true, or [None] when that clause has no [tag]: the clauses
    behind it are not looked at.  When every clause is false it returns
    [None]. *)
Theorem conditional_first_true_clause_wins
    (rt : Runtime) (t : Transaction) (md : pyval) (cfg : pydict)
    (l1 l2 : list pyval) (c : pyval) :
  assoc "conditions" cfg = Some (PList (l1 ++ c :: l2)) ->
  (forall x, In x l1 -> Conditional.evaluate_condition t md x = Ok false) ->
  (Conditional.evaluate_condition t md c = Ok true ->
   exists kvs,
     c = PDict kvs /\
     Conditional.process t md (PDict cfg)
     = Ok (match assoc "tag" kvs with Some v => v | None => PNone end)) /\
  (Conditional.evaluate_condition t md c = Ok false ->
   (forall x, In x l2 -> Conditional.evaluate_condition t md x = Ok false) ->
   Conditional.process t md (PDict cfg) = Ok PNone).
Proof.
  intros Hc Hl1.
  assert (Hp : Conditional.process t md (PDict cfg) =
               Conditional.first_true t md (c :: l2)).
  { unfold Conditional.process, py_get. rewrite Hc. cbn [bind py_iter].
    apply first_true_skips, Hl1. }
  rewrite Hp. split.
  - intros Htrue.
    destruct (evaluates_only_dicts t md c true Htrue) as [kvs ->].
    exists kvs. split; [reflexivity|].
    cbn [Conditional.first_true]. rewrite Htrue. reflexivity.
  - intros Hfalse Hl2. cbn [Conditional.first_true]. rewrite Hfalse.
    simpl. rewrite <- (app_nil_r l2).
    rewrite (first_true_skips t md l2 [] Hl2). reflexivity.
Qed.

(** X8 on a sample: the first true clause has no [tag], and the clause
    behind it, which has one, is not reached. *)
Lemma conditional_first_true_clause_wins_witness :
  Conditional.process (rt := Concrete.runtime) (Sample.txn "PROD_001")
    (PDict [])
    (PDict [("conditions",
             PList [Cases3.false_condition; Cases3.true_condition;
                    PDict [("field", PStr "source");
                           ("operator", PStr "equals");
                           ("value", PStr "online");
                           ("tag", PStr "ONLINE")]])])
  = Ok PNone.
Proof.
  destruct (conditional_first_true_clause_wins Concrete.runtime
              (Sample.txn "PROD_001") (PDict [])
              [("conditions",
                PList [Cases3.false_condition; Cases3.true_condition;
                       PDict [("field", PStr "source");
                              ("operator", PStr "equals");
                              ("value", PStr "online");
                              ("tag", PStr "ONLINE")]])]
              [Cases3.false_condition]
              [PDict [("field", PStr "source");
                      ("operator", PStr "equals");
                      ("value", PStr "online");
                      ("tag", PStr "ONLINE")]]
              Cases3.true_condition eq_refl) as [H _].
  - intros x [<-|[]]. reflexivity.
  - destruct (H eq_refl) as [kvs [Hk Hp]].
    injection Hk as <-. exact Hp.
Defined.

(** X9.  A field path that starts with [metadata.] reads the metadata
    under the rest of the path and never the transaction; any other path
    reads the attribute of the transaction and never the metadata, which
    then need not even be a dict.  A [metadata.] path on metadata that is
    not a dict raises. *)
Theorem field_path_resolution (t : Transaction) :
  (forall md name,
     Conditional.get_field_value t (PDict md)
       (PStr ("metadata." ++ name)%string)
     = Ok (match assoc name md with Some v => v | None => PNone end)) /\
  (forall m path,
     String.prefix "metadata." path = false ->
     Conditional.get_field_value t m (PStr path) = Ok (txn_getattr t path)) /\
  (forall m name,
     (forall kvs, m <> PDict kvs) ->
     is_ok (Conditional.get_field_value t m
              (PStr ("metadata." ++ name)%string)) = false).
Proof.
  assert (Hpath : forall m name,
    Conditional.get_field_value t m (PStr ("metadata." ++ name)%string)
    = py_get m name PNone).
  { intros m name.
    assert (Hsub : String.substring 9
                     (String.length ("metadata." ++ name)%string - 9)
                     ("metadata." ++ name)%string = name).
    { simpl. rewrite Nat.sub_0_r. apply substring_all. }
    assert (Hpre : String.prefix "metadata." ("metadata." ++ name)%string
                   = true) by (destruct name; reflexivity).
    unfold Conditional.get_field_value. rewrite Hpre, Hsub. reflexivity. }
  split; [|split].
  - intros md name. rewrite Hpath. reflexivity.
  - intros m path Hp. unfold Conditional.get_field_value. rewrite Hp.
    reflexivity.
  - intros m name Hm. rewrite Hpath.
    destruct m as [| | | | |kvs|]; try reflexivity.
    exfalso. apply (Hm kvs). reflexivity.
Qed.

(** X9 on a sample: the path [source] reads the transaction although the
    metadata is a list with no [get]. *)
Lemma field_path_resolution_witness :
  Conditional.get_field_value (Sample.txn "PROD_001") (PList [])
    (PStr "source")
  = Ok (PStr "online").
Proof.
  destruct (field_path_resolution (Sample.txn "PROD_001"))
    as [_ [H _]].
  apply (H (PList []) "source"). reflexivity.
Defined.

(** X10.  A single condition whose operator is missing or is a text
    other than the six that [_compare_values] knows is false whenever
    its field can be read; as the guard of a rule it keeps the rule from
    ever being applied. *)
Theorem unknown_operator_is_false
    (rt : Runtime) (t : Transaction) (md : pyval) (kvs : pydict)
    (path : string) :
  has_key "conditions" kvs = false ->
  assoc "field" kvs = Some (PStr path) ->
  is_ok (Conditional.get_field_value t md (PStr path)) = true ->
  (assoc "operator" kvs = None \/
   exists op, assoc "operator" kvs = Some (PStr op) /\
              ~ In op compare_operators) ->
  Conditional.evaluate_condition t md (PDict kvs) = Ok false /\
  Engine.check_rule_conditions t md (PDict kvs) = Ok false.
Proof.
  intros Hc Hf Hread Hop.
  assert (Heval : Conditional.evaluate_condition t md (PDict kvs) = Ok false).
  { rewrite evaluate_condition_dict. unfold has_key in Hc.
    destruct (assoc "conditions" kvs); [discriminate Hc|].
    unfold Conditional.evaluate_leaf. rewrite Hf.
    destruct (Conditional.get_field_value t md (PStr path)) as [actual|e];
      [|discriminate Hread].
    simpl. unfold Conditional.compare_values.
    destruct Hop as [->|[op [-> Hop]]]; [reflexivity|].
    simpl.
    repeat match goal with
    | |- context [String.eqb op ?a] =>
        destruct (String.eqb_spec op a) as [->|_];
          [exfalso; apply Hop; simpl; tauto|]
    end.
    reflexivity. }
  split; [exact Heval|].
  unfold Engine.check_rule_conditions.
  destruct kvs as [|kv kvs']; [discriminate Hf|]. exact Heval.
Qed.

(** X10 on a sample: the guard of the third sample rule of
    [generate_sample_rules], with the operator [exists]. *)
Lemma unknown_operator_is_false_witness :
  Engine.check_rule_conditions (rt := Concrete.runtime)
    (Sample.txn "PROD_001") (PDict [("customer_tier", PStr "gold")])
    (PDict [("field", PStr "metadata.customer_tier");
            ("operator", PStr "exists")])
  = Ok false.
Proof.
  apply (unknown_operator_is_false Concrete.runtime (Sample.txn "PROD_001")
           (PDict [("customer_tier", PStr "gold")])
           [("field", PStr "metadata.customer_tier");
            ("operator", PStr "exists")]
           "metadata.customer_tier").
  - reflexivity.
  - reflexivity.
  - reflexivity.
  - right. exists "exists"%string. split; [reflexivity|].
    simpl. intros H.
    repeat (destruct H as [H|H]; [discriminate H|]). exact H.
Defined.

(* ------------------------------------------------------------------ *)
(** ** The CEL processor: modes and outcomes *)

Section CelModes.
Context {rt : Runtime}.

Lemma conditions_loop_passes (ctx : cel_context pyfloat)
    (l1 l2 : list pyval) :
  (forall x, In x l1 -> CelEntry.passed_over ctx x = true) ->
  Cel.conditions_loop ctx (l1 ++ l2) =
  (fst (Cel.conditions_loop ctx l2),
   CelEntry.failures ctx l1 ++ snd (Cel.conditions_loop ctx l2)).
Proof.
  induction l1 as [|x l1 IH]; intros H.
  - simpl. destruct (Cel.conditions_loop ctx l2); reflexivity.
  - assert (Hx := H x (or_introl eq_refl)).
    assert (Hrest : forall y, In y l1 -> CelEntry.passed_over ctx y = true).
    { intros y Hy. apply H. right. exact Hy. }
    specialize (IH Hrest).
    unfold CelEntry.failures. cbn [app Cel.conditions_loop filter].
    unfold CelEntry.passed_over in Hx. unfold CelEntry.failed at 1.
    unfold CelEntry.verdict_of in *.
    destruct (py_get x "expression" (PStr "")) as [expression|e];
      [|discriminate Hx].
    destruct (py_get x "tag" PNone) as [tag|e]; [|discriminate Hx].
    destruct (negb (py_truthy expression) || negb (py_truthy tag)).
    + rewrite IH. reflexivity.
    + destruct (Cel.run_expression expression ctx) as [v|e].
      * destruct (py_truthy v); [discriminate Hx|].
        rewrite IH. reflexivity.
      * rewrite IH. reflexivity.
Qed.

Lemma conditions_loop_fires (ctx : cel_context pyfloat) (c : pyval)
    (rest : list pyval) (tag : pyval) :
  CelEntry.verdict_of ctx c = CelEntry.Fires tag ->
  Cel.conditions_loop ctx (c :: rest) = (Ok (Some tag), []).
Proof.
  unfold CelEntry.verdict_of. cbn [Cel.conditions_loop].
  destruct (py_get c "expression" (PStr "")) as [expression|e];
    [|discriminate].
  destruct (py_get c "tag" PNone) as [tg|e]; [|discriminate].
  destruct (negb (py_truthy expression) || negb (py_truthy tg));
    [discriminate|].
  destruct (Cel.run_expression expression ctx) as [v|e]; [|discriminate].
  destruct (py_truthy v); [|discriminate].
  intros H. injection H as ->. reflexivity.
Qed.

End CelModes.

(** X11.  The CEL processor reads one mode only.  A configuration with an
    [expression] key is processed as the configuration holding that
    expression and its [default_tag] alone, whatever [conditions] or
    [script] it also has; without [expression], a configuration with a
    [conditions] key is processed as the one holding those conditions and
    the [default_tag] alone, whatever [script] it has. *)
Theorem cel_mode_precedence
    (rt : Runtime) (now : string) (t : Transaction) (md : pyval)
    (cfg : pydict) :
  (forall e,
     assoc "expression" cfg = Some e ->
     Cel.process now t md (PDict cfg) =
     Cel.process now t md
       (PDict [("expression", e);
               ("default_tag", CelEntry.default_tag cfg)])) /\
  (forall cs,
     assoc "expression" cfg = None ->
     assoc "conditions" cfg = Some cs ->
     Cel.process now t md (PDict cfg) =
     Cel.process now t md
       (PDict [("conditions", cs);
               ("default_tag", CelEntry.default_tag cfg)])).
Proof.
  split.
  - intros e He. unfold Cel.process, Cel.process_body.
    destruct (Cel.build_context now t md) as [ctx|err]; [|reflexivity].
    cbn [py_in]. unfold has_key. rewrite He. cbn [assoc String.eqb].
    unfold Cel.evaluate_single_expression, py_get, CelEntry.default_tag.
    rewrite He. reflexivity.
  - intros cs He Hc. unfold Cel.process, Cel.process_body.
    destruct (Cel.build_context now t md) as [ctx|err]; [|reflexivity].
    cbn [py_in]. unfold has_key. rewrite He, Hc.
    unfold Cel.evaluate_conditions, py_get, CelEntry.default_tag.
    rewrite Hc. reflexivity.
Qed.

(** X11 on a sample: the expression decides and the script next to it is
    not read. *)
Lemma cel_mode_precedence_witness :
  Cel.process (rt := Concrete.runtime) "2024-01-02T00:00:00+00:00"
    (Sample.txn "PROD_001") (PDict [])
    (PDict [("script", PStr "def f(): return 1");
            ("expression", PStr "'GOLD'")])
  = (PStr "GOLD", []).
Proof.
  destruct (cel_mode_precedence Concrete.runtime "2024-01-02T00:00:00+00:00"
              (Sample.txn "PROD_001") (PDict [])
              [("script", PStr "def f(): return 1");
               ("expression", PStr "'GOLD'")]) as [H _].
  rewrite (H (PStr "'GOLD'") eq_refl). reflexivity.
Defined.

(** X12.  The outcomes of the single-expression mode, each with its
    cause.  When the evaluation context cannot be built, the processor
    returns [None], not the [default_tag], and sends the one event
    [cel_evaluation_error].  Otherwise: an empty expression gives the
    [default_tag] with no event; an expression whose compilation or
    evaluation raises gives the [default_tag] and the one event
    [cel_expression_error]; a result that is a text with a character
    that is not whitespace is returned as it is, with no event; any
    other result gives the [default_tag] with no event. *)
Theorem cel_single_expression_outcomes
    (rt : Runtime) (now : string) (t : Transaction) (md : pyval)
    (cfg : pydict) (e : pyval) :
  assoc "expression" cfg = Some e ->
  match Cel.build_context now t md with
  | Raise _ =>
      Cel.process now t md (PDict cfg) = (PNone, [Cel.evaluation_error])
  | Ok ctx =>
      if py_truthy e then
        match Cel.run_expression e ctx with
        | Raise _ =>
            Cel.process now t md (PDict cfg) =
            (CelEntry.default_tag cfg, [Cel.expression_error])
        | Ok (PStr s) =>
            Cel.process now t md (PDict cfg) =
            (if Cel.blank s then CelEntry.default_tag cfg else PStr s, [])
        | Ok _ =>
            Cel.process now t md (PDict cfg) = (CelEntry.default_tag cfg, [])
        end
      else Cel.process now t md (PDict cfg) = (CelEntry.default_tag cfg, [])
  end.
Proof.
  intros He. unfold Cel.process, Cel.process_body.
  destruct (Cel.build_context now t md) as [ctx|err]; [|reflexivity].
  cbn [py_in]. unfold has_key. rewrite He.
  unfold Cel.evaluate_single_expression, py_get, CelEntry.default_tag.
  rewrite He.
  destruct (py_truthy e); [|reflexivity]. cbn [negb].
  destruct (Cel.run_expression e ctx) as [v|err]; [|reflexivity].
  destruct v as [| | |s| | |]; try reflexivity.
  destruct (Cel.blank s); reflexivity.
Qed.

(** X12 on a sample: an expression that cannot be evaluated gives the
    [default_tag] and the event of the expression; with a number in the
    metadata that does not fit 64 bits the same configuration gives
    [None] and the event of the processor. *)
Lemma cel_single_expression_outcomes_witness :
  Cel.process (rt := Concrete.runtime) "2024-01-02T00:00:00+00:00"
    (Sample.txn "PROD_001") (PDict [])
    (PDict [("expression", PStr "transaction.undefined_field == 1");
            ("default_tag", PStr "BASIC")])
  = (PStr "BASIC", [Cel.expression_error]) /\
  Cel.process (rt := Concrete.runtime) "2024-01-02T00:00:00+00:00"
    (Sample.txn "PROD_001") (PDict [("big", PInt (2 ^ 70))])
    (PDict [("expression", PStr "transaction.undefined_field == 1");
            ("default_tag", PStr "BASIC")])
  = (PNone, [Cel.evaluation_error]).
Proof.
  split.
  - exact (cel_single_expression_outcomes Concrete.runtime
             "2024-01-02T00:00:00+00:00" (Sample.txn "PROD_001") (PDict [])
             [("expression", PStr "transaction.undefined_field == 1");
              ("default_tag", PStr "BASIC")]
             (PStr "transaction.undefined_field == 1") eq_refl).
  - exact (cel_single_expression_outcomes Concrete.runtime
             "2024-01-02T00:00:00+00:00" (Sample.txn "PROD_001")
             (PDict [("big", PInt (2 ^ 70))])
             [("expression", PStr "transaction.undefined_field == 1");
              ("default_tag", PStr "BASIC")]
             (PStr "transaction.undefined_field == 1") eq_refl).
Defined.

(** X13.  In the conditions mode, with no [expression] key, the processor
    returns the tag of the first entry that holds; the entries before it
    that have no expression or no tag, or whose result is not truthy, are
    passed over without a trace, and each entry before it that fails to
    evaluate adds one event [cel_condition_error].  When no entry holds
    it returns the [default_tag]. *)
Theorem cel_conditions_first_truthy_wins
    (rt : Runtime) (now : string) (t : Transaction) (md : pyval)
    (cfg : pydict) (ctx : cel_context pyfloat) (l1 : list pyval) :
  Cel.build_context now t md = Ok ctx ->
  assoc "expression" cfg = None ->
  (forall x, In x l1 -> CelEntry.passed_over ctx x = true) ->
  (forall c l2 tag,
     assoc "conditions" cfg = Some (PList (l1 ++ c :: l2)) ->
     CelEntry.verdict_of ctx c = CelEntry.Fires tag ->
     Cel.process now t md (PDict cfg) = (tag, CelEntry.failures ctx l1)) /\
  (assoc "conditions" cfg = Some (PList l1) ->
   Cel.process now t md (PDict cfg)
   = (CelEntry.default_tag cfg, CelEntry.failures ctx l1)).
Proof.
  intros Hctx He Hl1. split.
  - intros c l2 tag Hc Hfire.
    unfold Cel.process, Cel.process_body. rewrite Hctx.
    cbn [py_in]. unfold has_key. rewrite He, Hc.
    unfold Cel.evaluate_conditions, py_get. rewrite Hc.
    cbn [py_iter]. rewrite (conditions_loop_passes ctx l1 (c :: l2) Hl1).
    rewrite (conditions_loop_fires ctx c l2 tag Hfire). simpl.
    rewrite app_nil_r. reflexivity.
  - intros Hc. unfold Cel.process, Cel.process_body. rewrite Hctx.
    cbn [py_in]. unfold has_key. rewrite He, Hc.
    unfold Cel.evaluate_conditions, py_get, CelEntry.default_tag.
    rewrite Hc. cbn [py_iter]. rewrite <- (app_nil_r l1) at 1.
    rewrite (conditions_loop_passes ctx l1 [] Hl1). simpl.
    rewrite app_nil_r. reflexivity.
Qed.

(** X13 on a sample: an entry with an empty expression, an entry that
    fails, and the entry that holds. *)
Lemma cel_conditions_first_truthy_wins_witness :
  Cel.process (rt := Concrete.runtime) "2024-01-02T00:00:00+00:00"
    (Sample.txn "PROD_001") (PDict [])
    (PDict [("conditions",
             PList [Cases4.empty_entry; Cases4.bad_entry;
                    Cases4.good_entry])])
  = (PStr "T2", [Cel.condition_error]).
Proof.
  destruct (cel_conditions_first_truthy_wins Concrete.runtime
              "2024-01-02T00:00:00+00:00" (Sample.txn "PROD_001") (PDict [])
              [("conditions",
                PList [Cases4.empty_entry; Cases4.bad_entry;
                       Cases4.good_entry])]
              (mkCtx (PStr "PROD_001") 100 (PStr "debit") (PStr "online")
                 (PStr "us") "2024-01-01T00:00:00+00:00" (PDict [])
                 "2024-01-02T00:00:00+00:00")
              [Cases4.empty_entry; Cases4.bad_entry]
              eq_refl eq_refl) as [H _].
  - intros x [<-|[<-|[]]]; reflexivity.
  - apply (H Cases4.good_entry [] (PStr "T2")); reflexivity.
Defined.

(* ------------------------------------------------------------------ *)
(** ** Validation *)

(** X14.  On a dict, [validate_rule_config] accepts a [simple] rule
    exactly when [mappings] is a dict, and a [conditional] rule exactly
    when [conditions] is a list; the processor of a rule so accepted
    reaches its loop over the mappings, or over the clauses. *)
Theorem validated_config_reaches_the_loop
    (rt : Runtime) (cfg : pydict) (t : Transaction) (md : pyval) :
  (Utils.validate_rule_config (PStr "simple") (PDict cfg) = Ok true <->
   exists items, assoc "mappings" cfg = Some (PDict items)) /\
  (forall items,
     assoc "mappings" cfg = Some (PDict items) ->
     Simple.process t md (PDict cfg) = Simple.process_items t md items) /\
  (Utils.validate_rule_config (PStr "conditional") (PDict cfg) = Ok true <->
   exists cs, assoc "conditions" cfg = Some (PList cs)) /\
  (forall cs,
     assoc "conditions" cfg = Some (PList cs) ->
     Conditional.process t md (PDict cfg) = Conditional.first_true t md cs).
Proof.
  split; [|split; [|split]].
  - unfold Utils.validate_rule_config. cbn [py_eq String.eqb Ascii.eqb
      Bool.eqb py_in py_getitem bind]. unfold has_key.
    destruct (assoc "mappings" cfg) as [m|] eqn:E; cbn [negb bind].
    + split.
      * intros H. destruct m; try discriminate H. eexists. reflexivity.
      * intros [items Hi]. injection Hi as ->. reflexivity.
    + split; [discriminate | intros [items Hi]; discriminate Hi].
  - intros items H. unfold Simple.process, py_get. rewrite H. reflexivity.
  - unfold Utils.validate_rule_config. cbn [py_eq String.eqb Ascii.eqb
      Bool.eqb py_in py_getitem bind]. unfold has_key.
    destruct (assoc "conditions" cfg) as [m|] eqn:E; cbn [negb bind].
    + split.
      * intros H. destruct m; try discriminate H. eexists. reflexivity.
      * intros [cs Hi]. injection Hi as ->. reflexivity.
    + split; [discriminate | intros [cs Hi]; discriminate Hi].
  - intros cs H. unfold Conditional.process, py_get. rewrite H. reflexivity.
Qed.

(** X14 on a sample: the configuration of rule [R1] is accepted. *)
Lemma validated_config_reaches_the_loop_witness :
  exists items,
    assoc "mappings"
      [("mappings", PDict [("product_code", PDict [("PROD_001", PStr "HIGH")])])]
    = Some (PDict items).
Proof.
  destruct (validated_config_reaches_the_loop Concrete.runtime
              [("mappings",
                PDict [("product_code", PDict [("PROD_001", PStr "HIGH")])])]
              (Sample.txn "PROD_001") (PDict [])) as [[H _] _].
  apply H. reflexivity.
Defined.

(* ------------------------------------------------------------------ *)
(** ** Import: what it writes and what it counts *)

Section ImportFacts.
Context {rt : Runtime}.

Lemma objects_get_found {A} (p : A -> bool) (rows : list A) (a : A) :
  Utils.objects_get p rows = Utils.Found a -> In a rows /\ p a = true.
Proof.
  unfold Utils.objects_get.
  destruct (filter p rows) as [|x [|y l]] eqn:E; intros H;
    try discriminate H.
  injection H as <-. apply filter_In. rewrite E. left. reflexivity.
Qed.

(** The replacement of the rows of a key keeps company and name. *)
Lemma replace_keeps_key (cid : Z) (name : string) (new r : TaggingRule) :
  rule_company new = cid -> rule_name new = name ->
  rule_company (if rule_for cid name r then new else r) = rule_company r /\
  rule_name (if rule_for cid name r then new else r) = rule_name r.
Proof.
  intros Hc Hn. unfold rule_for.
  destruct (Z.eqb_spec (rule_company r) cid) as [Hrc|_]; simpl;
    [|split; reflexivity].
  destruct (String.eqb_spec (rule_name r) name) as [Hrn|_];
    [|split; reflexivity].
  split; congruence.
Qed.

Lemma of_company_replace (cid k : Z) (name : string) (new : TaggingRule)
    (rules : list TaggingRule) :
  rule_company new = cid -> rule_name new = name ->
  RuleTable.of_company k
    (map (fun r => if rule_for cid name r then new else r) rules) =
  map (fun r => if rule_for cid name r then new else r)
      (RuleTable.of_company k rules).
Proof.
  intros Hc Hn. unfold RuleTable.of_company.
  induction rules as [|r rules IH]; simpl; [reflexivity|].
  destruct (replace_keeps_key cid name new r Hc Hn) as [-> _].
  destruct (rule_company r =? k); simpl; rewrite IH; reflexivity.
Qed.

Lemma names_replace (cid : Z) (name : string) (new : TaggingRule)
    (rules : list TaggingRule) :
  rule_company new = cid -> rule_name new = name ->
  map rule_name
    (map (fun r => if rule_for cid name r then new else r) rules) =
  map rule_name rules.
Proof.
  intros Hc Hn. rewrite map_map. apply map_ext. intros r.
  apply (replace_keeps_key cid name new r Hc Hn).
Qed.

Lemma replace_other_company (cid k : Z) (name : string) (new : TaggingRule)
    (rules : list TaggingRule) :
  k <> cid ->
  map (fun r => if rule_for cid name r then new else r)
      (RuleTable.of_company k rules) = RuleTable.of_company k rules.
Proof.
  intros Hk. unfold RuleTable.of_company.
  induction rules as [|r rules IH]; simpl; [reflexivity|].
  destruct (Z.eqb_spec (rule_company r) k) as [Hr|_]; simpl; [|exact IH].
  rewrite IH. unfold rule_for.
  assert (Hne : (rule_company r =? cid) = false)
    by (apply Z.eqb_neq; congruence).
  rewrite Hne. reflexivity.
Qed.

(** [update_or_create] writes rules of the company of its key only. *)
Lemma update_or_create_rule_other (rules rules' : list TaggingRule)
    (cid k : Z) (name : string) (new : TaggingRule) :
  Utils.update_or_create_rule rules cid name new = Ok rules' ->
  rule_company new = cid -> rule_name new = name -> k <> cid ->
  RuleTable.of_company k rules' = RuleTable.of_company k rules.
Proof.
  unfold Utils.update_or_create_rule. intros H Hc Hn Hk.
  destruct (Utils.objects_get (rule_for cid name) rules);
    [| |discriminate H]; injection H as <-.
  - rewrite (of_company_replace cid k name new rules Hc Hn).
    apply replace_other_company, Hk.
  - unfold RuleTable.of_company. rewrite filter_app. simpl.
    assert (Hne : (rule_company new =? k) = false)
      by (apply Z.eqb_neq; congruence).
    rewrite Hne. apply app_nil_r.
Qed.

(** [update_or_create] keeps the names of a company distinct. *)
Lemma update_or_create_rule_unique (rules rules' : list TaggingRule)
    (cid : Z) (name : string) (new : TaggingRule) :
  rules_unique rules ->
  Utils.update_or_create_rule rules cid name new = Ok rules' ->
  rule_company new = cid -> rule_name new = name ->
  rules_unique rules'.
Proof.
  unfold Utils.update_or_create_rule, Utils.objects_get.
  intros Hu H Hc Hn k.
  change (NoDup (map rule_name (RuleTable.of_company k rules'))).
  destruct (filter (rule_for cid name) rules) as [|x [|y l]] eqn:E;
    [| |discriminate H]; injection H as <-.
  - unfold RuleTable.of_company. rewrite filter_app, map_app. simpl.
    destruct (Z.eqb_spec (rule_company new) k) as [Hk|_]; simpl.
    + apply (Permutation_NoDup (Permutation_cons_append _ _)).
      constructor; [|apply Hu].
      intros Hin. apply in_map_iff in Hin.
        destruct Hin as [r [Hr Hin]]. apply filter_In in Hin.
        destruct Hin as [Hin Hrk].
        assert (Hmem : In r (filter (rule_for cid name) rules)).
        { apply filter_In. split; [exact Hin|]. unfold rule_for.
          apply Z.eqb_eq in Hrk.
          replace (rule_company r =? cid) with true
            by (symmetry; apply Z.eqb_eq; congruence).
          simpl. apply String.eqb_eq. congruence. }
        rewrite E in Hmem. destruct Hmem.
    + rewrite app_nil_r. apply Hu.
  - rewrite (of_company_replace cid k name new rules Hc Hn).
    rewrite (names_replace cid name new _ Hc Hn). apply Hu.
Qed.

(** What [import_rule] does when it returns is one [update_or_create]
    for the company of the envelope. *)
Lemma import_rule_shape (rules rules' : list TaggingRule) (c : Company)
    (datum : pyval) :
  Utils.import_rule rules c datum = Ok rules' ->
  exists name new,
    Utils.update_or_create_rule rules (company_id c) name new = Ok rules' /\
    rule_company new = company_id c /\ rule_name new = name.
Proof.
  unfold Utils.import_rule. intros H.
  repeat (apply bind_ok in H; destruct H as [? [_ H]]).
  eexists. eexists. split; [exact H|]. split; reflexivity.
Qed.

Lemma import_loop_keeps (c : Company) (datas : list pyval) :
  forall rules results results' rules',
    Utils.import_loop c datas rules results = Ok (results', rules') ->
    (forall k, k <> company_id c ->
       RuleTable.of_company k rules' = RuleTable.of_company k rules) /\
    (rules_unique rules -> rules_unique rules') /\
    Utils.imported results' + Z.of_nat (List.length (Utils.errors results'))
    = Utils.imported results + Z.of_nat (List.length (Utils.errors results))
      + Z.of_nat (List.length datas) /\
    Utils.imported results <= Utils.imported results'.
Proof.
  induction datas as [|d datas IH]; intros rules results results' rules' H.
  - simpl in H. injection H as <- <-. simpl.
    repeat split; auto; lia.
  - cbn [Utils.import_loop] in H.
    destruct (Utils.import_rule rules c d) as [rules1|e] eqn:Ed.
    + destruct (import_rule_shape _ _ _ _ Ed) as [name [new [Hup [Hc Hn]]]].
      destruct (IH _ _ _ _ H) as [Hother [Huniq [Hcount Hmono]]].
      cbn [Utils.imported Utils.errors] in Hcount, Hmono.
      split; [|split; [|split]].
      * intros k Hk. rewrite (Hother k Hk).
        apply (update_or_create_rule_other _ _ _ _ _ _ Hup Hc Hn Hk).
      * intros Hu. apply Huniq.
        apply (update_or_create_rule_unique _ _ _ _ _ Hu Hup Hc Hn).
      * cbn [List.length]. lia.
      * lia.
    + apply bind_ok in H. destruct H as [name [_ H]].
      destruct (IH _ _ _ _ H) as [Hother [Huniq [Hcount Hmono]]].
      cbn [Utils.imported Utils.errors] in Hcount, Hmono.
      rewrite length_app in Hcount. cbn [List.length] in Hcount.
      repeat split; auto; cbn [List.length]; lia.
Qed.

(** The three ways [import_rules_from_json] returns. *)
Lemma import_returns (db db' : Database) (text : json_text) (out : pyval) :
  Utils.import_rules_from_json db text = Ok (out, db') ->
  (exists msg, out = Utils.error_dict msg /\ db' = db) \/
  (exists data code c rules_v datas res rules',
     json_loads text = Ok data /\
     py_get data "company_code" PNone = Ok code /\
     Utils.objects_get (Utils.has_code (py_str code)) (companies db)
     = Utils.Found c /\
     py_get data "rules" (PList []) = Ok rules_v /\
     py_iter rules_v = Ok datas /\
     Utils.import_loop c datas (tagging_rules db) (Utils.mkResults 0 [])
     = Ok (res, rules') /\
     out = Utils.results_dict res /\
     db' = mkDb (companies db) rules' (transaction_tags db)).
Proof.
  unfold Utils.import_rules_from_json. intros H.
  destruct (json_loads text) as [data|e] eqn:El.
  - apply bind_ok in H. destruct H as [code [Hcode H]].
    destruct (negb (py_truthy code)).
    + injection H as <- <-. left. eexists. split; reflexivity.
    + destruct (Utils.objects_get (Utils.has_code (py_str code))
                  (companies db)) as [c| |] eqn:Ec.
      * apply bind_ok in H. destruct H as [rules_v [Hrv H]].
        apply bind_ok in H. destruct H as [datas [Hd H]].
        apply bind_ok in H. destruct H as [[res rules'] [Hloop H]].
        injection H as <- <-. right.
        exists data, code, c, rules_v, datas, res, rules'.
        repeat split; assumption.
      * injection H as <- <-. left. eexists. split; reflexivity.
      * discriminate H.
  - destruct (exn_type e); try discriminate H.
    injection H as <- <-. left. eexists. split; reflexivity.
Qed.

End ImportFacts.

(** X15.  Whenever [import_rules_from_json] returns, it returns either
    an [error] dict, and then the database is as it was, or the counts
    of a run over every entry of [rules]: each entry was either imported
    or reported, so [imported] plus the number of [errors] is the number
    of entries. *)
Theorem import_accounts_for_every_entry
    (rt : Runtime) (db db' : Database) (text : json_text) (out : pyval) :
  Utils.import_rules_from_json db text = Ok (out, db') ->
  (exists msg, out = Utils.error_dict msg /\ db' = db) \/
  (exists data rules_v datas res,
     json_loads text = Ok data /\
     py_get data "rules" (PList []) = Ok rules_v /\
     py_iter rules_v = Ok datas /\
     out = Utils.results_dict res /\
     0 <= Utils.imported res /\
     Utils.imported res + Z.of_nat (List.length (Utils.errors res))
     = Z.of_nat (List.length datas)).
Proof.
  intros H. destruct (import_returns db db' text out H)
    as [Herr|[data [code [c [rules_v [datas [res [rules' Hall]]]]]]]].
  - left. exact Herr.
  - right. destruct Hall as [Hl [_ [_ [Hrv [Hd [Hloop [Hout _]]]]]]].
    exists data, rules_v, datas, res.
    destruct (import_loop_keeps c datas _ _ _ _ Hloop)
      as [_ [_ [Hcount Hmono]]].
    cbn [Utils.imported Utils.errors List.length] in Hcount, Hmono.
    repeat split; try assumption; lia.
Qed.

(** X15 on a sample: of the two entries, rule [R1] is imported and the
    rule with the empty configuration is reported. *)
Lemma import_accounts_for_every_entry_witness :
  (exists msg,
     Utils.results_dict
       (Utils.mkResults 1
          ["Error importing rule 'Draft': Simple rules must have 'mappings' field"%string])
     = Utils.error_dict msg /\
     mkDb (companies Sample.fresh_db) [Utils.moved_to 5 Sample.high_rule] []
     = Sample.fresh_db) \/
  (exists data rules_v datas res,
     json_loads (Runtime := Concrete.runtime) Cases5.mixed_envelope = Ok data /\
     py_get data "rules" (PList []) = Ok rules_v /\
     py_iter rules_v = Ok datas /\
     Utils.results_dict
       (Utils.mkResults 1
          ["Error importing rule 'Draft': Simple rules must have 'mappings' field"%string])
     = Utils.results_dict res /\
     0 <= Utils.imported res /\
     Utils.imported res + Z.of_nat (List.length (Utils.errors res))
     = Z.of_nat (List.length datas)).
Proof.
  apply (import_accounts_for_every_entry Concrete.runtime Sample.fresh_db
           (mkDb (companies Sample.fresh_db)
              [Utils.moved_to 5 Sample.high_rule] [])
           Cases5.mixed_envelope).
  reflexivity.
Defined.

(** X16.  An import writes rules of one company only, the one that the
    [company_code] of the envelope names: the companies, the tags and the
    rules of every other company are left as they were, and the names of
    the rules of a company stay distinct. *)
Theorem import_writes_one_company
    (rt : Runtime) (db db' : Database) (text : json_text) (out : pyval) :
  Utils.import_rules_from_json db text = Ok (out, db') ->
  companies db' = companies db /\
  transaction_tags db' = transaction_tags db /\
  (rules_unique (tagging_rules db) -> rules_unique (tagging_rules db')) /\
  (forall data code c k,
     json_loads text = Ok data ->
     py_get data "company_code" PNone = Ok code ->
     Utils.objects_get (Utils.has_code (py_str code)) (companies db)
     = Utils.Found c ->
     k <> company_id c ->
     RuleTable.of_company k (tagging_rules db') =
     RuleTable.of_company k (tagging_rules db)).
Proof.
  intros H. destruct (import_returns db db' text out H)
    as [[msg [_ ->]]|[data [code [c [rules_v [datas [res [rules' Hall]]]]]]]].
  - repeat split; auto.
  - destruct Hall as [Hl [Hcode [Hc [_ [_ [Hloop [_ ->]]]]]]].
    destruct (import_loop_keeps c datas _ _ _ _ Hloop)
      as [Hother [Huniq _]].
    simpl. repeat split; [exact Huniq|].
    intros data0 code0 c0 k Hl0 Hcode0 Hc0 Hk.
    rewrite Hl in Hl0. injection Hl0 as <-.
    rewrite Hcode in Hcode0. injection Hcode0 as <-.
    rewrite Hc in Hc0. injection Hc0 as <-.
    apply Hother, Hk.
Qed.

(** X16 on a sample: the import for [ACME] leaves the rule of the other
    company where it was. *)
Lemma import_writes_one_company_witness :
  RuleTable.of_company 2
    [Cases5.foreign_rule; Sample.draft_rule; Sample.high_rule]
  = RuleTable.of_company 2 (tagging_rules Cases5.two_company_db).
Proof.
  destruct (import_writes_one_company Concrete.runtime Cases5.two_company_db
              (mkDb (companies Cases5.two_company_db)
                 [Cases5.foreign_rule; Sample.draft_rule; Sample.high_rule]
                 [])
              Cases5.mixed_envelope
              (Utils.results_dict
                 (Utils.mkResults 1
                    ["Error importing rule 'Draft': Simple rules must have 'mappings' field"%string]))
              eq_refl) as [_ [_ [_ H]]].
  apply (H Cases5.mixed_envelope (PStr "ACME") Sample.acme 2);
    [reflexivity | reflexivity | reflexivity | discriminate].
Defined.

(* ------------------------------------------------------------------ *)
(** ** Export, and import into the database that was exported *)

Section InPlace.
Context {rt : Runtime}.






Lemma rule_leb_total (a b : TaggingRule) :
  Utils.rule_leb a b = false -> Utils.rule_leb b a = true.
Proof.
  unfold Utils.rule_leb. intros H.
  apply orb_false_iff in H. destruct H as [Hlt Hrest].
  apply Z.ltb_ge in Hlt.
  destruct (Z.eqb_spec (priority a) (priority b)) as [Heq|Hne].
  - simpl in Hrest. rewrite <- Heq, Z.eqb_refl, Z.ltb_irrefl. simpl.
    destruct (String.leb_total (rule_name a) (rule_name b)) as [H|H];
      [congruence | exact H].
  - assert (Hb : (priority b <? priority a) = true)
      by (apply Z.ltb_lt; lia).
    rewrite Hb. reflexivity.
Qed.

Lemma insert_rule_sorted (r : TaggingRule) (l : list TaggingRule) :
  Sorted RuleTable.before l ->
  Sorted RuleTable.before (Utils.insert_rule r l).
Proof.
  induction 1 as [|x l Hs IH Hhd]; simpl.
  - repeat constructor.
  - destruct (Utils.rule_leb r x) eqn:E.
    + constructor; [constructor; assumption|].
      constructor. exact E.
    + constructor; [exact IH|].
      destruct l as [|y l]; simpl.
      * constructor. apply rule_leb_total, E.
      * destruct (Utils.rule_leb r y).
        -- constructor. apply rule_leb_total, E.
        -- inversion Hhd; subst. constructor. assumption.
Qed.

End InPlace.



(** X18.  The export of a company lists all its rules, the inactive ones
    too, each once, in ascending priority and, within a priority, in the
    order of their names. *)
Theorem export_lists_the_rules_in_order
    (rt : Runtime) (db : Database) (code : string) (c : Company) :
  Utils.objects_get (Utils.has_code code) (companies db) = Utils.Found c ->
  Utils.export_rules_to_json db code =
  json_dumps (Utils.envelope_of code c (Utils.rules_of db c)) /\
  Sorted RuleTable.before (Utils.rules_of db c) /\
  Permutation (Utils.company_rules db c) (Utils.rules_of db c).
Proof.
  intros Hc. split; [|split].
  - unfold Utils.export_rules_to_json. rewrite Hc. reflexivity.
  - unfold Utils.rules_of, Utils.default_ordering.
    induction (Utils.company_rules db c) as [|r l IH]; simpl.
    + constructor.
    + apply insert_rule_sorted, IH.
  - apply default_ordering_perm.
Qed.

(** X18 on a sample: priority 10 first, then the two rules of priority 20
    by name, the inactive one among them. *)
Lemma export_lists_the_rules_in_order_witness :
  Utils.rules_of Cases5.unordered_db Sample.acme =
  [Cases5.rule_z; Cases5.rule_b; Cases5.rule_m] /\
  Sorted RuleTable.before (Utils.rules_of Cases5.unordered_db Sample.acme).
Proof.
  split; [reflexivity|].
  apply (export_lists_the_rules_in_order Concrete.runtime
           Cases5.unordered_db "ACME" Sample.acme).
  reflexivity.
Defined.

(* ------------------------------------------------------------------ *)
(** ** The service layer *)

Section Batches.

Lemma firstn_add {A} (x y : nat) (l : list A) :
  firstn (x + y) l = firstn x l ++ firstn y (skipn x l).
Proof.
  revert l. induction x as [|x IH]; intros l; [reflexivity|].
  destruct l as [|a l]; simpl.
  - rewrite firstn_nil. reflexivity.
  - rewrite IH. reflexivity.
Qed.

Lemma skipn_add {A} (x y : nat) (l : list A) :
  skipn (x + y) l = skipn y (skipn x l).
Proof.
  revert l. induction x as [|x IH]; intros l; [reflexivity|].
  destruct l as [|a l]; simpl.
  - rewrite skipn_nil. reflexivity.
  - apply IH.
Qed.

Lemma slices_concat {A} (n : nat) (l : list A) (m : nat) :
  forall a,
    List.concat (map (fun k => firstn n (skipn (k * n) l)) (seq a m)) =
    firstn (m * n) (skipn (a * n) l).
Proof.
  induction m as [|m IH]; intros a; [reflexivity|].
  cbn [seq map List.concat]. rewrite IH.
  replace (S m * n)%nat with (n + m * n)%nat by lia.
  rewrite firstn_add. f_equal. f_equal.
  replace (S a * n)%nat with (a * n + n)%nat by lia.
  apply skipn_add.
Qed.

Lemma batches_cover (n : nat) (ids : list Z) :
  (1 <= n)%nat -> List.concat (Service.batches n ids) = ids.
Proof.
  intros Hn. unfold Service.batches. rewrite slices_concat. simpl.
  apply firstn_all2.
  assert (H := Nat.div_mod_eq (List.length ids + n - 1) n).
  assert (Hr := Nat.mod_upper_bound (List.length ids + n - 1) n).
  nia.
Qed.

Lemma no_such_id (ts : list Transaction) (id : Z) :
  ~ In id (map txn_id ts) -> filter (Service.has_id id) ts = [].
Proof.
  induction ts as [|x ts IH]; simpl; intros H; [reflexivity|].
  unfold Service.has_id at 1.
  destruct (Z.eqb_spec (txn_id x) id) as [Hx|_].
  - exfalso. apply H. left. exact Hx.
  - apply IH. intros Hin. apply H. right. exact Hin.
Qed.

Lemma unique_id_lookup (transactions : list Transaction) (id : Z) :
  NoDup (map txn_id transactions) ->
  Utils.objects_get (Service.has_id id) transactions <> Utils.Multiple.
Proof.
  intros Hnd. unfold Utils.objects_get.
  assert (Hlen : (List.length (filter (Service.has_id id) transactions)
                  <= 1)%nat).
  { induction transactions as [|t ts IH]; simpl; [lia|].
    inversion Hnd as [|? ? Hnotin Hnd']; subst.
    unfold Service.has_id at 1.
    destruct (Z.eqb_spec (txn_id t) id) as [Heq|_]; [|apply IH, Hnd'].
    rewrite (no_such_id ts id); [simpl; lia|].
    rewrite <- Heq. exact Hnotin. }
  destruct (filter (Service.has_id id) transactions) as [|x [|y l]];
    [discriminate | discriminate | simpl in Hlen; lia].
Qed.

End Batches.

(** X19.  A company that is not active is invisible to the service: when
    no active company has the code, [tag_single_transaction] returns
    [None], [tag_multiple_transactions] returns an empty dict and
    [retag_company_transactions] returns 0, all without writing, whatever
    rules the company has. *)
Theorem inactive_company_is_invisible
    (rt : Runtime) (transactions : list Transaction) (db : Database)
    (now : clock) (nows : Service.clocks) (code : string) :
  NoDup (map txn_id transactions) ->
  (forall c, In c (companies db) -> company_code c = code ->
             company_is_active c = false) ->
  (forall id,
     Service.tag_single_transaction transactions db now id code
     = Ok (PNone, db)) /\
  (forall ids batch_size,
     Service.tag_multiple_transactions transactions db nows ids code
       batch_size = (Ok [], db)) /\
  Service.retag_company_transactions transactions db nows code = (Ok 0, db).
Proof.
  intros Hnd Hc.
  assert (Hnone : Utils.objects_get (Service.active_with_code code)
                    (companies db) = Utils.DoesNotExist).
  { apply objects_get_none. intros c Hin.
    unfold Service.active_with_code, Utils.has_code.
    destruct (String.eqb_spec (company_code c) code) as [Heq|_];
      [|reflexivity].
    rewrite (Hc c Hin Heq). reflexivity. }
  split; [|split].
  - intros id. unfold Service.tag_single_transaction. rewrite Hnone.
    assert (Hm := unique_id_lookup transactions id Hnd).
    destruct (Utils.objects_get (Service.has_id id) transactions);
      [reflexivity | reflexivity | congruence].
  - intros ids batch_size. unfold Service.tag_multiple_transactions.
    rewrite Hnone. reflexivity.
  - unfold Service.retag_company_transactions. rewrite Hnone. reflexivity.
Qed.

(** X19 on a sample: the company is switched off and its rule would
    match. *)
Lemma inactive_company_is_invisible_witness :
  Service.tag_single_transaction (rt := Concrete.runtime) Cases6.table
    Cases6.closed_db (steady "2024-01-02T00:00:00+00:00") 1 "ACME"
  = Ok (PNone, Cases6.closed_db).
Proof.
  destruct (inactive_company_is_invisible Concrete.runtime Cases6.table
              Cases6.closed_db (steady "2024-01-02T00:00:00+00:00")
              (fun _ => steady "2024-01-02T00:00:00+00:00") "ACME")
    as [H _].
  - simpl. repeat constructor; simpl; intuition discriminate.
  - intros c [<-|[]] _. reflexivity.
  - apply H.
Defined.

(** X20.  For a positive batch size the batches are consecutive slices
    of the ids: put end to end they are the ids, in order and with their
    repetitions, and no batch is longer than the batch size. *)
Theorem batches_partition_the_ids (batch_size : nat) (ids : list Z) :
  (1 <= batch_size)%nat ->
  List.concat (Service.batches batch_size ids) = ids /\
  Forall (fun b => (List.length b <= batch_size)%nat)
         (Service.batches batch_size ids).
Proof.
  intros Hn. split; [apply batches_cover, Hn|].
  unfold Service.batches. apply Forall_forall. intros b Hb.
  apply in_map_iff in Hb. destruct Hb as [k [<- _]].
  apply firstn_le_length.
Qed.

(** X20 on a sample: four ids in batches of three. *)
Lemma batches_partition_the_ids_witness :
  Service.batches 3 Cases6.asked = [[1; 2; 99]; [3]] /\
  List.concat (Service.batches 3 Cases6.asked) = Cases6.asked.
Proof.
  split; [reflexivity|].
  apply (batches_partition_the_ids 3 Cases6.asked). lia.
Defined.

Section ServiceLoops.
Context {rt : Runtime}.
Variables (transactions : list Transaction) (now : Service.clocks)
          (c : Company).

Lemma dict_set_keys (k : Z) (v : pyval) (d : Service.results) :
  (forall k', In k' (map fst (Service.dict_set k v d)) <->
              k' = k \/ In k' (map fst d)) /\
  (NoDup (map fst d) -> NoDup (map fst (Service.dict_set k v d))).
Proof.
  induction d as [|[k0 v0] d [IHk IHn]]; simpl.
  - split.
    + intros k'. intuition.
    + intros _. repeat constructor. intros [].
  - destruct (Z.eqb_spec k0 k) as [->|Hne]; simpl.
    + split; [intros k'; intuition | auto].
    + split.
      * intros k'. rewrite IHk. intuition.
      * intros Hnd. inversion Hnd as [|? ? Hnotin Hnd']; subst.
        constructor; [|apply IHn, Hnd'].
        rewrite IHk. intros [Hk|Hin]; [congruence | contradiction].
Qed.

Lemma tag_transaction_keeps (clk : clock) (db db' : Database)
    (t : Transaction) (r : pyval) :
  Engine.tag_transaction db clk t c = Ok (r, db') ->
  companies db' = companies db /\ tagging_rules db' = tagging_rules db.
Proof.
  unfold Engine.tag_transaction, Engine.persist. intros H.
  apply bind_ok in H. destruct H as [st [_ H]].
  destruct (py_truthy (Engine.best_tag st)).
  - apply bind_ok in H. destruct H as [rows [_ H]].
    injection H as _ <-. split; reflexivity.
  - injection H as _ <-. split; reflexivity.
Qed.

Lemma tag_transaction_other_pairs (clk : clock) (db db' : Database)
    (t : Transaction) (r : pyval) (a b : Z) :
  Engine.tag_transaction db clk t c = Ok (r, db') ->
  (a =? txn_id t) && (b =? company_id c) = false ->
  tags_of a b (transaction_tags db') = tags_of a b (transaction_tags db).
Proof.
  unfold Engine.tag_transaction, Engine.persist. intros H Hab.
  apply bind_ok in H. destruct H as [st [_ H]].
  destruct (py_truthy (Engine.best_tag st)).
  - apply bind_ok in H. destruct H as [rows [Hup H]].
    injection H as _ <-. simpl.
    apply (update_or_create_frame _ _ _ _ _ _ _ _ a b Hup).
    unfold tag_for. simpl. exact Hab.
  - injection H as _ <-. reflexivity.
Qed.

Lemma tag_each_keeps (ts : list Transaction) :
  forall k acc db out db',
    Service.tag_each now c ts k acc db = (out, db') ->
    companies db' = companies db /\ tagging_rules db' = tagging_rules db.
Proof.
  induction ts as [|t ts IH]; simpl; intros k acc db out db' H.
  - injection H as _ <-. split; reflexivity.
  - destruct (Engine.tag_transaction db (now k) t c) as [[tag db1]|e] eqn:Et.
    + destruct (tag_transaction_keeps _ _ _ _ _ Et) as [H1 H2].
      destruct (IH _ _ _ _ _ H) as [H3 H4]. split; congruence.
    + injection H as _ <-. split; reflexivity.
Qed.

Lemma each_batch_keeps (bs : list (list Z)) :
  forall k acc db out db',
    Service.each_batch transactions now c bs k acc db = (out, db') ->
    companies db' = companies db /\ tagging_rules db' = tagging_rules db.
Proof.
  induction bs as [|b bs IH]; simpl; intros k acc db out db' H.
  - injection H as _ <-. split; reflexivity.
  - destruct (Service.tag_each now c
                (filter (Service.in_batch b) transactions) k acc db)
      as [[acc1|e] db1] eqn:Eb.
    + destruct (tag_each_keeps _ _ _ _ _ _ Eb) as [H1 H2].
      destruct (IH _ _ _ _ _ H) as [H3 H4]. split; congruence.
    + injection H as _ <-. apply (tag_each_keeps _ _ _ _ _ _ Eb).
Qed.

Lemma tag_each_keys (ts : list Transaction) :
  forall k acc db acc' db',
    Service.tag_each now c ts k acc db = (Ok acc', db') ->
    (forall id, In id (map fst acc') <->
                In id (map fst acc) \/ In id (map txn_id ts)) /\
    (NoDup (map fst acc) -> NoDup (map fst acc')).
Proof.
  induction ts as [|t ts IH]; simpl; intros k acc db acc' db' H.
  - injection H as <- _. split; [intros id; intuition | auto].
  - destruct (Engine.tag_transaction db (now k) t c) as [[tag db1]|e];
      [|discriminate H].
    destruct (IH _ _ _ _ _ H) as [Hk Hn].
    destruct (dict_set_keys (txn_id t) tag acc) as [Hsk Hsn].
    split.
    + intros id. rewrite Hk, Hsk. intuition.
    + intros Hnd. apply Hn, Hsn, Hnd.
Qed.

Lemma batch_ids (b : list Z) (id : Z) :
  In id (map txn_id (filter (Service.in_batch b) transactions)) <->
  In id b /\ In id (map txn_id transactions).
Proof.
  rewrite !in_map_iff. split.
  - intros [t [<- Ht]]. apply filter_In in Ht. destruct Ht as [Hin Hb].
    unfold Service.in_batch in Hb. apply existsb_exists in Hb.
    destruct Hb as [x [Hx Heq]]. apply Z.eqb_eq in Heq. subst x.
    split; [exact Hx | exists t; split; [reflexivity | exact Hin]].
  - intros [Hb [t [<- Hin]]]. exists t. split; [reflexivity|].
    apply filter_In. split; [exact Hin|].
    unfold Service.in_batch. apply existsb_exists.
    exists (txn_id t). split; [exact Hb | apply Z.eqb_refl].
Qed.

Lemma each_batch_keys (bs : list (list Z)) :
  forall k acc db acc' db',
    Service.each_batch transactions now c bs k acc db = (Ok acc', db') ->
    (forall id, In id (map fst acc') <->
                In id (map fst acc) \/
                (In id (List.concat bs) /\ In id (map txn_id transactions)))
    /\ (NoDup (map fst acc) -> NoDup (map fst acc')).
Proof.
  induction bs as [|b bs IH]; simpl; intros k acc db acc' db' H.
  - injection H as <- _. split; [intros id; intuition | auto].
  - destruct (Service.tag_each now c
                (filter (Service.in_batch b) transactions) k acc db)
      as [[acc1|e] db1] eqn:Eb; [|discriminate H].
    destruct (tag_each_keys _ _ _ _ _ _ Eb) as [Hk1 Hn1].
    destruct (IH _ _ _ _ _ H) as [Hk Hn].
    split.
    + intros id. rewrite Hk, Hk1, batch_ids, in_app_iff. intuition.
    + intros Hnd. apply Hn, Hn1, Hnd.
Qed.

(** The engine fails on [t] in every database with the rules of [db]. *)
Lemma engine_fails_again (clk : clock) (db db1 : Database) (t : Transaction)
    (e : exn) :
  Engine.rules_loop clk t (Engine.metadata_of t) 0
    (Engine.active_rules db c) Engine.initial_state = Raise e ->
  tagging_rules db1 = tagging_rules db ->
  Engine.tag_transaction db1 clk t c = Raise e.
Proof.
  intros Hloop Hrules. unfold Engine.tag_transaction, Engine.active_rules.
  rewrite Hrules. fold (Engine.active_rules db c). rewrite Hloop.
  reflexivity.
Qed.

Lemma tag_each_fails (db : Database) (t : Transaction) (e : exn)
    (ts : list Transaction) :
  (forall k, Engine.rules_loop (now k) t (Engine.metadata_of t) 0
               (Engine.active_rules db c) Engine.initial_state = Raise e) ->
  In t ts ->
  forall k acc db1,
    tagging_rules db1 = tagging_rules db ->
    is_ok (fst (Service.tag_each now c ts k acc db1)) = false.
Proof.
  intros Hloop. induction ts as [|x ts IH]; intros Hin k acc db1 Hrules;
    [destruct Hin|].
  simpl. destruct (Engine.tag_transaction db1 (now k) x c)
    as [[tag db2]|e'] eqn:Ex; [|reflexivity].
  destruct Hin as [->|Hin].
  - rewrite (engine_fails_again (now k) db db1 t e (Hloop k) Hrules) in Ex.
    discriminate Ex.
  - apply IH; [exact Hin|].
    destruct (tag_transaction_keeps _ _ _ _ _ Ex) as [_ H2]. congruence.
Qed.

Lemma each_batch_fails (db : Database) (t : Transaction) (e : exn)
    (bs : list (list Z)) :
  (forall k, Engine.rules_loop (now k) t (Engine.metadata_of t) 0
               (Engine.active_rules db c) Engine.initial_state = Raise e) ->
  In t transactions ->
  In (txn_id t) (List.concat bs) ->
  forall k acc db1,
    tagging_rules db1 = tagging_rules db ->
    is_ok (fst (Service.each_batch transactions now c bs k acc db1)) = false.
Proof.
  intros Hloop Ht. induction bs as [|b bs IH]; intros Hin k acc db1 Hrules;
    [destruct Hin|].
  simpl.
  destruct (Service.tag_each now c
              (filter (Service.in_batch b) transactions) k acc db1)
    as [[acc1|e'] db2] eqn:Eb; [|reflexivity].
  simpl in Hin. apply in_app_or in Hin. destruct Hin as [Hin|Hin].
  - assert (Hmem : In t (filter (Service.in_batch b) transactions)).
    { apply filter_In. split; [exact Ht|].
      unfold Service.in_batch. apply existsb_exists.
      exists (txn_id t). split; [exact Hin | apply Z.eqb_refl]. }
    assert (Hf := tag_each_fails db t e _ Hloop Hmem k acc db1 Hrules).
    rewrite Eb in Hf. discriminate Hf.
  - apply IH; [exact Hin|].
    destruct (tag_each_keeps _ _ _ _ _ _ Eb) as [_ H2]. congruence.
Qed.

End ServiceLoops.

(** X21.  When [tag_multiple_transactions] returns its dict for an active
    company and a positive batch size, the keys of the dict are the ids
    asked for that are in the table of transactions, each once: an id
    that is not in the table is left out, and an id asked for twice is
    one key. *)
Theorem result_keys_are_the_ids_found
    (rt : Runtime) (transactions : list Transaction) (db db' : Database)
    (now : Service.clocks) (ids : list Z) (code : string) (batch_size : Z)
    (c : Company) (rs : Service.results) :
  Utils.objects_get (Service.active_with_code code) (companies db)
  = Utils.Found c ->
  0 < batch_size ->
  Service.tag_multiple_transactions transactions db now ids code batch_size
  = (Ok rs, db') ->
  NoDup (map fst rs) /\
  forall id, In id (map fst rs) <->
             In id ids /\ In id (map txn_id transactions).
Proof.
  intros Hc Hb H. unfold Service.tag_multiple_transactions in H.
  rewrite Hc in H.
  destruct (Z.eqb_spec batch_size 0) as [Hz|_]; [lia|].
  destruct (Z.ltb_spec batch_size 0) as [Hn|_]; [lia|].
  destruct (each_batch_keys transactions now c _ _ _ _ _ _ H) as [Hk Hn].
  split; [apply Hn; constructor|].
  intros id. rewrite Hk, batches_cover by lia. simpl. intuition.
Qed.

(** X21 on a sample: of the ids 1, 2, 99 and 3, the id 99 is not in the
    table. *)
Lemma result_keys_are_the_ids_found_witness :
  Service.tag_multiple_transactions (rt := Concrete.runtime) Cases6.table
    Sample.arbitration_db (fun _ => steady "2024-01-02T00:00:00+00:00")
    Cases6.asked "ACME" 3
  = (Ok [(2, PNone); (1, PStr "HIGH"); (3, PStr "HIGH")],
     mkDb [Sample.acme] [Sample.low_rule; Sample.high_rule]
       [mkTag 1 1 (PStr "HIGH") 1 false "Rule 'R1' matched: HIGH"
          "2024-01-02T00:00:00+00:00";
        mkTag 3 1 (PStr "HIGH") 1 false "Rule 'R1' matched: HIGH"
          "2024-01-02T00:00:00+00:00"]) /\
  (In 99 (map fst [(2, PNone); (1, PStr "HIGH"); (3, PStr "HIGH")]) <->
   In 99 Cases6.asked /\ In 99 (map txn_id Cases6.table)).
Proof.
  split; [reflexivity|].
  apply (result_keys_are_the_ids_found Concrete.runtime Cases6.table
           Sample.arbitration_db
           (mkDb [Sample.acme] [Sample.low_rule; Sample.high_rule]
              [mkTag 1 1 (PStr "HIGH") 1 false "Rule 'R1' matched: HIGH"
                 "2024-01-02T00:00:00+00:00";
               mkTag 3 1 (PStr "HIGH") 1 false "Rule 'R1' matched: HIGH"
                 "2024-01-02T00:00:00+00:00"])
           (fun _ => steady "2024-01-02T00:00:00+00:00") Cases6.asked "ACME" 3
           Sample.acme);
    [reflexivity | lia | reflexivity].
Defined.

(** X22.  [tag_multiple_transactions] has no handler around the engine:
    when the rules of the company make the engine raise on one
    transaction that is asked for and in the table, the call raises, for
    every positive batch size and whatever else is asked for; it leaves
    the companies and the rules as they were. *)
Theorem one_failing_transaction_fails_the_call
    (rt : Runtime) (transactions : list Transaction) (db : Database)
    (now : Service.clocks) (ids : list Z) (code : string) (batch_size : Z)
    (c : Company) (t : Transaction) (e : exn) :
  Utils.objects_get (Service.active_with_code code) (companies db)
  = Utils.Found c ->
  0 < batch_size ->
  In t transactions ->
  In (txn_id t) ids ->
  (forall k, Engine.rules_loop (now k) t (Engine.metadata_of t) 0
               (Engine.active_rules db c) Engine.initial_state = Raise e) ->
  is_ok (fst (Service.tag_multiple_transactions transactions db now ids
                code batch_size)) = false /\
  companies (snd (Service.tag_multiple_transactions transactions db now ids
                    code batch_size)) = companies db /\
  tagging_rules (snd (Service.tag_multiple_transactions transactions db now
                        ids code batch_size)) = tagging_rules db.
Proof.
  intros Hc Hb Ht Hid Hloop. unfold Service.tag_multiple_transactions.
  rewrite Hc.
  destruct (Z.eqb_spec batch_size 0) as [Hz|_]; [lia|].
  destruct (Z.ltb_spec batch_size 0) as [Hn|_]; [lia|].
  split.
  - apply (each_batch_fails transactions now c db t e); auto.
    rewrite batches_cover by lia. exact Hid.
  - apply (each_batch_keeps transactions now c
             (Service.batches (Z.to_nat batch_size) ids) 0%nat [] db
             (fst (Service.each_batch transactions now c
                     (Service.batches (Z.to_nat batch_size) ids) 0 [] db))).
    apply surjective_pairing.
Qed.

(** X22 on a sample: the rule with the guard that has no [field]. *)
Lemma one_failing_transaction_fails_the_call_witness :
  is_ok (fst (Service.tag_multiple_transactions (rt := Concrete.runtime)
                Cases6.table Sample.odd_guard_db
                (fun _ => steady "2024-01-02T00:00:00+00:00") Cases6.asked
                "ACME" 100))
  = false.
Proof.
  destruct (one_failing_transaction_fails_the_call Concrete.runtime
              Cases6.table Sample.odd_guard_db
              (fun _ => steady "2024-01-02T00:00:00+00:00")
              Cases6.asked "ACME" 100 Sample.acme
              (Cases6.txn_with_id 2 "PROD_002")
              (mkExn AttributeError
                 "'NoneType' object has no attribute 'startswith'"))
    as [H _].
  - reflexivity.
  - lia.
  - right. left. reflexivity.
  - right. left. reflexivity.
  - intros k. reflexivity.
  - exact H.
Defined.

(** ** The service layer: rules and retagging *)

Lemma one_name_at_most (name : string) (l : list TaggingRule) :
  NoDup (map rule_name l) ->
  (List.length (filter (fun r => String.eqb (rule_name r) name) l) <= 1)%nat.
Proof.
  induction l as [|r l IH]; simpl; intros Hnd; [lia|].
  inversion Hnd as [|? ? Hnotin Hnd']; subst.
  destruct (String.eqb_spec (rule_name r) name) as [Hr|_];
    [|apply IH, Hnd'].
  simpl.
  destruct (filter (fun r0 => String.eqb (rule_name r0) name) l)
    as [|x rest] eqn:E; [simpl; lia|].
  exfalso. apply Hnotin.
  assert (Hx : In x (filter (fun r0 => String.eqb (rule_name r0) name) l))
    by (rewrite E; left; reflexivity).
  apply filter_In in Hx. destruct Hx as [Hin Hx].
  apply String.eqb_eq in Hx. apply in_map_iff. exists x.
  split; [congruence | exact Hin].
Qed.

Lemma one_rule_per_key (rules : list TaggingRule) (cid : Z) (name : string) :
  rules_unique rules ->
  (List.length (filter (rule_for cid name) rules) <= 1)%nat.
Proof.
  intros Hu.
  assert (Heq : filter (rule_for cid name) rules =
                filter (fun r => String.eqb (rule_name r) name)
                       (filter (fun r => rule_company r =? cid) rules)).
  { clear Hu. induction rules as [|r rules IH]; simpl; [reflexivity|].
    unfold rule_for at 1.
    destruct (rule_company r =? cid); simpl.
    - destruct (String.eqb (rule_name r) name); rewrite IH; reflexivity.
    - exact IH. }
  rewrite Heq. apply one_name_at_most, Hu.
Qed.

Lemma replace_at_key (cid : Z) (name : string) (new : TaggingRule)
    (rules : list TaggingRule) :
  rule_for cid name new = true ->
  filter (rule_for cid name)
    (map (fun r => if rule_for cid name r then new else r) rules) =
  map (fun _ => new) (filter (rule_for cid name) rules) /\
  filter (fun r => negb (rule_for cid name r))
    (map (fun r => if rule_for cid name r then new else r) rules) =
  filter (fun r => negb (rule_for cid name r)) rules.
Proof.
  intros Hnew. induction rules as [|r rules [IH1 IH2]]; simpl;
    [split; reflexivity|].
  destruct (rule_for cid name r) eqn:Er; simpl.
  - rewrite Hnew. simpl. rewrite IH1, IH2. split; reflexivity.
  - rewrite Er. simpl. rewrite IH1, IH2. split; reflexivity.
Qed.

Section Retagging.
Context {rt : Runtime}.
Variables (transactions : list Transaction) (now : Service.clocks)
          (c : Company) (rows0 : list TransactionTag).

(** No pair without a tag in [rows0] has one in [db]. *)
Definition nothing_new (db : Database) : Prop :=
  forall a b, tags_of a b rows0 = [] -> tags_of a b (transaction_tags db) = [].

Lemma tag_each_nothing_new (ts : list Transaction) :
  (forall t, In t ts -> tags_of (txn_id t) (company_id c) rows0 <> []) ->
  forall k acc db out db',
    Service.tag_each now c ts k acc db = (out, db') ->
    nothing_new db -> nothing_new db'.
Proof.
  induction ts as [|t ts IH]; simpl; intros Hts k acc db out db' H Hdb.
  - injection H as _ <-. exact Hdb.
  - destruct (Engine.tag_transaction db (now k) t c) as [[tag db1]|e] eqn:Et.
    + apply (IH (fun x Hx => Hts x (or_intror Hx)) _ _ _ _ _ H).
      intros a b Hab.
      rewrite (tag_transaction_other_pairs c (now k) db db1 t tag a b Et).
      * apply Hdb, Hab.
      * destruct (Z.eqb_spec a (txn_id t)) as [->|_]; [|reflexivity].
        destruct (Z.eqb_spec b (company_id c)) as [->|_]; [|reflexivity].
        exfalso. apply (Hts t (or_introl eq_refl)), Hab.
    + injection H as _ <-. exact Hdb.
Qed.

Lemma each_batch_nothing_new (bs : list (list Z)) :
  (forall id, In id (List.concat bs) ->
              tags_of id (company_id c) rows0 <> []) ->
  forall k acc db out db',
    Service.each_batch transactions now c bs k acc db = (out, db') ->
    nothing_new db -> nothing_new db'.
Proof.
  induction bs as [|b bs IH]; simpl; intros Hbs k acc db out db' H Hdb.
  - injection H as _ <-. exact Hdb.
  - assert (Hb : forall t, In t (filter (Service.in_batch b) transactions) ->
                           tags_of (txn_id t) (company_id c) rows0 <> []).
    { intros t Ht. apply Hbs, in_or_app. left.
      apply filter_In in Ht. destruct Ht as [_ Ht].
      unfold Service.in_batch in Ht. apply existsb_exists in Ht.
      destruct Ht as [x [Hx Heq]]. apply Z.eqb_eq in Heq. subst x.
      exact Hx. }
    destruct (Service.tag_each now c
                (filter (Service.in_batch b) transactions) k acc db)
      as [[acc1|e] db1] eqn:Eb.
    + apply (IH (fun id Hid => Hbs id (in_or_app _ _ _ (or_intror Hid)))
               _ _ _ _ _ H).
      apply (tag_each_nothing_new _ Hb _ _ _ _ _ Eb Hdb).
    + injection H as _ <-.
      apply (tag_each_nothing_new _ Hb _ _ _ _ _ Eb Hdb).
Qed.

End Retagging.

Lemma tagged_ids (rows : list TransactionTag) (cid id : Z) :
  In id (map tt_transaction
           (rev (filter (fun row => tt_company row =? cid) rows))) ->
  tags_of id cid rows <> [].
Proof.
  intros Hin. apply in_map_iff in Hin. destruct Hin as [row [Hid Hin]].
  apply in_rev in Hin. apply filter_In in Hin. destruct Hin as [Hin Hc].
  assert (Hmem : In row (tags_of id cid rows)).
  { apply filter_In. split; [exact Hin|]. unfold tag_for.
    rewrite Hc. subst id. rewrite Z.eqb_refl. reflexivity. }
  intros E. rewrite E in Hmem. destruct Hmem.
Qed.

(** X23.  [create_or_update_rule] of the service stores what it is given
    and does not call [validate_rule_config].  For a company that exists
    (active or not), a table of rules with [unique_together] and values
    the JSON columns take: when the priority fits the integer column, it
    returns, and afterwards the key (company, name) has exactly the rule
    given (a falsy [conditions] stored as [{}]); the rules of the other
    keys are as before, in their order, the names of a company are still
    distinct, and companies and tags are untouched.  When the priority
    does not fit, the save raises [OverflowError] and nothing is
    written. *)
Theorem service_upsert_stores_the_rule_as_given
    (db : Database) (code name rule_type : string)
    (rule_config : pyval) (priority : Z) (conditions : pyval)
    (is_active : bool) (c : Company) :
  Utils.objects_get (Utils.has_code code) (companies db) = Utils.Found c ->
  rules_unique (tagging_rules db) ->
  stored_json rule_config = true ->
  is_json conditions = true ->
  if Service.fits_integer priority then
    exists db',
      Service.create_or_update_rule db code name rule_type rule_config
        priority conditions is_active = Service.Done db' /\
      filter (rule_for (company_id c) name) (tagging_rules db') =
      [mkRule (company_id c) name rule_type priority rule_config
         (if py_truthy conditions then conditions else PDict [])
         is_active] /\
      filter (fun r => negb (rule_for (company_id c) name r))
             (tagging_rules db') =
      filter (fun r => negb (rule_for (company_id c) name r))
             (tagging_rules db) /\
      rules_unique (tagging_rules db') /\
      companies db' = companies db /\
      transaction_tags db' = transaction_tags db
  else
    Service.create_or_update_rule db code name rule_type rule_config
      priority conditions is_active =
    Service.Failed
      (mkExn OverflowError
         "Python int too large to convert to SQLite INTEGER").
Proof.
  intros Hc Hu Hcfg Hconds. unfold Service.create_or_update_rule.
  rewrite Hc.
  assert (Hj1 : is_json rule_config = true)
    by (destruct rule_config; try discriminate Hcfg; exact Hcfg).
  assert (Hj2 : is_json (if py_truthy conditions then conditions
                         else PDict []) = true)
    by (destruct (py_truthy conditions); [exact Hconds | reflexivity]).
  assert (Hlen := one_rule_per_key (tagging_rules db) (company_id c) name Hu).
  set (new := mkRule (company_id c) name rule_type priority rule_config
                (if py_truthy conditions then conditions else PDict [])
                is_active).
  assert (Hnew : rule_for (company_id c) name new = true).
  { unfold rule_for, new. simpl. rewrite Z.eqb_refl, String.eqb_refl.
    reflexivity. }
  assert (Hchecks : Service.save_checks priority rule_config
                      (if py_truthy conditions then conditions else PDict [])
                    = if Service.fits_integer priority then Ok tt
                      else raise OverflowError
                        "Python int too large to convert to SQLite INTEGER").
  { unfold Service.save_checks. rewrite Hj1, Hj2. cbn [negb orb].
    destruct (Service.fits_integer priority); [|reflexivity].
    destruct rule_config; try reflexivity. discriminate Hcfg. }
  rewrite Hchecks.
  destruct (Service.fits_integer priority).
  - cbn [bind].
    destruct (Utils.update_or_create_rule (tagging_rules db) (company_id c)
                name new) as [rules'|e] eqn:Eup.
    + assert (Huniq := update_or_create_rule_unique _ _ _ _ _ Hu Eup
                         eq_refl eq_refl).
      unfold Utils.update_or_create_rule in Eup.
      unfold Utils.objects_get in *.
      destruct (filter (rule_for (company_id c) name) (tagging_rules db))
        as [|x [|y l]] eqn:E; [| |discriminate Eup]; injection Eup as <-.
      * eexists. split; [reflexivity|]. cbn [tagging_rules companies
                                              transaction_tags].
        rewrite !filter_app, E. simpl. rewrite Hnew. simpl.
        rewrite app_nil_r. repeat split; auto.
      * eexists. split; [reflexivity|]. cbn [tagging_rules companies
                                              transaction_tags].
        destruct (replace_at_key (company_id c) name new (tagging_rules db)
                    Hnew) as [H1 H2].
        rewrite H1, H2, E. repeat split; auto.
    + exfalso. unfold Utils.update_or_create_rule, Utils.objects_get in Eup.
      destruct (filter (rule_for (company_id c) name) (tagging_rules db))
        as [|x [|y l]]; [discriminate Eup | discriminate Eup|].
      simpl in Hlen. lia.
  - unfold Utils.objects_get.
    destruct (filter (rule_for (company_id c) name) (tagging_rules db))
      as [|x [|y l]]; [reflexivity | reflexivity|].
    simpl in Hlen. lia.
Qed.

(** X23 on a sample: a simple rule without [mappings], which
    [validate_rule_config] refuses, replaces the rule R1 of a company
    that is switched off; with the priority 2^63 the call raises. *)
Lemma service_upsert_stores_the_rule_as_given_witness :
  is_ok (Utils.validate_rule_config (rt := Concrete.runtime)
           (PStr "simple") (PDict [])) = false /\
  (exists db',
    Service.create_or_update_rule Cases6.closed_db "ACME" "R1" "simple"
      (PDict []) 5 PNone true = Service.Done db' /\
    filter (rule_for 1 "R1") (tagging_rules db') =
    [mkRule 1 "R1" "simple" 5 (PDict []) (PDict []) true] /\
    filter (fun r => negb (rule_for 1 "R1" r)) (tagging_rules db') =
    filter (fun r => negb (rule_for 1 "R1" r))
           (tagging_rules Cases6.closed_db) /\
    rules_unique (tagging_rules db') /\
    companies db' = companies Cases6.closed_db /\
    transaction_tags db' = transaction_tags Cases6.closed_db) /\
  Service.create_or_update_rule Cases6.closed_db "ACME" "R1" "simple"
    (PDict []) (2 ^ 63) PNone true =
  Service.Failed
    (mkExn OverflowError "Python int too large to convert to SQLite INTEGER").
Proof.
  assert (Hu : rules_unique (tagging_rules Cases6.closed_db)).
  { intros k. cbn -[Z.eqb].
    destruct (1 =? k); simpl;
      [constructor; [intros [] | constructor] | constructor]. }
  split; [reflexivity|]. split.
  - exact (service_upsert_stores_the_rule_as_given
             Cases6.closed_db "ACME" "R1" "simple" (PDict []) 5 PNone true
             (mkCompany 1 "Acme" "ACME" false) eq_refl Hu eq_refl eq_refl).
  - exact (service_upsert_stores_the_rule_as_given
             Cases6.closed_db "ACME" "R1" "simple" (PDict []) (2 ^ 63) PNone
             true (mkCompany 1 "Acme" "ACME" false) eq_refl Hu eq_refl
             eq_refl).
Defined.

(** X24.  [retag_company_transactions] creates no tag: whether it
    returns or raises, a pair (transaction, company) that had no tag
    before the call has none after it, and companies and rules are as
    they were.  When it returns, the count is at most the number of tags
    the company had. *)
Theorem retagging_creates_no_tag
    (rt : Runtime) (transactions : list Transaction) (db db' : Database)
    (now : Service.clocks) (code : string) (out : res Z) (c : Company) :
  Utils.objects_get (Service.active_with_code code) (companies db)
  = Utils.Found c ->
  Service.retag_company_transactions transactions db now code = (out, db') ->
  (forall a b, tags_of a b (transaction_tags db) = [] ->
               tags_of a b (transaction_tags db') = []) /\
  companies db' = companies db /\
  tagging_rules db' = tagging_rules db /\
  (forall n, out = Ok n ->
     0 <= n <= Z.of_nat (List.length
                (filter (fun row => tt_company row =? company_id c)
                        (transaction_tags db)))).
Proof.
  intros Hc H. unfold Service.retag_company_transactions in H.
  rewrite Hc in H.
  set (ids := map tt_transaction
                (rev (filter (fun row => tt_company row =? company_id c)
                        (transaction_tags db)))) in *.
  destruct (Service.tag_multiple_transactions transactions db now ids
              code 100) as [r db1] eqn:Em.
  assert (Hdb : db1 = db') by (destruct r; injection H as _ <-; reflexivity).
  subst db1.
  unfold Service.tag_multiple_transactions in Em. rewrite Hc in Em.
  change (100 =? 0) with false in Em. change (100 <? 0) with false in Em.
  cbv iota in Em.
  assert (Hkeys : forall rs, r = Ok rs ->
            (List.length rs <= List.length ids)%nat).
  { intros rs ->.
    destruct (each_batch_keys transactions now c _ _ _ _ _ _ Em)
      as [Hk Hnd].
    rewrite <- (length_map fst rs).
    apply NoDup_incl_length; [apply Hnd; constructor|]. intros id Hid.
    apply Hk in Hid. destruct Hid as [[]|[Hid _]].
    rewrite batches_cover in Hid by lia. exact Hid. }
  split; [|split; [|split]].
  - apply (each_batch_nothing_new transactions now c (transaction_tags db)
             _ (fun id Hid => tagged_ids _ _ _
                   (eq_ind _ (fun l => In id l) Hid _
                      (batches_cover (Z.to_nat 100) ids ltac:(lia))))
             _ _ _ _ _ Em).
    intros a b Hab. exact Hab.
  - apply (each_batch_keeps transactions now c _ _ _ _ _ _ Em).
  - apply (each_batch_keeps transactions now c _ _ _ _ _ _ Em).
  - intros n Hn. destruct r as [rs|e]; [|injection H as <-; discriminate Hn].
    injection H as <-. injection Hn as <-.
    assert (Hl := Hkeys rs eq_refl). unfold ids in Hl.
    rewrite length_map, length_rev in Hl. lia.
Qed.

(** X24 on a sample: transaction 1 has a tag put by hand, transaction 3
    has none; retagging rewrites the first, whose [is_manual_override]
    stays set, and leaves the second without a tag. *)
Lemma retagging_creates_no_tag_witness :
  Service.retag_company_transactions (rt := Concrete.runtime) Cases6.table
    Cases6.tagged_db (fun _ => steady "2024-01-02T00:00:00+00:00") "ACME"
  = (Ok 1,
     mkDb [Sample.acme] [Sample.low_rule; Sample.high_rule]
       [mkTag 1 1 (PStr "HIGH") 1 true "Rule 'R1' matched: HIGH"
          "2024-01-02T00:00:00+00:00"]) /\
  tags_of 3 1
    [mkTag 1 1 (PStr "HIGH") 1 true "Rule 'R1' matched: HIGH"
       "2024-01-02T00:00:00+00:00"] = [].
Proof.
  split; [reflexivity|].
  apply (retagging_creates_no_tag Concrete.runtime Cases6.table
           Cases6.tagged_db
           (mkDb [Sample.acme] [Sample.low_rule; Sample.high_rule]
              [mkTag 1 1 (PStr "HIGH") 1 true "Rule 'R1' matched: HIGH"
                 "2024-01-02T00:00:00+00:00"])
           (fun _ => steady "2024-01-02T00:00:00+00:00") "ACME" (Ok 1)
           Sample.acme);
    reflexivity.
Defined.
